(** * AIHawk command-line entry point: configuration validation, data-folder
      resolution and resume dispatch ([main.py]).

    The Python code is embedded shallowly: parsed YAML documents are an
    inductive type, Python dictionaries are insertion-ordered association
    lists, exceptions are values of an error monad, and the file system and
    the logger are threaded explicitly where the code touches them. *)

From Stdlib Require Import String Ascii List ZArith Bool Lia PrimFloat.
Import ListNotations.
Open Scope string_scope.

(** ** Parsed YAML documents

    What [yaml.safe_load] builds for the core schema: [None], [bool], [int],
    [float], [str], [list] and [dict] (timestamps, binary data and sets are
    left out).  A dictionary keeps insertion order and its keys may be any
    value; the code only ever looks keys up by a string. *)

#[warnings="-register-all"]
Inductive yaml : Type :=
| YNull
| YBool (b : bool)
| YInt (z : Z)
| YFloat (f : float)
| YStr (s : string)
| YList (items : list yaml)
| YDict (entries : list (yaml * yaml)).

(** The classes the validator passes to [isinstance]. *)
Inductive pytype : Type := TBool | TDict | TList | TInt | TStr.

(** [expected_type.__name__] *)
Definition type_name (t : pytype) : string :=
  match t with
  | TBool => "bool"
  | TDict => "dict"
  | TList => "list"
  | TInt => "int"
  | TStr => "str"
  end.

(** [isinstance(v, t)]; [bool] is a subclass of [int]. *)
Definition isinstance (v : yaml) (t : pytype) : bool :=
  match t, v with
  | TBool, YBool _ => true
  | TDict, YDict _ => true
  | TList, YList _ => true
  | TInt, YInt _ => true
  | TInt, YBool _ => true
  | TStr, YStr _ => true
  | _, _ => false
  end.

(** [v is None] *)
Definition is_none (v : yaml) : bool :=
  match v with YNull => true | _ => false end.

(** Truth value of an object, as [not v] tests it. *)
Definition truthy (v : yaml) : bool :=
  match v with
  | YNull => false
  | YBool b => b
  | YInt z => negb (z =? 0)%Z
  | YFloat f => negb (PrimFloat.eqb f PrimFloat.zero)
  | YStr s => negb (s =? "")
  | YList items => match items with [] => false | _ => true end
  | YDict entries => match entries with [] => false | _ => true end
  end.

(** ** Exceptions *)

(** One constructor per message template of a [ConfigError]; the arguments are
    the values interpolated into the f-string. *)
Inductive config_msg : Type :=
| YamlReadError (yaml_path exc : string)
    (* "Error reading YAML file {yaml_path}: {exc}" *)
| YamlNotFound (yaml_path : string)
    (* "YAML file not found: {yaml_path}" *)
| MissingRequiredKey (key config_yaml_path : string)
    (* "Missing required key '{key}' in {config_yaml_path}" *)
| InvalidType (key config_yaml_path type_name : string)
    (* "Invalid type for key '{key}' in {config_yaml_path}. Expected {name}." *)
| ExperienceLevelNotBool (level config_path : string)
    (* "Experience level '{level}' must be a boolean in {config_path}" *)
| JobTypeNotBool (job_type config_path : string)
    (* "Job type '{job_type}' must be a boolean in {config_path}" *)
| DateFilterNotBool (date_filter config_path : string)
    (* "Date filter '{date_filter}' must be a boolean in {config_path}" *)
| NotListOfStrings (key config_path : string)
    (* "'{key}' must be a list of strings in {config_path}" *)
| InvalidDistance (distance : yaml) (config_path : string)
    (* "Invalid distance value '{distance}' in {config_path}. Must be one of: ..." *)
| BlacklistNotList (blacklist config_path : string)
    (* "'{blacklist}' must be a list in {config_path}" *)
| MissingSecret (secret secrets_yaml_path : string)
    (* "Missing secret '{secret}' in {secrets_yaml_path}" *)
| EmptySecret (secret secrets_yaml_path : string).
    (* "Secret '{secret}' cannot be empty in {secrets_yaml_path}" *)

Inductive exn : Type :=
| ConfigError (msg : config_msg)
| TypeError
| KeyError (key : string)
| AttributeError
| FileNotFoundError (msg : string)
| FileExistsError (path : string)
| IsADirectoryError (path : string)
| ValueError (msg : string)
| BinasciiError (msg : string)
| RuntimeError (msg : string).

(** The two kinds of [ConfigError] the specification tells apart. *)
Definition is_parse_failure (e : exn) : bool :=
  match e with
  | ConfigError (YamlReadError _ _) => true
  | ConfigError (YamlNotFound _) => true
  | _ => false
  end.

Definition is_schema_violation (e : exn) : bool :=
  match e with
  | ConfigError (YamlReadError _ _) => false
  | ConfigError (YamlNotFound _) => false
  | ConfigError _ => true
  | _ => false
  end.

Definition is_config_error (e : exn) : bool :=
  match e with ConfigError _ => true | _ => false end.

(** ** The error monad *)

Inductive result (A : Type) : Type :=
| Ok (a : A)
| Raise (e : exn).
Arguments Ok {A} a.
Arguments Raise {A} e.

Definition bind {A B : Type} (c : result A) (k : A -> result B) : result B :=
  match c with
  | Ok a => k a
  | Raise e => Raise e
  end.

Notation "x <- c ;; k" := (bind c (fun x => k))
  (at level 61, c at next level, right associativity).
Notation "c ;;; k" := (bind c (fun _ => k))
  (at level 61, right associativity).

(** A [for] loop whose body may raise. *)
Fixpoint for_each {A : Type} (body : A -> result unit) (l : list A) : result unit :=
  match l with
  | [] => Ok tt
  | x :: rest => body x ;;; for_each body rest
  end.

(** ** Python containers *)

(** A dictionary key equals the string literal [k] only when it is that string. *)
Definition key_is (k : string) (y : yaml) : bool :=
  match y with YStr s => (s =? k) | _ => false end.

Fixpoint dict_get (d : list (yaml * yaml)) (k : string) : option yaml :=
  match d with
  | [] => None
  | (k', v) :: rest => if key_is k k' then Some v else dict_get rest k
  end.

(** [d[k] = v]: an existing key keeps its position, a new one goes last. *)
Fixpoint dict_set (d : list (yaml * yaml)) (k : string) (v : yaml) : list (yaml * yaml) :=
  match d with
  | [] => [(YStr k, v)]
  | (k', v') :: rest =>
      if key_is k k' then (k', v) :: rest else (k', v') :: dict_set rest k v
  end.

Definition dict_has (d : list (yaml * yaml)) (k : string) : bool :=
  match dict_get d k with Some _ => true | None => false end.

(** [sub in s] on strings. *)
Fixpoint is_substring (sub s : string) : bool :=
  String.prefix sub s ||
  match s with
  | EmptyString => false
  | String _ rest => is_substring sub rest
  end.

(** [key in container] *)
Definition py_contains (key : string) (container : yaml) : result bool :=
  match container with
  | YDict d => Ok (dict_has d key)
  | YList items => Ok (existsb (key_is key) items)
  | YStr s => Ok (is_substring key s)
  | _ => Raise TypeError
  end.

(** [container[key]] with a string key *)
Definition py_getitem (container : yaml) (key : string) : result yaml :=
  match container with
  | YDict d =>
      match dict_get d key with
      | Some v => Ok v
      | None => Raise (KeyError key)
      end
  | _ => Raise TypeError
  end.

(** [container[key] = v]; the updated container is returned. *)
Definition py_setitem (container : yaml) (key : string) (v : yaml) : result yaml :=
  match container with
  | YDict d => Ok (YDict (dict_set d key v))
  | _ => Raise TypeError
  end.

(** [container.get(key)] *)
Definition py_get (container : yaml) (key : string) : result yaml :=
  match container with
  | YDict d =>
      match dict_get d key with
      | Some v => Ok v
      | None => Ok YNull
      end
  | _ => Raise AttributeError
  end.

(** The items a [for item in container] visits. *)
Definition py_iter (container : yaml) : result (list yaml) :=
  match container with
  | YList items => Ok items
  | YDict d => Ok (map fst d)
  | YStr s => Ok (map (fun c => YStr (String c EmptyString)) (list_ascii_of_string s))
  | _ => Raise TypeError
  end.

(** ** ConfigValidator *)

Module ConfigValidator.

(** The class-level tables, in declaration (and hence iteration) order. *)
Definition REQUIRED_CONFIG_KEYS : list (string * pytype) :=
  [ ("remote", TBool);
    ("experience_level", TDict);
    ("job_types", TDict);
    ("date", TDict);
    ("positions", TList);
    ("locations", TList);
    ("location_blacklist", TList);
    ("distance", TInt);
    ("company_blacklist", TList);
    ("title_blacklist", TList) ].

Definition EXPERIENCE_LEVELS : list string :=
  ["internship"; "entry"; "associate"; "mid_senior_level"; "director"; "executive"].

Definition JOB_TYPES : list string :=
  ["full_time"; "contract"; "part_time"; "temporary"; "internship"; "other"; "volunteer"].

Definition DATE_FILTERS : list string :=
  ["all_time"; "month"; "week"; "24_hours"].

Definition APPROVED_DISTANCES : list Z := [0; 5; 10; 25; 50; 100]%Z.

(** The literal list both blacklist branches of [validate_config] and
    [_validate_blacklists] spell out. *)
Definition BLACKLIST_KEYS : list string :=
  ["company_blacklist"; "title_blacklist"; "location_blacklist"].

Definition is_blacklist_key (key : string) : bool :=
  existsb (String.eqb key) BLACKLIST_KEYS.

(** *** Loading

    The file store maps a path to its text when the file exists; the YAML
    parser is a collaborator that either builds a document or reports a
    [YAMLError] with its text.  These are the two failures [load_yaml]
    catches; other errors of the operating system are not modelled. *)

Section Loading.

Variable safe_load : string -> yaml + string.
Variable read_text : string -> option string.

Definition load_yaml (yaml_path : string) : result yaml :=
  match read_text yaml_path with
  | None => Raise (ConfigError (YamlNotFound yaml_path))
  | Some stream =>
      match safe_load stream with
      | inl document => Ok document
      | inr exc => Raise (ConfigError (YamlReadError yaml_path exc))
      end
  end.

End Loading.

(** *** The required-key and type pass (the [for] loop of [validate_config]) *)

Definition check_required_key (config_yaml_path : string) (parameters : yaml)
    (entry : string * pytype) : result yaml :=
  let (key, expected_type) := entry in
  present <- py_contains key parameters ;;
  if negb present then
    if is_blacklist_key key then py_setitem parameters key (YList [])
    else Raise (ConfigError (MissingRequiredKey key config_yaml_path))
  else
    value <- py_getitem parameters key ;;
    if negb (isinstance value expected_type) then
      if is_blacklist_key key && is_none value then py_setitem parameters key (YList [])
      else Raise (ConfigError (InvalidType key config_yaml_path (type_name expected_type)))
    else Ok parameters.

Fixpoint check_required_keys (config_yaml_path : string) (parameters : yaml)
    (entries : list (string * pytype)) : result yaml :=
  match entries with
  | [] => Ok parameters
  | entry :: rest =>
      parameters' <- check_required_key config_yaml_path parameters entry ;;
      check_required_keys config_yaml_path parameters' rest
  end.

(** *** The nested checks *)

Definition _validate_experience_levels (experience_levels : yaml) (config_path : string)
    : result unit :=
  for_each (fun level =>
    value <- py_get experience_levels level ;;
    if negb (isinstance value TBool)
    then Raise (ConfigError (ExperienceLevelNotBool level config_path))
    else Ok tt) EXPERIENCE_LEVELS.

Definition _validate_job_types (job_types : yaml) (config_path : string) : result unit :=
  for_each (fun job_type =>
    value <- py_get job_types job_type ;;
    if negb (isinstance value TBool)
    then Raise (ConfigError (JobTypeNotBool job_type config_path))
    else Ok tt) JOB_TYPES.

Definition _validate_date_filters (date_filters : yaml) (config_path : string) : result unit :=
  for_each (fun date_filter =>
    value <- py_get date_filters date_filter ;;
    if negb (isinstance value TBool)
    then Raise (ConfigError (DateFilterNotBool date_filter config_path))
    else Ok tt) DATE_FILTERS.

Definition _validate_list_of_strings (parameters : yaml) (keys : list string)
    (config_path : string) : result unit :=
  for_each (fun key =>
    value <- py_getitem parameters key ;;
    items <- py_iter value ;;
    if negb (forallb (fun item => isinstance item TStr) items)
    then Raise (ConfigError (NotListOfStrings key config_path))
    else Ok tt) keys.

Definition approved (z : Z) : bool := existsb (Z.eqb z) APPROVED_DISTANCES.

(** The same numbers as floats, for the comparison a float gets. *)
Definition APPROVED_DISTANCES_AS_FLOAT : list float :=
  [0; 5; 10; 25; 50; 100]%float.

(** [distance in APPROVED_DISTANCES]: set membership hashes its argument and
    compares numbers, with [False == 0] and [True == 1]. *)
Definition in_approved_distances (distance : yaml) : result bool :=
  match distance with
  | YInt z => Ok (approved z)
  | YBool b => Ok (approved (if b then 1 else 0))
  | YFloat f => Ok (existsb (PrimFloat.eqb f) APPROVED_DISTANCES_AS_FLOAT)
  | YNull | YStr _ => Ok false
  | YList _ | YDict _ => Raise TypeError
  end.

Definition _validate_distance (distance : yaml) (config_path : string) : result unit :=
  present <- in_approved_distances distance ;;
  if negb present
  then Raise (ConfigError (InvalidDistance distance config_path))
  else Ok tt.

(** One round of the loop of [_validate_blacklists]; the dictionary is
    updated in place, so the updated dictionary is handed on. *)
Definition validate_blacklist (config_path : string) (parameters : yaml)
    (blacklist : string) : result yaml :=
  value <- py_get parameters blacklist ;;
  if negb (isinstance value TList)
  then Raise (ConfigError (BlacklistNotList blacklist config_path))
  else
    value' <- py_getitem parameters blacklist ;;
    if is_none value' then py_setitem parameters blacklist (YList [])
    else Ok parameters.

Fixpoint validate_blacklists_loop (config_path : string) (parameters : yaml)
    (blacklists : list string) : result yaml :=
  match blacklists with
  | [] => Ok parameters
  | blacklist :: rest =>
      parameters' <- validate_blacklist config_path parameters blacklist ;;
      validate_blacklists_loop config_path parameters' rest
  end.

Definition _validate_blacklists (parameters : yaml) (config_path : string) : result yaml :=
  validate_blacklists_loop config_path parameters BLACKLIST_KEYS.

(** *** [validate_config], from the parsed document on *)

Definition validate_parameters (config_yaml_path : string) (parameters : yaml)
    : result yaml :=
  parameters <- check_required_keys config_yaml_path parameters REQUIRED_CONFIG_KEYS ;;
  experience_level <- py_getitem parameters "experience_level" ;;
  _validate_experience_levels experience_level config_yaml_path ;;;
  job_types <- py_getitem parameters "job_types" ;;
  _validate_job_types job_types config_yaml_path ;;;
  date <- py_getitem parameters "date" ;;
  _validate_date_filters date config_yaml_path ;;;
  _validate_list_of_strings parameters ["positions"; "locations"] config_yaml_path ;;;
  distance <- py_getitem parameters "distance" ;;
  _validate_distance distance config_yaml_path ;;;
  parameters <- _validate_blacklists parameters config_yaml_path ;;
  Ok parameters.

Section Validation.

Variable safe_load : string -> yaml + string.
Variable read_text : string -> option string.

Definition validate_config (config_yaml_path : string) : result yaml :=
  parameters <- load_yaml safe_load read_text config_yaml_path ;;
  validate_parameters config_yaml_path parameters.

Definition validate_secret (secrets_yaml_path : string) (secrets : yaml)
    (secret : string) : result unit :=
  present <- py_contains secret secrets ;;
  if negb present
  then Raise (ConfigError (MissingSecret secret secrets_yaml_path))
  else
    value <- py_getitem secrets secret ;;
    if negb (truthy value)
    then Raise (ConfigError (EmptySecret secret secrets_yaml_path))
    else Ok tt.

Definition validate_secrets (secrets_yaml_path : string) : result yaml :=
  secrets <- load_yaml safe_load read_text secrets_yaml_path ;;
  let mandatory_secrets := ["llm_api_key"] in
  for_each (validate_secret secrets_yaml_path secrets) mandatory_secrets ;;;
  py_getitem secrets "llm_api_key".

End Validation.

End ConfigValidator.

(** ** FileManager *)

Module FileManager.

(** The part of the file system the program looks at: the directories that
    exist and the regular files with their contents.  A path is its text. *)
Record filesystem : Type := {
  fs_dirs : list string;
  fs_files : list (string * string)
}.

(** [folder / name] *)
Definition path_join (folder name : string) : string := folder ++ "/" ++ name.

Definition is_dir (fs : filesystem) (path : string) : bool :=
  existsb (String.eqb path) (fs_dirs fs).

Definition is_file (fs : filesystem) (path : string) : bool :=
  existsb (fun file => fst file =? path) (fs_files fs).

(** [path.exists()] *)
Definition path_exists (fs : filesystem) (path : string) : bool :=
  is_dir fs path || is_file fs path.

(** [path.mkdir(exist_ok=True)] below a directory that exists. *)
Definition mkdir_exist_ok (fs : filesystem) (path : string) : result filesystem :=
  if is_dir fs path then Ok fs
  else if is_file fs path then Raise (FileExistsError path)
  else Ok {| fs_dirs := fs_dirs fs ++ [path]; fs_files := fs_files fs |}.

Section DataFolder.

(** The file names of [src.utils.constants]. *)
Variables SECRETS_YAML WORK_PREFERENCES_YAML PLAIN_TEXT_RESUME_YAML : string.

Definition REQUIRED_FILES : list string :=
  [SECRETS_YAML; WORK_PREFERENCES_YAML; PLAIN_TEXT_RESUME_YAML].

(** The list comprehension bound to [missing_files]. *)
Definition missing_files (fs : filesystem) (app_data_folder : string) : list string :=
  filter (fun file => negb (path_exists fs (path_join app_data_folder file)))
    REQUIRED_FILES.

(** [validate_data_folder]: the file system afterwards and the four paths or
    the exception. *)
Definition validate_data_folder (fs : filesystem) (app_data_folder : string)
    : filesystem * result (string * string * string * string) :=
  if negb (is_dir fs app_data_folder) then
    (fs, Raise (FileNotFoundError ("Data folder not found: " ++ app_data_folder)))
  else
    match missing_files fs app_data_folder with
    | (_ :: _) as missing =>
        (fs, Raise (FileNotFoundError
                      ("Missing files in data folder: " ++ String.concat ", " missing)))
    | [] =>
        let output_folder := path_join app_data_folder "output" in
        match mkdir_exist_ok fs output_folder with
        | Raise e => (fs, Raise e)
        | Ok fs' =>
            (fs', Ok (path_join app_data_folder SECRETS_YAML,
                      path_join app_data_folder WORK_PREFERENCES_YAML,
                      path_join app_data_folder PLAIN_TEXT_RESUME_YAML,
                      output_folder))
        end
    end.

End DataFolder.

End FileManager.

(** ** [base64.b64decode]

    The decoder of the Python library with its default [validate=False]:
    the text must be ASCII; characters outside the alphabet are skipped; an
    error is raised only when the data characters that remain leave a quad
    unfinished. *)

Module Base64.

Definition ALPHABET : string :=
  "ABCDEFGHIJKLMNOPQRSTUVWXYZabcdefghijklmnopqrstuvwxyz0123456789+/".

Definition PAD : ascii := "="%char.

Fixpoint index_of (c : ascii) (alphabet : list ascii) (i : N) : option N :=
  match alphabet with
  | [] => None
  | a :: rest => if Ascii.eqb a c then Some i else index_of c rest (i + 1)%N
  end.

(** The six-bit value of an alphabet character ([table_a2b_base64]). *)
Definition b64_value (c : ascii) : option N :=
  index_of c (list_ascii_of_string ALPHABET) 0%N.

Definition byte_of (n : N) : ascii := ascii_of_N (n mod 256).

(** What the quad holds when the input ends decides the outcome. *)
Definition finish (quad_pos : nat) (out : list ascii) : result (list ascii) :=
  match quad_pos with
  | 0 => Ok out
  | 1 => Raise (BinasciiError
                  "Invalid base64-encoded string: number of data characters cannot be 1 more than a multiple of 4")
  | _ => Raise (BinasciiError "Incorrect padding")
  end.

(** The character loop of [binascii.a2b_base64] outside strict mode. *)
Fixpoint a2b_loop (data : list ascii) (quad_pos : nat) (leftchar : N) (pads : nat)
    (out : list ascii) : result (list ascii) :=
  match data with
  | [] => finish quad_pos out
  | this_ch :: rest =>
      if Ascii.eqb this_ch PAD then
        if (2 <=? quad_pos)%nat then
          if (4 <=? quad_pos + (pads + 1))%nat then Ok out
          else a2b_loop rest quad_pos leftchar (pads + 1) out
        else a2b_loop rest quad_pos leftchar pads out
      else
        match b64_value this_ch with
        | None => a2b_loop rest quad_pos leftchar pads out
        | Some v =>
            match quad_pos with
            | 0 => a2b_loop rest 1 v 0 out
            | 1 =>
                a2b_loop rest 2 (N.land v 15) 0
                  (out ++ [byte_of (N.lor (N.shiftl leftchar 2) (N.shiftr v 4))])
            | 2 =>
                a2b_loop rest 3 (N.land v 3) 0
                  (out ++ [byte_of (N.lor (N.shiftl leftchar 4) (N.shiftr v 2))])
            | _ =>
                a2b_loop rest 0 0 0
                  (out ++ [byte_of (N.lor (N.shiftl leftchar 6) v)])
            end
        end
  end.

Definition is_ascii (c : ascii) : bool := (nat_of_ascii c <? 128)%nat.

Definition b64decode (s : string) : result string :=
  let data := list_ascii_of_string s in
  if negb (forallb is_ascii data)
  then Raise (ValueError "string argument should contain only ASCII characters")
  else
    out <- a2b_loop data 0 0%N 0 [] ;;
    Ok (string_of_list_ascii out).

(** Up to [n] pads taken off the front of the reversed text. *)
Fixpoint drop_pads (n : nat) (reversed : list ascii) : list ascii :=
  match n, reversed with
  | S n', c :: rest => if Ascii.eqb c PAD then drop_pads n' rest else reversed
  | _, _ => reversed
  end.

Definition is_alphabet (c : ascii) : bool :=
  match b64_value c with Some _ => true | None => false end.

(** Base64 text as the encoding defines it: quads of alphabet characters,
    the last one closed by at most two pad characters.  This is the notion
    of a valid payload, not what the decoder tests. *)
Definition valid_base64 (s : string) : bool :=
  let data := list_ascii_of_string s in
  (length data mod 4 =? 0)%nat && forallb is_alphabet (drop_pads 2 (rev data)).

End Base64.

(** ** The dispatch flow for a plain resume *)

Module Dispatch.
Import FileManager.

Definition ACTION_MAPPING : list (string * string) :=
  [ ("resume", "Generate Resume");
    ("job", "Generate Resume Tailored for Job Description");
    ("cover", "Generate Tailored Cover Letter for Job Description") ].

Definition STYLE_MAPPING : list (string * string) :=
  [ ("clean-blue", "Clean Blue");
    ("modern-blue", "Modern Blue");
    ("modern-grey", "Modern Grey");
    ("default", "Default");
    ("cloyola-grey", "Cloyola Grey") ].

Inductive log_entry : Type :=
| LogInfo (msg : string)
| LogWarning (msg : string)
| LogError (msg : string)
| LogException (msg : string).

(** What the flow can change: the files and the log. *)
Record world : Type := {
  w_fs : filesystem;
  w_log : list log_entry
}.

(** Computations that read and change the world and may raise. *)
Definition io (A : Type) : Type := world -> result A * world.

Definition io_ret {A : Type} (a : A) : io A := fun w => (Ok a, w).

Definition io_raise {A : Type} (e : exn) : io A := fun w => (Raise e, w).

Definition io_lift {A : Type} (r : result A) : io A := fun w => (r, w).

Definition io_bind {A B : Type} (c : io A) (k : A -> io B) : io B :=
  fun w =>
    match c w with
    | (Ok a, w') => k a w'
    | (Raise e, w') => (Raise e, w')
    end.

Notation "x <<- c ;; k" := (io_bind c (fun x => k))
  (at level 61, c at next level, right associativity).
Notation "c >>> k" := (io_bind c (fun _ => k))
  (at level 61, right associativity).

(** [try: body except Exception as e: handler] *)
Definition try_except {A : Type} (body : io A) (handler : exn -> io A) : io A :=
  fun w =>
    match body w with
    | (Ok a, w') => (Ok a, w')
    | (Raise e, w') => handler e w'
    end.

Definition log (entry : log_entry) : io unit :=
  fun w => (Ok tt, {| w_fs := w_fs w; w_log := w_log w ++ [entry] |}).

(** [str(e)], as far as the log needs it. *)
Definition exn_text (e : exn) : string :=
  match e with
  | ConfigError _ => "ConfigError"
  | TypeError => "TypeError"
  | KeyError key => "'" ++ key ++ "'"
  | AttributeError => "AttributeError"
  | FileNotFoundError msg => msg
  | FileExistsError path => path
  | IsADirectoryError path => path
  | ValueError msg => msg
  | BinasciiError msg => msg
  | RuntimeError msg => msg
  end.

(** [except base64.binascii.Error] and [except IOError] *)
Definition is_binascii_error (e : exn) : bool :=
  match e with BinasciiError _ => true | _ => false end.

Definition is_io_error (e : exn) : bool :=
  match e with
  | FileNotFoundError _ | FileExistsError _ | IsADirectoryError _ => true
  | _ => false
  end.

Definition file_content (fs : filesystem) (path : string) : option string :=
  option_map snd (find (fun file => fst file =? path) (fs_files fs)).

(** [open(path, "r").read()] *)
Definition read_file (path : string) : io string :=
  fun w =>
    match file_content (w_fs w) path with
    | Some text => (Ok text, w)
    | None =>
        if is_dir (w_fs w) path then (Raise (IsADirectoryError path), w)
        else (Raise (FileNotFoundError path), w)
    end.

(** Binding [path] to [data], in place when the file exists. *)
Fixpoint put_file (files : list (string * string)) (path data : string)
    : list (string * string) :=
  match files with
  | [] => [(path, data)]
  | file :: rest =>
      if (fst file =? path) then (path, data) :: rest
      else file :: put_file rest path data
  end.

(** [with open(output_dir / name, "wb") as file: file.write(data)] *)
Definition write_file (output_dir name data : string) : io unit :=
  fun w =>
    let output_path := path_join output_dir name in
    if negb (is_dir (w_fs w) output_dir) then (Raise (FileNotFoundError output_path), w)
    else if is_dir (w_fs w) output_path then (Raise (IsADirectoryError output_path), w)
    else (Ok tt, {| w_fs := {| fs_dirs := fs_dirs (w_fs w);
                               fs_files := put_file (fs_files (w_fs w)) output_path data |};
                    w_log := w_log w |}).

(** The collaborators of the flow: what each call hands back. *)
Record collaborators : Type := {
  get_styles : list string;
    (* the style names of [style_manager.get_styles()], in order *)
  prompt_style : option string;
    (* the "style" entry of the answer to the style question, if any *)
  make_resume : string -> result unit;
    (* [Resume(plain_text_resume)] *)
  init_browser : result unit;
  facade_create_resume_pdf : result string;
    (* [resume_facade.create_resume_pdf()] *)
  strftime_now : string
    (* [datetime.now().strftime("%Y%m%d_%H%M%S")] *)
}.

Section Flow.

Variable env : collaborators.

Definition prompt_style_selection : io (option string) :=
  match get_styles env with
  | [] =>
      log (LogWarning "No styles available. Proceeding without style selection.") >>>
      io_ret None
  | available_styles =>
      match prompt_style env with
      | Some selected_choice =>
          io_ret (find (fun style_name => String.prefix style_name selected_choice)
                    available_styles)
      | None => io_ret None
      end
  end.

(** A name that passes the test [if name:], i.e. neither [None] nor empty. *)
Definition given (name : option string) : option string :=
  match name with
  | Some text => if (text =? "") then None else Some text
  | None => None
  end.

Definition get_output_filename (action style : string) (custom_filename : option string)
    : string :=
  match given custom_filename with
  | Some name => name
  | None =>
      let action_name :=
        match find (fun kv => snd kv =? action) ACTION_MAPPING with
        | Some kv => fst kv
        | None => "output"
        end in
      action_name ++ "_" ++ style ++ "_" ++ strftime_now env ++ ".pdf"
  end.

(** A path stored in the parameters bundle. *)
Definition as_path (v : yaml) : result string :=
  match v with YStr path => Ok path | _ => Raise TypeError end.

(** The style block: the given style when it is a known one, else the
    prompted one, else ["default"]. *)
Definition select_style (style_name : option string) : io string :=
  let known :=
    match given style_name with
    | Some name => existsb (fun kv => fst kv =? name) STYLE_MAPPING
    | None => false
    end in
  match style_name, known with
  | Some name, true =>
      log (LogInfo ("Using selected style: " ++ name)) >>> io_ret name
  | _, _ =>
      selected_style <<- prompt_style_selection ;;
      match given selected_style with
      | Some name => io_ret name
      | None =>
          log (LogWarning "No style selected. Proceeding with default style.") >>>
          io_ret "default"
      end
  end.

(** The inner [try] around [base64.b64decode]. *)
Definition decode_payload (result_base64 : string) : io string :=
  try_except (io_lift (Base64.b64decode result_base64))
    (fun e =>
       if is_binascii_error e
       then log (LogError ("Error decoding Base64: " ++ exn_text e)) >>> io_raise e
       else io_raise e).

(** The inner [try] around the write. *)
Definition write_pdf (output_dir output_filename pdf_data : string) : io unit :=
  try_except
    (write_file output_dir output_filename pdf_data >>>
     log (LogInfo ("Resume saved at: " ++ path_join output_dir output_filename)))
    (fun e =>
       if is_io_error e
       then log (LogError ("Error writing file: " ++ exn_text e)) >>> io_raise e
       else io_raise e).

Definition create_resume_pdf (parameters : yaml) (llm_api_key : string)
    (style_name output_filename : option string) : io unit :=
  try_except
    (log (LogInfo "Generating a CV based on provided parameters.") >>>
     uploads <<- io_lift (py_getitem parameters "uploads") ;;
     resume_file <<- io_lift (py_getitem uploads "plainTextResume") ;;
     resume_path <<- io_lift (as_path resume_file) ;;
     plain_text_resume <<- read_file resume_path ;;
     style_name <<- select_style style_name ;;
     io_lift (make_resume env plain_text_resume) >>>
     io_lift (init_browser env) >>>
     result_base64 <<- io_lift (facade_create_resume_pdf env) ;;
     pdf_data <<- decode_payload result_base64 ;;
     let output_filename :=
       match given output_filename with
       | Some name => name
       | None => get_output_filename "Generate Resume" style_name None
       end in
     directory <<- io_lift (py_getitem parameters "outputFileDirectory") ;;
     output_dir <<- io_lift (as_path directory) ;;
     write_pdf output_dir output_filename pdf_data)
    (fun e =>
       log (LogException ("An error occurred while creating the CV: " ++ exn_text e)) >>>
       io_raise e).

End Flow.

End Dispatch.

(** A run of the plain-resume flow used in the examples: a data folder with
    the resume source, a known style given on the command line, a file name
    given on the command line, and a facade that hands back [payload]. *)
Module DispatchExample.
Import FileManager Dispatch.

Definition example_fs : filesystem :=
  {| fs_dirs := ["data_folder"; "data_folder/output"];
     fs_files := [("data_folder/plain_text_resume.yaml", "name: Ada")] |}.

Definition example_world : world := {| w_fs := example_fs; w_log := [] |}.

Definition example_parameters : yaml :=
  YDict
    [ (YStr "remote", YBool true);
      (YStr "uploads",
       YDict [(YStr "plainTextResume", YStr "data_folder/plain_text_resume.yaml")]);
      (YStr "outputFileDirectory", YStr "data_folder/output") ].

Definition example_env (payload : string) : collaborators :=
  {| get_styles := ["default"];
     prompt_style := None;
     make_resume := fun _ => Ok tt;
     init_browser := Ok tt;
     facade_create_resume_pdf := Ok payload;
     strftime_now := "20240101_120000" |}.

Definition example_run (payload : string) : result unit * world :=
  create_resume_pdf (example_env payload) example_parameters "sk-123"
    (Some "default") (Some "cv.pdf") example_world.


End DispatchExample.

(** ** [FileManager.get_uploads] and what the flow leaves behind *)

Module Uploads.
Import FileManager Dispatch.

(** The uploads mapping; the path is stored as its text. *)
Definition get_uploads (fs : filesystem) (plain_text_resume_file : string) : result yaml :=
  if negb (path_exists fs plain_text_resume_file)
  then Raise (FileNotFoundError
                ("Plain text resume file not found: " ++ plain_text_resume_file))
  else Ok (YDict [(YStr "plainTextResume", YStr plain_text_resume_file)]).

(** [w'] has the files of [w] and a log that continues the log of [w]. *)
Definition same_files (w w' : world) : Prop :=
  w_fs w' = w_fs w /\ exists added, w_log w' = (w_log w ++ added)%list.

(** A computation that never touches the files. *)
Definition keeps_files {A : Type} (c : io A) : Prop :=
  forall w r w', c w = (r, w') -> same_files w w'.

(** A computation that only adds records to the log. *)
Definition grows_log {A : Type} (c : io A) : Prop :=
  forall w r w', c w = (r, w') -> exists added, w_log w' = (w_log w ++ added)%list.

(** A file name of one component: not empty, not [.] or [..], without a
    separator.  Joined to a folder it names an entry of that folder. *)
Definition plain_name (name : string) : bool :=
  negb (name =? "") && negb (name =? ".") && negb (name =? "..")
  && negb (is_substring "/" name).

End Uploads.

(** ** [prompt_user_action], [handle_inquiries] and [main] *)

Module Application.
Import ConfigValidator FileManager Dispatch Uploads.

(** The text of a [ConfigError], f-string by f-string.  Two pieces depend on
    the interpreter and are taken as given: the text of the distance value
    and the text of the set [APPROVED_DISTANCES]. *)
Definition config_text (str_distance : yaml -> string) (approved_text : string)
    (msg : config_msg) : string :=
  match msg with
  | YamlReadError yaml_path exc => "Error reading YAML file " ++ yaml_path ++ ": " ++ exc
  | YamlNotFound yaml_path => "YAML file not found: " ++ yaml_path
  | MissingRequiredKey key path => "Missing required key '" ++ key ++ "' in " ++ path
  | InvalidType key path name =>
      "Invalid type for key '" ++ key ++ "' in " ++ path ++ ". Expected " ++ name ++ "."
  | ExperienceLevelNotBool level path =>
      "Experience level '" ++ level ++ "' must be a boolean in " ++ path
  | JobTypeNotBool job_type path =>
      "Job type '" ++ job_type ++ "' must be a boolean in " ++ path
  | DateFilterNotBool date_filter path =>
      "Date filter '" ++ date_filter ++ "' must be a boolean in " ++ path
  | NotListOfStrings key path => "'" ++ key ++ "' must be a list of strings in " ++ path
  | InvalidDistance distance path =>
      "Invalid distance value '" ++ str_distance distance ++ "' in " ++ path
      ++ ". Must be one of: " ++ approved_text
  | BlacklistNotList blacklist path => "'" ++ blacklist ++ "' must be a list in " ++ path
  | MissingSecret secret path => "Missing secret '" ++ secret ++ "' in " ++ path
  | EmptySecret secret path => "Secret '" ++ secret ++ "' cannot be empty in " ++ path
  end.

(** Everything the program puts out, in order: the records of the logger,
    its debug records, and the lines printed. *)
Inductive output : Type :=
| Logged (entry : log_entry)
| LogDebug (msg : string)
| Printed (line : string).

Record app_state : Type := {
  app_fs : filesystem;
  app_out : list output
}.

(** [w] with more records in its log. *)
Definition append_log (w : world) (entries : list log_entry) : world :=
  {| w_fs := w_fs w; w_log := (w_log w ++ entries)%list |}.

(** The name the flow writes under, for the style it went on with. *)
Definition output_name (env : collaborators) (output_filename : option string)
    (style_used : string) : string :=
  match given output_filename with
  | Some name => name
  | None => get_output_filename env "Generate Resume" style_used None
  end.

(** The key travels on to the facade only; its text stands for it. *)
Definition api_key_text (llm_api_key : yaml) : string :=
  match llm_api_key with YStr key => key | _ => "" end.

Section Program.

Variable safe_load : string -> yaml + string.
Variable env : collaborators.

(** The two flows bound to a job description, taken as given computations
    of parameters, key, style, job URL and file name. *)
Variables create_resume_pdf_job_tailored create_cover_letter :
  yaml -> string -> option string -> option string -> option string -> io unit.

(** The file names of [src.utils.constants]. *)
Variables SECRETS_YAML WORK_PREFERENCES_YAML PLAIN_TEXT_RESUME_YAML : string.

(** What the interpreter supplies: the text of a distance value, of the
    approved set, and of a traceback. *)
Variable str_distance : yaml -> string.
Variable approved_text : string.
Variable format_exc : exn -> string.

(** [str(e)] *)
Definition error_text (e : exn) : string :=
  match e with
  | ConfigError msg => config_text str_distance approved_text msg
  | _ => exn_text e
  end.

(** [prompt_user_action]: what it returns and what it prints, given what
    [inquirer.prompt] did: raise, give no answer, or give an answer with or
    without an [action] entry. *)
Definition prompt_user_action (answer : result (option (option string)))
    : string * list string :=
  match answer with
  | Ok None => ("", ["No answer provided. The user may have interrupted."])
  | Ok (Some None) => ("", [])
  | Ok (Some (Some action)) => (action, [])
  | Raise e => ("", ["An error occurred: " ++ error_text e])
  end.

Definition handle_inquiries (selected_actions : string) (parameters : yaml)
    (llm_api_key : string) (style job_url output_filename : option string) : io unit :=
  try_except
    (if negb (selected_actions =? "") then
       (if ("Generate Resume" =? selected_actions) then
          log (LogInfo "Crafting a standout professional resume...") >>>
          create_resume_pdf env parameters llm_api_key style output_filename
        else io_ret tt) >>>
       (if ("Generate Resume Tailored for Job Description" =? selected_actions) then
          log (LogInfo "Customizing your resume to enhance your job application...") >>>
          create_resume_pdf_job_tailored parameters llm_api_key style job_url
            output_filename
        else io_ret tt) >>>
       (if ("Generate Tailored Cover Letter for Job Description" =? selected_actions) then
          log (LogInfo
                 "Designing a personalized cover letter to enhance your job application...") >>>
          create_cover_letter parameters llm_api_key style job_url output_filename
        else io_ret tt)
     else log (LogWarning "No actions selected. Nothing to execute."))
    (fun e =>
       log (LogException ("An error occurred while handling inquiries: " ++ exn_text e))
       >>> io_raise e).

(** Running a flow inside the program: its log records join the output. *)
Definition run_flow (c : io unit) (s : app_state) : result unit * app_state :=
  let (r, w) := c {| w_fs := app_fs s; w_log := [] |} in
  (r, {| app_fs := w_fs w; app_out := (app_out s ++ map Logged (w_log w))%list |}).

Definition put (entries : list output) (s : app_state) : app_state :=
  {| app_fs := app_fs s; app_out := (app_out s ++ entries)%list |}.

(** The [try] block of [main]. *)
Definition main_body (action style job_url filename : option string)
    (answer : result (option (option string))) (s : app_state)
    : result unit * app_state :=
  let data_folder := "data_folder" in
  let (fs1, resolved) :=
    validate_data_folder SECRETS_YAML WORK_PREFERENCES_YAML PLAIN_TEXT_RESUME_YAML
      (app_fs s) data_folder in
  let s1 := {| app_fs := fs1; app_out := app_out s |} in
  match resolved with
  | Raise e => (Raise e, s1)
  | Ok (secrets_file, config_file, plain_text_resume_file, output_folder) =>
      match
        (config <- validate_config safe_load (file_content fs1) config_file ;;
         llm_api_key <- validate_secrets safe_load (file_content fs1) secrets_file ;;
         uploads <- get_uploads fs1 plain_text_resume_file ;;
         config <- py_setitem config "uploads" uploads ;;
         config <- py_setitem config "outputFileDirectory" (YStr output_folder) ;;
         Ok (config, llm_api_key))
      with
      | Raise e => (Raise e, s1)
      | Ok (config, llm_api_key) =>
          match given action with
          | Some name =>
              match given (option_map snd
                             (find (fun kv => fst kv =? name) ACTION_MAPPING)) with
              | Some selected_action =>
                  run_flow (handle_inquiries selected_action config
                              (api_key_text llm_api_key) style job_url filename) s1
              | None =>
                  (Ok tt, put [Logged (LogError ("Invalid action: " ++ name))] s1)
              end
          | None =>
              let (selected_action, printed) := prompt_user_action answer in
              run_flow (handle_inquiries selected_action config
                          (api_key_text llm_api_key) style job_url filename)
                (put (map Printed printed) s1)
          end
      end
  end.

(** [main]: no exception leaves it. *)
Definition main (action style job_url filename : option string)
    (answer : result (option (option string))) (s : app_state) : app_state :=
  match main_body action style job_url filename answer s with
  | (Ok _, s') => s'
  | (Raise e, s') =>
      match e with
      | ConfigError _ =>
          put [Logged (LogError ("Configuration error: " ++ error_text e));
               Logged (LogError
                 "Refer to the configuration guide for troubleshooting: https://github.com/feder-cr/Auto_Jobs_Applier_AIHawk?tab=readme-ov-file#configuration")]
              s'
      | FileNotFoundError _ =>
          put [Logged (LogError ("File not found: " ++ error_text e));
               Logged (LogError "Ensure all required files are present in the data folder.")]
              s'
      | RuntimeError _ =>
          put [Logged (LogError ("Runtime error: " ++ error_text e));
               LogDebug (format_exc e)] s'
      | _ =>
          put [Logged (LogException ("An unexpected error occurred: " ++ error_text e))] s'
      end
  end.

End Program.

End Application.

(** ** The validator as a list of single-key checks

    Every test of [validate_config] reads one top-level key.  The functions
    below restate the pass over a lookup function; the lemmas that follow
    connect them to the code. *)

Module ConfigSpec.
Import ConfigValidator.

(** Does the required-key pass let this entry through? *)
Definition entry_accepted (entry : string * pytype) (value : option yaml) : bool :=
  match value with
  | None => is_blacklist_key (fst entry)
  | Some v => isinstance v (snd entry) || (is_blacklist_key (fst entry) && is_none v)
  end.

Definition type_check_error (path : string) (entry : string * pytype)
    (value : option yaml) : option exn :=
  if entry_accepted entry value then None
  else match value with
       | None => Some (ConfigError (MissingRequiredKey (fst entry) path))
       | Some _ =>
           Some (ConfigError (InvalidType (fst entry) path (type_name (snd entry))))
       end.

(** Does the pass assign the empty list to this entry's key? *)
Definition defaulted (entry : string * pytype) (value : option yaml) : bool :=
  is_blacklist_key (fst entry) &&
  match value with
  | None => true
  | Some v => negb (isinstance v (snd entry)) && is_none v
  end.

Definition normalize_entry (d : list (yaml * yaml)) (entry : string * pytype)
    : list (yaml * yaml) :=
  if defaulted entry (dict_get d (fst entry))
  then dict_set d (fst entry) (YList [])
  else d.

(** The document the pass leaves behind when it raises nothing. *)
Definition normalize (d : list (yaml * yaml)) : list (yaml * yaml) :=
  fold_left normalize_entry REQUIRED_CONFIG_KEYS d.

Fixpoint first_type_error (path : string) (get : string -> option yaml)
    (entries : list (string * pytype)) : option exn :=
  match entries with
  | [] => None
  | entry :: rest =>
      match type_check_error path entry (get (fst entry)) with
      | Some e => Some e
      | None => first_type_error path get rest
      end
  end.

(** What a computation raises, if anything. *)
Definition raised {A : Type} (r : result A) : option exn :=
  match r with Ok _ => None | Raise e => Some e end.

(** The single-key checks after the type pass, in call order. *)
Definition check_list_of_strings (config_path key : string) (value : yaml)
    : result unit :=
  items <- py_iter value ;;
  if negb (forallb (fun item => isinstance item TStr) items)
  then Raise (ConfigError (NotListOfStrings key config_path))
  else Ok tt.

Definition value_checks (path : string) : list (string * (yaml -> result unit)) :=
  [ ("experience_level", fun v => _validate_experience_levels v path);
    ("job_types", fun v => _validate_job_types v path);
    ("date", fun v => _validate_date_filters v path);
    ("positions", check_list_of_strings path "positions");
    ("locations", check_list_of_strings path "locations");
    ("distance", fun v => _validate_distance v path) ].

Fixpoint first_value_error (get : string -> option yaml)
    (checks : list (string * (yaml -> result unit))) : option exn :=
  match checks with
  | [] => None
  | (key, check) :: rest =>
      match get key with
      | None => Some (KeyError key)
      | Some v =>
          match check v with
          | Raise e => Some e
          | Ok _ => first_value_error get rest
          end
      end
  end.

Definition config_error (path : string) (get : string -> option yaml) : option exn :=
  match first_type_error path get REQUIRED_CONFIG_KEYS with
  | Some e => Some e
  | None => first_value_error get (value_checks path)
  end.

(** A mapping from each name of [names] to the boolean [flags] gives it. *)
Definition bool_map (names : list string) (flags : string -> bool) : yaml :=
  YDict (map (fun name => (YStr name, YBool (flags name))) names).

(** The minimal valid configuration: every required key, fully populated
    boolean maps, empty lists, distance 0. *)
Definition minimal_entries (remote : bool) (levels types dates : string -> bool)
    : list (yaml * yaml) :=
  [ (YStr "remote", YBool remote);
    (YStr "experience_level", bool_map EXPERIENCE_LEVELS levels);
    (YStr "job_types", bool_map JOB_TYPES types);
    (YStr "date", bool_map DATE_FILTERS dates);
    (YStr "positions", YList []);
    (YStr "locations", YList []);
    (YStr "location_blacklist", YList []);
    (YStr "distance", YInt 0);
    (YStr "company_blacklist", YList []);
    (YStr "title_blacklist", YList []) ].

Definition minimal_config (remote : bool) (levels types dates : string -> bool) : yaml :=
  YDict (minimal_entries remote levels types dates).

(** *** The stages of [validate_config], each run on its own on a document *)

Definition stage : Type := string -> yaml -> result unit.

Definition required_keys_stage : stage := fun path doc =>
  check_required_keys path doc REQUIRED_CONFIG_KEYS ;;; Ok tt.

Definition experience_levels_stage : stage := fun path doc =>
  value <- py_getitem doc "experience_level" ;;
  _validate_experience_levels value path.

Definition job_types_stage : stage := fun path doc =>
  value <- py_getitem doc "job_types" ;;
  _validate_job_types value path.

Definition date_filters_stage : stage := fun path doc =>
  value <- py_getitem doc "date" ;;
  _validate_date_filters value path.

Definition string_lists_stage : stage := fun path doc =>
  _validate_list_of_strings doc ["positions"; "locations"] path.

Definition distance_stage : stage := fun path doc =>
  value <- py_getitem doc "distance" ;;
  _validate_distance value path.

Definition blacklists_stage : stage := fun path doc =>
  _validate_blacklists doc path ;;; Ok tt.

(** The stages that look for violations, in call order.  Blacklist
    normalization follows them. *)
Definition checking_stages : list stage :=
  [ required_keys_stage; experience_levels_stage; job_types_stage;
    date_filters_stage; string_lists_stage; distance_stage ].

Fixpoint first_raised (results : list (result unit)) : option exn :=
  match results with
  | [] => None
  | Ok _ :: rest => first_raised rest
  | Raise e :: _ => Some e
  end.

(** The entries of the required-key table that come before [key]. *)
Fixpoint entries_before (key : string) (entries : list (string * pytype))
    : list (string * pytype) :=
  match entries with
  | [] => []
  | entry :: rest =>
      if (fst entry =? key) then [] else entry :: entries_before key rest
  end.

(** A document with an experience level and the distance both wrong. *)
Definition config_two_violations : yaml :=
  YDict
    [ (YStr "remote", YBool true);
      (YStr "experience_level", YDict [(YStr "internship", YStr "yes")]);
      (YStr "job_types", bool_map JOB_TYPES (fun _ => true));
      (YStr "date", bool_map DATE_FILTERS (fun _ => true));
      (YStr "positions", YList [YStr "Engineer"]);
      (YStr "locations", YList [YStr "Rome"]);
      (YStr "distance", YInt 7) ].

(** Stand-ins for the collaborators in examples: a parser that yields [doc]
    and a store where every path holds [text]. *)
Definition parser_of (doc : yaml) : string -> yaml + string := fun _ => inl doc.
Definition store_of (text : string) : string -> option string := fun _ => Some text.

(** A document without [distance] whose [remote] is a string. *)
Definition entries_bad_remote_no_distance : list (yaml * yaml) :=
  [ (YStr "remote", YStr "yes");
    (YStr "experience_level", bool_map EXPERIENCE_LEVELS (fun _ => true));
    (YStr "job_types", bool_map JOB_TYPES (fun _ => true));
    (YStr "date", bool_map DATE_FILTERS (fun _ => true));
    (YStr "positions", YList []);
    (YStr "locations", YList []) ].

(** A valid document that leaves out [company_blacklist] and has a null
    [title_blacklist]. *)
Definition entries_sparse_blacklists : list (yaml * yaml) :=
  [ (YStr "remote", YBool false);
    (YStr "experience_level", bool_map EXPERIENCE_LEVELS (fun _ => true));
    (YStr "job_types", bool_map JOB_TYPES (fun _ => false));
    (YStr "date", bool_map DATE_FILTERS (fun _ => true));
    (YStr "positions", YList [YStr "Engineer"]);
    (YStr "locations", YList [YStr "Rome"]);
    (YStr "location_blacklist", YList [YStr "Mars"]);
    (YStr "distance", YInt 25);
    (YStr "title_blacklist", YNull) ].

End ConfigSpec.

(** ** What a validated configuration looks like *)

Module ConfigSchema.
Import ConfigValidator.

(** A mapping that binds every name of [names] to a boolean. *)
Definition all_booleans (names : list string) (v : yaml) : Prop :=
  exists entries, v = YDict entries /\
    forall name, In name names -> exists b, dict_get entries name = Some (YBool b).

Definition list_of_strings (v : yaml) : Prop :=
  exists items, v = YList items /\
    forall item, In item items -> exists s, item = YStr s.

(** An integer of the approved set, or [False], which equals 0. *)
Definition approved_distance (v : yaml) : Prop :=
  (exists z, v = YInt z /\ In z APPROVED_DISTANCES) \/ v = YBool false.

Definition bound_to (d : list (yaml * yaml)) (key : string) (P : yaml -> Prop) : Prop :=
  exists v, dict_get d key = Some v /\ P v.

Definition conforms (d : list (yaml * yaml)) : Prop :=
  bound_to d "remote" (fun v => exists b, v = YBool b) /\
  bound_to d "experience_level" (all_booleans EXPERIENCE_LEVELS) /\
  bound_to d "job_types" (all_booleans JOB_TYPES) /\
  bound_to d "date" (all_booleans DATE_FILTERS) /\
  bound_to d "positions" list_of_strings /\
  bound_to d "locations" list_of_strings /\
  bound_to d "distance" approved_distance /\
  (forall k, In k BLACKLIST_KEYS -> bound_to d k (fun v => exists items, v = YList items)).

(** The three nested boolean maps: key, names, check and message. *)
Inductive bool_map_field : Type := ExperienceLevel | JobTypes | DateFilters.

Definition map_key (f : bool_map_field) : string :=
  match f with
  | ExperienceLevel => "experience_level"
  | JobTypes => "job_types"
  | DateFilters => "date"
  end.

Definition map_names (f : bool_map_field) : list string :=
  match f with
  | ExperienceLevel => EXPERIENCE_LEVELS
  | JobTypes => JOB_TYPES
  | DateFilters => DATE_FILTERS
  end.

Definition map_check (f : bool_map_field) : yaml -> string -> result unit :=
  match f with
  | ExperienceLevel => _validate_experience_levels
  | JobTypes => _validate_job_types
  | DateFilters => _validate_date_filters
  end.

Definition map_message (f : bool_map_field) (name path : string) : config_msg :=
  match f with
  | ExperienceLevel => ExperienceLevelNotBool name path
  | JobTypes => JobTypeNotBool name path
  | DateFilters => DateFilterNotBool name path
  end.

(** The messages [validate_config] can give for a mapping. *)
Definition config_message (path : string) (msg : config_msg) : Prop :=
  (exists entry, In entry REQUIRED_CONFIG_KEYS /\
     (msg = MissingRequiredKey (fst entry) path \/
      msg = InvalidType (fst entry) path (type_name (snd entry)))) \/
  (exists f name, In name (map_names f) /\ msg = map_message f name path) \/
  (exists key, In key ["positions"; "locations"] /\ msg = NotListOfStrings key path) \/
  (exists distance, msg = InvalidDistance distance path).

(** The two exceptions of a failed lookup: indexing a mapping by an absent
    key, and calling [.get] on something that has none. *)
Definition is_lookup_error (e : exn) : bool :=
  match e with
  | KeyError _ | AttributeError => true
  | _ => false
  end.

(** The message of [_validate_blacklists]. *)
Definition is_blacklist_error (e : exn) : bool :=
  match e with
  | ConfigError (BlacklistNotList _ _) => true
  | _ => false
  end.

End ConfigSchema.

(** A data folder, a parser and collaborators for runs of the whole
    program in the examples. *)
Module ProgramExample.
Import ConfigValidator ConfigSpec FileManager Dispatch DispatchExample Application.

Definition program_fs (config_text secrets_text : string) : filesystem :=
  {| fs_dirs := ["data_folder"];
     fs_files := [("data_folder/secrets.yaml", secrets_text);
                  ("data_folder/work_preferences.yaml", config_text);
                  ("data_folder/plain_text_resume.yaml", "name: Ada")] |}.

(** A parser that knows three texts. *)
Definition program_parser (text : string) : yaml + string :=
  if (text =? "valid preferences") then
    inl (minimal_config true (fun _ => true) (fun _ => true) (fun _ => true))
  else if (text =? "no remote") then inl (YDict [])
  else if (text =? "key") then inl (YDict [(YStr "llm_api_key", YStr "sk-123")])
  else inr "could not parse".

Definition no_flow : yaml -> string -> option string -> option string ->
                     option string -> io unit :=
  fun _ _ _ _ _ => io_raise (RuntimeError "not part of the example").

(** [main] on the files [fs], with nothing put out before. *)
Definition program_on (fs : filesystem) (payload : string)
    (action filename : option string) (answer : result (option (option string)))
    : app_state :=
  main program_parser (example_env payload) no_flow no_flow
    "secrets.yaml" "work_preferences.yaml" "plain_text_resume.yaml"
    (fun _ => "?") "{0, 5, 10, 25, 50, 100}" (fun _ => "Traceback")
    action None None filename answer
    {| app_fs := fs; app_out := [] |}.

Definition program_run (config_text secrets_text payload : string)
    (action filename : option string) (answer : result (option (option string)))
    : app_state :=
  program_on (program_fs config_text secrets_text) payload action filename answer.

(** A data folder that holds the secrets file only. *)
Definition secrets_only_fs : filesystem :=
  {| fs_dirs := ["data_folder"];
     fs_files := [("data_folder/secrets.yaml", "key")] |}.

End ProgramExample.

(** ** Dictionary lemmas *)

Lemma dict_get_set (d : list (yaml * yaml)) (k k' : string) (v : yaml) :
  dict_get (dict_set d k' v) k = if (k =? k') then Some v else dict_get d k.
Proof.
  induction d as [|[key value] rest IH]; simpl.
  - unfold key_is. rewrite String.eqb_sym. destruct (k' =? k); reflexivity.
  - destruct (key_is k' key) eqn:Hk'; simpl.
    + destruct (key_is k key) eqn:Hk.
      * destruct key; try discriminate. simpl in Hk, Hk'.
        apply String.eqb_eq in Hk, Hk'. subst. now rewrite String.eqb_refl.
      * destruct (k =? k') eqn:E; [|reflexivity].
        apply String.eqb_eq in E. subst. congruence.
    + destruct (key_is k key) eqn:Hk; [|exact IH].
      destruct (k =? k') eqn:E; [|reflexivity].
      apply String.eqb_eq in E. subst. congruence.
Qed.

Lemma dict_get_set_same (d : list (yaml * yaml)) (k : string) (v : yaml) :
  dict_get (dict_set d k v) k = Some v.
Proof. rewrite dict_get_set. now rewrite String.eqb_refl. Qed.

Lemma dict_get_set_other (d : list (yaml * yaml)) (k k' : string) (v : yaml) :
  k <> k' -> dict_get (dict_set d k' v) k = dict_get d k.
Proof.
  intros Hne. rewrite dict_get_set.
  destruct (k =? k') eqn:E; [|reflexivity].
  apply String.eqb_eq in E. contradiction.
Qed.

Module ConfigProofs.
Import ConfigValidator ConfigSpec.

Lemma check_required_key_dict (path : string) (d : list (yaml * yaml))
    (entry : string * pytype) :
  check_required_key path (YDict d) entry =
  match type_check_error path entry (dict_get d (fst entry)) with
  | Some e => Raise e
  | None => Ok (YDict (normalize_entry d entry))
  end.
Proof.
  destruct entry as [key ty].
  unfold check_required_key, type_check_error, normalize_entry, defaulted,
    entry_accepted, py_contains, py_getitem, py_setitem, dict_has, bind.
  cbn [fst snd].
  destruct (dict_get d key) as [v|]; cbn [negb].
  - destruct (isinstance v ty); cbn [negb orb andb];
      [now rewrite andb_false_r|].
    destruct (is_blacklist_key key); cbn [andb]; [|reflexivity].
    destruct (is_none v); reflexivity.
  - destruct (is_blacklist_key key); reflexivity.
Qed.

Lemma dict_get_normalize_entry_other (d : list (yaml * yaml))
    (entry : string * pytype) (k : string) :
  k <> fst entry -> dict_get (normalize_entry d entry) k = dict_get d k.
Proof.
  intros Hne. unfold normalize_entry.
  destruct (defaulted entry (dict_get d (fst entry))); [|reflexivity].
  now apply dict_get_set_other.
Qed.

Lemma first_type_error_same (path : string) (get1 get2 : string -> option yaml)
    (entries : list (string * pytype)) :
  (forall entry, In entry entries ->
     type_check_error path entry (get1 (fst entry))
     = type_check_error path entry (get2 (fst entry))) ->
  first_type_error path get1 entries = first_type_error path get2 entries.
Proof.
  induction entries as [|entry rest IH]; intros Hsame; simpl; [reflexivity|].
  rewrite (Hsame entry (or_introl eq_refl)).
  destruct (type_check_error path entry (get2 (fst entry))); [reflexivity|].
  apply IH. intros e He. apply Hsame. now right.
Qed.

Lemma check_required_keys_dict (path : string) (entries : list (string * pytype)) :
  NoDup (map fst entries) ->
  forall d,
  check_required_keys path (YDict d) entries =
  match first_type_error path (dict_get d) entries with
  | Some e => Raise e
  | None => Ok (YDict (fold_left normalize_entry entries d))
  end.
Proof.
  induction entries as [|entry rest IH]; intros Hnd d; simpl; [reflexivity|].
  rewrite check_required_key_dict.
  destruct (type_check_error path entry (dict_get d (fst entry))); simpl;
    [reflexivity|].
  inversion Hnd as [|? ? Hnotin Hnd']; subst.
  rewrite (IH Hnd').
  rewrite (first_type_error_same path (dict_get (normalize_entry d entry)) (dict_get d)).
  - reflexivity.
  - intros e He. rewrite dict_get_normalize_entry_other; [reflexivity|].
    intros Heq. apply Hnotin. rewrite <- Heq. now apply in_map.
Qed.

Lemma required_keys_nodup : NoDup (map fst REQUIRED_CONFIG_KEYS).
Proof.
  simpl. repeat constructor; simpl; intuition discriminate.
Qed.

Lemma first_type_error_none (path : string) (get : string -> option yaml)
    (entries : list (string * pytype)) :
  first_type_error path get entries = None ->
  forall entry, In entry entries -> entry_accepted entry (get (fst entry)) = true.
Proof.
  induction entries as [|e0 rest IH]; simpl; intros Hnone entry Hin; [contradiction|].
  unfold type_check_error in Hnone.
  destruct (entry_accepted e0 (get (fst e0))) eqn:Hacc.
  - destruct Hin as [<-|Hin]; [exact Hacc|]. now apply IH.
  - destruct (get (fst e0)); discriminate.
Qed.

Lemma dict_get_fold_normalize_notin (entries : list (string * pytype))
    (d : list (yaml * yaml)) (k : string) :
  ~ In k (map fst entries) ->
  dict_get (fold_left normalize_entry entries d) k = dict_get d k.
Proof.
  revert d. induction entries as [|entry rest IH]; intros d Hnotin; simpl;
    [reflexivity|].
  rewrite IH.
  - apply dict_get_normalize_entry_other. intros Heq. apply Hnotin. now left.
  - intros Hin. apply Hnotin. now right.
Qed.

Lemma dict_get_fold_normalize_in (entries : list (string * pytype))
    (d : list (yaml * yaml)) (entry : string * pytype) :
  NoDup (map fst entries) -> In entry entries ->
  dict_get (fold_left normalize_entry entries d) (fst entry) =
  if defaulted entry (dict_get d (fst entry)) then Some (YList [])
  else dict_get d (fst entry).
Proof.
  revert d. induction entries as [|e0 rest IH]; intros d Hnd Hin; simpl;
    [contradiction|].
  inversion Hnd as [|? ? Hnotin Hnd']; subst.
  destruct Hin as [->|Hin].
  - rewrite dict_get_fold_normalize_notin by exact Hnotin.
    unfold normalize_entry.
    destruct (defaulted entry (dict_get d (fst entry))); [|reflexivity].
    apply dict_get_set_same.
  - rewrite (IH _ Hnd' Hin).
    rewrite dict_get_normalize_entry_other; [reflexivity|].
    intros Heq. apply Hnotin. rewrite <- Heq. now apply in_map.
Qed.

(** Keys that are not blacklists are left alone by the pass. *)
Lemma dict_get_normalize_plain (d : list (yaml * yaml)) (k : string) :
  is_blacklist_key k = false -> dict_get (normalize d) k = dict_get d k.
Proof.
  intros Hk. unfold normalize.
  destruct (in_dec string_dec k (map fst REQUIRED_CONFIG_KEYS)) as [Hin|Hnotin].
  - apply in_map_iff in Hin. destruct Hin as [entry [<- Hin]].
    rewrite (dict_get_fold_normalize_in _ d entry required_keys_nodup Hin).
    unfold defaulted. now rewrite Hk.
  - now apply dict_get_fold_normalize_notin.
Qed.

(** An accepted blacklist is a list once the pass is over. *)
Lemma dict_get_normalize_blacklist (d : list (yaml * yaml)) (k : string) :
  In k BLACKLIST_KEYS ->
  entry_accepted (k, TList) (dict_get d k) = true ->
  dict_get (normalize d) k =
  match dict_get d k with
  | Some (YList items) => Some (YList items)
  | _ => Some (YList [])
  end.
Proof.
  intros Hin Hacc.
  assert (Hreq : In (k, TList) REQUIRED_CONFIG_KEYS).
  { simpl in Hin. simpl. intuition (subst; auto 12). }
  assert (Hbl : is_blacklist_key k = true).
  { simpl in Hin. intuition (subst; reflexivity). }
  unfold normalize.
  pose proof (dict_get_fold_normalize_in _ d (k, TList) required_keys_nodup Hreq)
    as Hget.
  cbn [fst] in Hget. rewrite Hget.
  unfold defaulted, entry_accepted in *. cbn [fst snd] in *. rewrite Hbl in *.
  destruct (dict_get d k) as [v|]; [|reflexivity].
  destruct v; cbn in *; try reflexivity; discriminate.
Qed.

Lemma validate_blacklist_list (path : string) (d : list (yaml * yaml))
    (k : string) (items : list yaml) :
  dict_get d k = Some (YList items) ->
  validate_blacklist path (YDict d) k = Ok (YDict d).
Proof.
  intros Hget. unfold validate_blacklist, py_get, py_getitem, bind.
  now rewrite Hget.
Qed.

Lemma validate_blacklists_lists (path : string) (d : list (yaml * yaml)) :
  (forall k, In k BLACKLIST_KEYS -> exists items, dict_get d k = Some (YList items)) ->
  _validate_blacklists (YDict d) path = Ok (YDict d).
Proof.
  unfold _validate_blacklists. generalize BLACKLIST_KEYS as keys.
  induction keys as [|k rest IH]; intros Hall; simpl; [reflexivity|].
  destruct (Hall k (or_introl eq_refl)) as [items Hget].
  rewrite (validate_blacklist_list path d k items Hget). simpl.
  apply IH. intros k' Hin. apply Hall. now right.
Qed.

Lemma blacklist_entries_required (k : string) :
  In k BLACKLIST_KEYS -> In (k, TList) REQUIRED_CONFIG_KEYS.
Proof. simpl. intuition (subst; auto 12). Qed.

(** After a successful required-key pass the blacklist stage has nothing
    left to reject or to default. *)
Lemma validate_blacklists_normalized (path : string) (d : list (yaml * yaml)) :
  first_type_error path (dict_get d) REQUIRED_CONFIG_KEYS = None ->
  _validate_blacklists (YDict (normalize d)) path = Ok (YDict (normalize d)).
Proof.
  intros Htypes. apply validate_blacklists_lists. intros k Hk.
  pose proof (first_type_error_none _ _ _ Htypes (k, TList)
                (blacklist_entries_required k Hk)) as Hacc.
  cbn [fst] in Hacc.
  rewrite (dict_get_normalize_blacklist d k Hk Hacc).
  destruct (dict_get d k) as [[]|]; eauto.
Qed.

(** The code and the list of single-key checks agree on every mapping. *)
Lemma validate_parameters_dict (path : string) (d : list (yaml * yaml)) :
  validate_parameters path (YDict d) =
  match config_error path (dict_get d) with
  | Some e => Raise e
  | None => Ok (YDict (normalize d))
  end.
Proof.
  unfold validate_parameters, config_error.
  rewrite (check_required_keys_dict path _ required_keys_nodup d).
  destruct (first_type_error path (dict_get d) REQUIRED_CONFIG_KEYS) eqn:Htypes;
    [reflexivity|].
  fold (normalize d). cbn [bind].
  pose proof (validate_blacklists_normalized path d Htypes) as Hbl.
  unfold _validate_list_of_strings, py_getitem, value_checks, first_value_error,
    check_list_of_strings, for_each.
  rewrite !dict_get_normalize_plain by reflexivity.
  destruct (dict_get d "experience_level") as [el|]; [|reflexivity]. cbn [bind].
  destruct (_validate_experience_levels el path); [|reflexivity]. cbn [bind].
  destruct (dict_get d "job_types") as [jt|]; [|reflexivity]. cbn [bind].
  destruct (_validate_job_types jt path); [|reflexivity]. cbn [bind].
  destruct (dict_get d "date") as [dt|]; [|reflexivity]. cbn [bind].
  destruct (_validate_date_filters dt path); [|reflexivity]. cbn [bind].
  destruct (dict_get d "positions") as [ps|]; [|reflexivity]. cbn [bind].
  destruct (py_iter ps) as [pitems|]; [|reflexivity]. cbn [bind].
  destruct (negb (forallb (fun item => isinstance item TStr) pitems));
    [reflexivity|]. cbn [bind].
  destruct (dict_get d "locations") as [ls|]; [|reflexivity]. cbn [bind].
  destruct (py_iter ls) as [litems|]; [|reflexivity]. cbn [bind].
  destruct (negb (forallb (fun item => isinstance item TStr) litems));
    [reflexivity|]. cbn [bind].
  destruct (dict_get d "distance") as [dist|]; [|reflexivity]. cbn [bind].
  destruct (_validate_distance dist path); [|reflexivity]. cbn [bind].
  now rewrite Hbl.
Qed.

(** The required-key pass lets only mappings through. *)
Lemma check_required_keys_ok_dict (path : string) (doc r : yaml) :
  check_required_keys path doc REQUIRED_CONFIG_KEYS = Ok r ->
  exists d, doc = YDict d.
Proof.
  destruct doc as [| b | z | f | s | items | d]; try discriminate.
  - unfold REQUIRED_CONFIG_KEYS, check_required_keys, check_required_key, py_contains.
    cbn [bind]. destruct (is_substring "remote" s); discriminate.
  - unfold REQUIRED_CONFIG_KEYS, check_required_keys, check_required_key, py_contains.
    cbn [bind]. destruct (existsb (key_is "remote") items); discriminate.
  - intros _. now exists d.
Qed.

Lemma first_raised_nth (results : list (result unit)) (i : nat) (e : exn) :
  nth_error results i = Some (Raise e) ->
  (forall j r, j < i -> nth_error results j = Some r -> r = Ok tt) ->
  first_raised results = Some e.
Proof.
  revert i. induction results as [|r0 rest IH]; intros i Hnth Hbefore.
  - destruct i; discriminate.
  - destruct i as [|i]; simpl in Hnth.
    + inversion Hnth. reflexivity.
    + rewrite (Hbefore 0 r0 (Nat.lt_0_succ i) eq_refl). simpl.
      apply (IH i Hnth). intros j r Hj Hr.
      apply (Hbefore (S j) r); [lia|exact Hr].
Qed.

Lemma first_raised_none (results : list (result unit)) :
  (forall r, In r results -> r = Ok tt) -> first_raised results = None.
Proof.
  induction results as [|r0 rest IH]; intros Hall; simpl; [reflexivity|].
  rewrite (Hall r0 (or_introl eq_refl)). apply IH.
  intros r Hr. apply Hall. now right.
Qed.

(** What [validate_config] raises is what the first failing stage raises. *)
Lemma first_raised_stages (path : string) (doc : yaml) :
  first_raised (map (fun s : stage => s path doc) checking_stages)
  = raised (validate_parameters path doc).
Proof.
  unfold checking_stages. cbn [map first_raised].
  unfold required_keys_stage at 1.
  destruct (check_required_keys path doc REQUIRED_CONFIG_KEYS) as [r|e] eqn:Hreq.
  - destruct (check_required_keys_ok_dict path doc r Hreq) as [d ->].
    rewrite validate_parameters_dict. unfold config_error.
    rewrite (check_required_keys_dict path _ required_keys_nodup d) in Hreq.
    destruct (first_type_error path (dict_get d) REQUIRED_CONFIG_KEYS);
      [discriminate|].
    cbn [bind].
    unfold experience_levels_stage, job_types_stage, date_filters_stage,
      string_lists_stage, distance_stage, _validate_list_of_strings, py_getitem,
      value_checks, first_value_error, check_list_of_strings, for_each.
    destruct (dict_get d "experience_level") as [el|]; [|reflexivity]. cbn [bind].
    destruct (_validate_experience_levels el path) as [[]|]; [|reflexivity].
    destruct (dict_get d "job_types") as [jt|]; [|reflexivity]. cbn [bind].
    destruct (_validate_job_types jt path) as [[]|]; [|reflexivity].
    destruct (dict_get d "date") as [dt|]; [|reflexivity]. cbn [bind].
    destruct (_validate_date_filters dt path) as [[]|]; [|reflexivity].
    destruct (dict_get d "positions") as [ps|]; [|reflexivity]. cbn [bind].
    destruct (py_iter ps) as [pitems|]; [|reflexivity]. cbn [bind].
    destruct (negb (forallb (fun item => isinstance item TStr) pitems));
      [reflexivity|]. cbn [bind].
    destruct (dict_get d "locations") as [ls|]; [|reflexivity]. cbn [bind].
    destruct (py_iter ls) as [litems|]; [|reflexivity]. cbn [bind].
    destruct (negb (forallb (fun item => isinstance item TStr) litems));
      [reflexivity|]. cbn [bind].
    destruct (dict_get d "distance") as [dist|]; [|reflexivity]. cbn [bind].
    destruct (_validate_distance dist path) as [[]|]; reflexivity.
  - unfold validate_parameters. rewrite Hreq. reflexivity.
Qed.

(** Stepping through the checks a valid document has passed. *)
Ltac pass_type H k ty :=
  match type of H with
  | context [type_check_error ?p (k, ty) ?g] =>
      destruct (type_check_error p (k, ty) g); [discriminate H|]
  end.

(** With every other field valid, the outcome is decided by the two tests
    that read [distance]. *)
Lemma distance_outcome (path : string) (d : list (yaml * yaml)) (v r0 : yaml) :
  validate_parameters path (YDict (dict_set d "distance" (YInt 0))) = Ok r0 ->
  validate_parameters path (YDict (dict_set d "distance" v)) =
  if isinstance v TInt then
    match _validate_distance v path with
    | Ok _ => Ok (YDict (normalize (dict_set d "distance" v)))
    | Raise e => Raise e
    end
  else Raise (ConfigError (InvalidType "distance" path "int")).
Proof.
  intros Hvalid. rewrite validate_parameters_dict in *.
  destruct (config_error path (dict_get (dict_set d "distance" (YInt 0))))
    eqn:H0; [discriminate|]. clear Hvalid.
  unfold config_error, REQUIRED_CONFIG_KEYS, value_checks in *.
  cbn [first_type_error first_value_error fst snd] in *.
  rewrite !dict_get_set_same in *.
  rewrite !dict_get_set_other in * by discriminate.
  pass_type H0 "remote" TBool.
  pass_type H0 "experience_level" TDict.
  pass_type H0 "job_types" TDict.
  pass_type H0 "date" TDict.
  pass_type H0 "positions" TList.
  pass_type H0 "locations" TList.
  pass_type H0 "location_blacklist" TList.
  unfold type_check_error at 1, entry_accepted at 1.
  cbn [fst snd orb andb is_blacklist_key existsb BLACKLIST_KEYS].
  replace (is_blacklist_key "distance") with false by reflexivity.
  cbn [andb]. rewrite orb_false_r.
  destruct (isinstance v TInt); [|reflexivity].
  pass_type H0 "distance" TInt.
  pass_type H0 "company_blacklist" TList.
  pass_type H0 "title_blacklist" TList.
  destruct (dict_get d "experience_level") as [el|]; [|discriminate H0].
  destruct (_validate_experience_levels el path); [|discriminate H0].
  destruct (dict_get d "job_types") as [jt|]; [|discriminate H0].
  destruct (_validate_job_types jt path); [|discriminate H0].
  destruct (dict_get d "date") as [dt|]; [|discriminate H0].
  destruct (_validate_date_filters dt path); [|discriminate H0].
  destruct (dict_get d "positions") as [ps|]; [|discriminate H0].
  destruct (check_list_of_strings path "positions" ps); [|discriminate H0].
  destruct (dict_get d "locations") as [ls|]; [|discriminate H0].
  destruct (check_list_of_strings path "locations" ls); [|discriminate H0].
  destruct (_validate_distance v path); reflexivity.
Qed.

Lemma validate_distance_int (z : Z) (path : string) :
  _validate_distance (YInt z) path =
  if approved z then Ok tt else Raise (ConfigError (InvalidDistance (YInt z) path)).
Proof.
  unfold _validate_distance, in_approved_distances. cbn [bind].
  now destruct (approved z).
Qed.

Lemma validate_distance_bool (b : bool) (path : string) :
  _validate_distance (YBool b) path =
  if b then Raise (ConfigError (InvalidDistance (YBool true) path)) else Ok tt.
Proof. now destruct b. Qed.

Lemma approved_in (z : Z) :
  approved z = true <-> In z APPROVED_DISTANCES.
Proof.
  unfold approved. rewrite existsb_exists. split.
  - intros [x [Hin Heq]]. apply Z.eqb_eq in Heq. now subst.
  - intros Hin. exists z. split; [exact Hin|apply Z.eqb_refl].
Qed.

(** *** The required-key pass: which key is reported *)

Lemma first_type_error_accepted (path : string) (get : string -> option yaml)
    (entries : list (string * pytype)) :
  (forall entry, In entry entries -> entry_accepted entry (get (fst entry)) = true) ->
  first_type_error path get entries = None.
Proof.
  induction entries as [|e0 rest IH]; intros Hall; simpl; [reflexivity|].
  unfold type_check_error. rewrite (Hall e0 (or_introl eq_refl)).
  apply IH. intros e He. apply Hall. now right.
Qed.

Lemma first_type_error_entry (path : string) (get : string -> option yaml)
    (entries : list (string * pytype)) (e : exn) :
  first_type_error path get entries = Some e ->
  exists entry, In entry entries /\
    (e = ConfigError (MissingRequiredKey (fst entry) path) \/
     e = ConfigError (InvalidType (fst entry) path (type_name (snd entry)))).
Proof.
  induction entries as [|e0 rest IH]; simpl; [discriminate|].
  unfold type_check_error.
  destruct (entry_accepted e0 (get (fst e0))).
  - intros H. destruct (IH H) as [entry [Hin Hcase]]. exists entry. auto.
  - intros H. exists e0. split; [now left|].
    destruct (get (fst e0)); inversion H; auto.
Qed.

Lemma first_type_error_before (path : string) (get : string -> option yaml)
    (entries : list (string * pytype)) (k : string) (ty : pytype) :
  NoDup (map fst entries) -> In (k, ty) entries ->
  entry_accepted (k, ty) (get k) = false ->
  first_type_error path get entries =
  match first_type_error path get (entries_before k entries) with
  | Some e => Some e
  | None => type_check_error path (k, ty) (get k)
  end.
Proof.
  induction entries as [|e0 rest IH]; intros Hnd Hin Hrej; [contradiction|].
  inversion Hnd as [|? ? Hnotin Hnd']; subst.
  simpl. destruct (fst e0 =? k) eqn:Hk.
  - apply String.eqb_eq in Hk.
    assert (He0 : e0 = (k, ty)).
    { destruct Hin as [Heq|Hin]; [exact Heq|].
      exfalso. apply Hnotin. rewrite Hk.
      change k with (fst (k, ty)). now apply in_map. }
    subst e0. simpl.
    unfold type_check_error. rewrite Hrej. now destruct (get k).
  - simpl.
    destruct (type_check_error path e0 (get (fst e0))); [reflexivity|].
    apply IH; [exact Hnd'| |exact Hrej].
    destruct Hin as [Heq|Hin]; [|exact Hin].
    subst e0. simpl in Hk. rewrite String.eqb_refl in Hk. discriminate.
Qed.

(** The error of the pass is the verdict on the first entry it refuses. *)
Lemma first_type_error_first (path : string) (get : string -> option yaml)
    (entries : list (string * pytype)) (e : exn) :
  first_type_error path get entries = Some e ->
  exists pre entry post,
    entries = (pre ++ entry :: post)%list /\
    (forall earlier, In earlier pre ->
       entry_accepted earlier (get (fst earlier)) = true) /\
    entry_accepted entry (get (fst entry)) = false /\
    e = ConfigError
          match get (fst entry) with
          | None => MissingRequiredKey (fst entry) path
          | Some _ => InvalidType (fst entry) path (type_name (snd entry))
          end.
Proof.
  induction entries as [|e0 rest IH]; simpl; [discriminate|].
  unfold type_check_error.
  destruct (entry_accepted e0 (get (fst e0))) eqn:Hacc.
  - intros H. destruct (IH H) as [pre [entry [post [-> [Hpre [Hrej He]]]]]].
    exists (e0 :: pre), entry, post.
    split; [reflexivity|]. split; [|now split].
    intros earlier [<-|Hin]; [exact Hacc|now apply Hpre].
  - intros H. exists [], e0, rest.
    split; [reflexivity|]. split; [intros earlier []|]. split; [exact Hacc|].
    destruct (get (fst e0)); now inversion H.
Qed.

Lemma first_type_error_app (path : string) (get : string -> option yaml)
    (entries more : list (string * pytype)) :
  first_type_error path get (entries ++ more) =
  match first_type_error path get entries with
  | Some e => Some e
  | None => first_type_error path get more
  end.
Proof.
  induction entries as [|e0 rest IH]; simpl; [reflexivity|].
  now destruct (type_check_error path e0 (get (fst e0))).
Qed.

(** *** Agreement of two lookups *)

Lemma first_value_error_ext (get1 get2 : string -> option yaml)
    (checks : list (string * (yaml -> result unit))) :
  (forall check, In check checks -> get1 (fst check) = get2 (fst check)) ->
  first_value_error get1 checks = first_value_error get2 checks.
Proof.
  induction checks as [|[key check] rest IH]; intros Hext; simpl; [reflexivity|].
  pose proof (Hext (key, check) (or_introl eq_refl)) as Hkey.
  cbn [fst] in Hkey. rewrite Hkey.
  destruct (get2 key) as [v|]; [|reflexivity].
  destruct (check v); [|reflexivity].
  apply IH. intros c Hc. apply Hext. now right.
Qed.

(** Two lookups that differ only at a blacklist key, accepted in both, get
    the same verdict. *)
Lemma config_error_blacklist_ext (path : string) (get0 get1 : string -> option yaml)
    (k : string) :
  In k BLACKLIST_KEYS ->
  (forall k', k' <> k -> get1 k' = get0 k') ->
  entry_accepted (k, TList) (get0 k) = true ->
  entry_accepted (k, TList) (get1 k) = true ->
  config_error path get1 = config_error path get0.
Proof.
  intros Hk Hext Hacc0 Hacc1. unfold config_error.
  assert (Htypes : first_type_error path get1 REQUIRED_CONFIG_KEYS
                   = first_type_error path get0 REQUIRED_CONFIG_KEYS).
  { apply first_type_error_same. intros entry Hin.
    destruct (string_dec (fst entry) k) as [Heq|Hne].
    - assert (Hentry : entry = (k, TList)).
      { simpl in Hk, Hin.
        repeat (destruct Hin as [<-|Hin]; [
          simpl in Heq; subst k;
          repeat (destruct Hk as [Hk|Hk]; [try discriminate Hk; reflexivity|]);
          contradiction |]).
        contradiction. }
      subst entry. cbn [fst]. unfold type_check_error.
      now rewrite Hacc0, Hacc1.
    - now rewrite (Hext _ Hne). }
  rewrite Htypes.
  destruct (first_type_error path get0 REQUIRED_CONFIG_KEYS); [reflexivity|].
  apply first_value_error_ext. intros check Hin.
  apply Hext. intros Heq. subst k.
  simpl in Hin, Hk.
  repeat (destruct Hin as [<-|Hin]; [
    cbn [fst] in Hk;
    repeat (destruct Hk as [Hk|Hk]; [discriminate Hk|]); contradiction |]).
  contradiction.
Qed.

(** *** Every error of the checks on a mapping is a schema violation *)

Lemma bool_map_check_schema (mk : string -> config_msg) (entries : list (yaml * yaml))
    (names : list string) (e : exn) :
  (forall name, is_schema_violation (ConfigError (mk name)) = true) ->
  for_each (fun name =>
    value <- py_get (YDict entries) name ;;
    if negb (isinstance value TBool)
    then Raise (ConfigError (mk name))
    else Ok tt) names = Raise e ->
  is_schema_violation e = true.
Proof.
  intros Hmk. induction names as [|name rest IH]; cbn [for_each]; [discriminate|].
  unfold py_get at 1.
  destruct (dict_get entries name) as [v|]; cbn [bind].
  - destruct (isinstance v TBool); cbn [negb bind].
    + exact IH.
    + intros H. inversion H. apply Hmk.
  - cbn [isinstance negb bind]. intros H. inversion H. apply Hmk.
Qed.

Lemma config_error_schema (path : string) (get : string -> option yaml) (e : exn) :
  config_error path get = Some e -> is_schema_violation e = true.
Proof.
  unfold config_error.
  destruct (first_type_error path get REQUIRED_CONFIG_KEYS) as [e0|] eqn:Htypes.
  - intros H. inversion H; subst e0.
    destruct (first_type_error_entry _ _ _ _ Htypes) as [entry [_ [-> | ->]]];
      reflexivity.
  - pose proof (first_type_error_none _ _ _ Htypes) as Hacc.
    assert (Hel := Hacc ("experience_level", TDict)).
    assert (Hjt := Hacc ("job_types", TDict)).
    assert (Hdt := Hacc ("date", TDict)).
    assert (Hps := Hacc ("positions", TList)).
    assert (Hls := Hacc ("locations", TList)).
    assert (Hdi := Hacc ("distance", TInt)).
    unfold entry_accepted in *. cbn [fst snd] in *.
    unfold value_checks, first_value_error.
    destruct (get "experience_level") as [el|];
      [|specialize (Hel ltac:(simpl; auto 12)); discriminate].
    destruct (get "job_types") as [jt|];
      [|specialize (Hjt ltac:(simpl; auto 12)); discriminate].
    destruct (get "date") as [dt|];
      [|specialize (Hdt ltac:(simpl; auto 12)); discriminate].
    destruct (get "positions") as [ps|];
      [|specialize (Hps ltac:(simpl; auto 12)); discriminate].
    destruct (get "locations") as [ls|];
      [|specialize (Hls ltac:(simpl; auto 12)); discriminate].
    destruct (get "distance") as [di|];
      [|specialize (Hdi ltac:(simpl; auto 12)); discriminate].
    specialize (Hel ltac:(simpl; auto 12)). specialize (Hjt ltac:(simpl; auto 12)).
    specialize (Hdt ltac:(simpl; auto 12)). specialize (Hps ltac:(simpl; auto 12)).
    specialize (Hls ltac:(simpl; auto 12)).
    destruct el; try discriminate Hel. destruct jt; try discriminate Hjt.
    destruct dt; try discriminate Hdt. destruct ps; try discriminate Hps.
    destruct ls; try discriminate Hls.
    destruct (_validate_experience_levels _ path) eqn:E1;
      [|intros H; inversion H; subst;
        exact (bool_map_check_schema (fun l => ExperienceLevelNotBool l path)
                 _ _ _ (fun _ => eq_refl) E1)].
    destruct (_validate_job_types _ path) eqn:E2;
      [|intros H; inversion H; subst;
        exact (bool_map_check_schema (fun l => JobTypeNotBool l path)
                 _ _ _ (fun _ => eq_refl) E2)].
    destruct (_validate_date_filters _ path) eqn:E3;
      [|intros H; inversion H; subst;
        exact (bool_map_check_schema (fun l => DateFilterNotBool l path)
                 _ _ _ (fun _ => eq_refl) E3)].
    unfold check_list_of_strings, py_iter. cbn [bind].
    destruct (negb (forallb _ items)); [intros H; now inversion H|].
    destruct (negb (forallb _ items0)); [intros H; now inversion H|].
    specialize (Hdi ltac:(simpl; auto 12)).
    destruct di as [| b | z | | | |]; try discriminate Hdi.
    + rewrite validate_distance_bool. destruct b; [|discriminate].
      intros H. now inversion H.
    + rewrite validate_distance_int. destruct (approved z); [discriminate|].
      intros H. now inversion H.
Qed.

(** When the three blacklists already are lists the pass assigns nothing:
    the validated document is the input itself. *)
Lemma normalize_lists_unchanged (d : list (yaml * yaml)) :
  (forall k, In k BLACKLIST_KEYS -> exists items, dict_get d k = Some (YList items)) ->
  normalize d = d.
Proof.
  intros Hlists. unfold normalize.
  assert (Hkeep : forall entry, In entry REQUIRED_CONFIG_KEYS ->
                                normalize_entry d entry = d).
  { intros entry Hin. unfold normalize_entry, defaulted.
    destruct (is_blacklist_key (fst entry)) eqn:Hbl; [|reflexivity].
    assert (Hk : In (fst entry) BLACKLIST_KEYS).
    { unfold is_blacklist_key in Hbl. apply existsb_exists in Hbl.
      destruct Hbl as [k [Hk Heq]]. apply String.eqb_eq in Heq. now subst. }
    destruct (Hlists _ Hk) as [items Hget]. rewrite Hget.
    assert (Hty : snd entry = TList).
    { simpl in Hin, Hk.
      repeat (destruct Hin as [<-|Hin]; [try reflexivity;
        cbn [fst] in Hk;
        repeat (destruct Hk as [Hk|Hk]; [discriminate Hk|]); contradiction |]).
      contradiction. }
    now rewrite Hty. }
  revert Hkeep. generalize REQUIRED_CONFIG_KEYS as entries.
  induction entries as [|entry rest IH]; intros Hkeep; simpl; [reflexivity|].
  rewrite (Hkeep entry (or_introl eq_refl)).
  apply IH. intros e He. apply Hkeep. now right.
Qed.

End ConfigProofs.

(** ** Properties of [validate_config] and [validate_secrets] *)

Module ConfigProperties.
Import ConfigValidator ConfigSpec ConfigProofs.

Lemma validate_config_parsed (safe_load : string -> yaml + string)
    (read_text : string -> option string) (path : string) (doc : yaml) :
  load_yaml safe_load read_text path = Ok doc ->
  validate_config safe_load read_text path = validate_parameters path doc.
Proof. intros Hload. unfold validate_config. now rewrite Hload. Qed.

(** C5. The minimal valid configuration document (all required keys, the
    nested boolean maps fully populated with booleans whatever their values,
    empty lists for positions, locations and the three blacklists, distance 0)
    is accepted by [validate_config], and the document returned is the input
    itself: the blacklist defaulting changes nothing. *)
Theorem minimal_config_roundtrip (safe_load : string -> yaml + string)
    (read_text : string -> option string) (path text : string)
    (remote : bool) (levels types dates : string -> bool) :
  read_text path = Some text ->
  safe_load text = inl (minimal_config remote levels types dates) ->
  validate_config safe_load read_text path
  = Ok (minimal_config remote levels types dates).
Proof.
  intros Hread Hparse.
  unfold validate_config, load_yaml. rewrite Hread, Hparse.
  reflexivity.
Qed.

Lemma minimal_config_roundtrip_witness :
  let doc := minimal_config true (fun _ => true) (fun _ => false) (fun _ => true) in
  validate_config (parser_of doc) (store_of "remote: true") "config.yaml"
  = Ok doc.
Proof.
  intros doc.
  exact (minimal_config_roundtrip (parser_of doc) (store_of "remote: true")
           "config.yaml" "remote: true" true (fun _ => true) (fun _ => false)
           (fun _ => true) eq_refl eq_refl).
Defined.

(** C1. [validate_config] runs its stages in a fixed order and stops at the
    first failure: the required-key and type pass, then the experience
    levels, the job types, the date filters, the string lists, the distance,
    and last the blacklist normalization.  When a stage raises on the
    document and every stage before it passes, [validate_config] raises that
    very error, whatever the later stages would say; when no checking stage
    raises, the blacklist stage accepts the document the first pass produced
    and that document is returned. *)
Theorem validation_order (safe_load : string -> yaml + string)
    (read_text : string -> option string) (path : string) (doc : yaml) :
  load_yaml safe_load read_text path = Ok doc ->
  (forall i s e,
      nth_error checking_stages i = Some s ->
      s path doc = Raise e ->
      (forall j s', j < i -> nth_error checking_stages j = Some s' ->
                    s' path doc = Ok tt) ->
      validate_config safe_load read_text path = Raise e)
  /\
  ((forall s, In s checking_stages -> s path doc = Ok tt) ->
   exists r,
     check_required_keys path doc REQUIRED_CONFIG_KEYS = Ok r /\
     _validate_blacklists r path = Ok r /\
     validate_config safe_load read_text path = Ok r).
Proof.
  intros Hload. rewrite (validate_config_parsed _ _ _ _ Hload).
  pose proof (first_raised_stages path doc) as Hfirst.
  split.
  - intros i s e Hs He Hbefore.
    rewrite (first_raised_nth _ i e) in Hfirst.
    + destruct (validate_parameters path doc); simpl in Hfirst; congruence.
    + rewrite nth_error_map, Hs. simpl. now rewrite He.
    + intros j r Hj Hr. rewrite nth_error_map in Hr.
      destruct (nth_error checking_stages j) as [s'|] eqn:Hs'; [|discriminate].
      simpl in Hr. inversion Hr. now apply (Hbefore j s').
  - intros Hall.
    rewrite first_raised_none in Hfirst.
    + pose proof (Hall required_keys_stage (or_introl eq_refl)) as Hreq.
      unfold required_keys_stage in Hreq.
      destruct (check_required_keys path doc REQUIRED_CONFIG_KEYS) as [r|]
        eqn:Hpass; [|discriminate].
      destruct (check_required_keys_ok_dict path doc r Hpass) as [d ->].
      rewrite (check_required_keys_dict path _ required_keys_nodup d) in Hpass.
      destruct (first_type_error path (dict_get d) REQUIRED_CONFIG_KEYS)
        eqn:Htypes; [discriminate|].
      inversion Hpass; subst r. fold (normalize d).
      exists (YDict (normalize d)). split; [reflexivity|]. split.
      * now apply validate_blacklists_normalized.
      * rewrite validate_parameters_dict in *.
        destruct (config_error path (dict_get d)); [discriminate|reflexivity].
    + intros r Hr. apply in_map_iff in Hr. destruct Hr as [s [<- Hs]].
      now apply Hall.
Qed.

(** With an experience level and the distance both wrong, the error is the
    one of the experience-level stage. *)
Lemma validation_order_witness :
  validate_config (parser_of config_two_violations) (store_of "") "config.yaml"
  = Raise (ConfigError (ExperienceLevelNotBool "internship" "config.yaml"))
  /\ distance_stage "config.yaml" config_two_violations
     = Raise (ConfigError (InvalidDistance (YInt 7) "config.yaml")).
Proof.
  split; [|reflexivity].
  apply (proj1 (validation_order (parser_of config_two_violations)
                  (store_of "") "config.yaml" config_two_violations eq_refl)
           1 experience_levels_stage).
  - reflexivity.
  - reflexivity.
  - intros j s' Hj Hs'. destruct j as [|j]; [|lia].
    inversion Hs'. reflexivity.
Defined.

(** C4. Holding every other field valid (the document validates once its
    distance is set to 0), [validate_config] accepts the document for every
    integer distance in {0, 5, 10, 25, 50, 100} and rejects it, with the
    invalid-distance error, for every integer outside that set; a value that
    is neither an integer nor [False] is rejected as well. *)
Theorem distance_approved (safe_load : string -> yaml + string)
    (read_text : string -> option string) (path : string)
    (d : list (yaml * yaml)) (v r0 : yaml) :
  load_yaml safe_load read_text path = Ok (YDict (dict_set d "distance" v)) ->
  validate_parameters path (YDict (dict_set d "distance" (YInt 0))) = Ok r0 ->
  (forall z, v = YInt z -> In z APPROVED_DISTANCES ->
     exists r, validate_config safe_load read_text path = Ok r)
  /\
  (forall z, v = YInt z -> ~ In z APPROVED_DISTANCES ->
     validate_config safe_load read_text path
     = Raise (ConfigError (InvalidDistance v path)))
  /\
  ((forall z, v <> YInt z) -> v <> YBool false ->
     exists e, validate_config safe_load read_text path = Raise e /\
               is_schema_violation e = true).
Proof.
  intros Hload Hvalid.
  rewrite (validate_config_parsed _ _ _ _ Hload).
  rewrite (distance_outcome path d v r0 Hvalid).
  split; [|split].
  - intros z -> Hin. apply approved_in in Hin.
    cbn [isinstance]. rewrite validate_distance_int, Hin. eauto.
  - intros z -> Hout. cbn [isinstance]. rewrite validate_distance_int.
    destruct (approved z) eqn:Happ; [|reflexivity].
    apply approved_in in Happ. contradiction.
  - intros Hnotint Hnotfalse.
    destruct v as [| [] | z | f | s | items | entries]; cbn [isinstance];
      try rewrite validate_distance_bool;
      try (eexists; split; reflexivity).
    + now contradiction Hnotfalse.
    + now contradiction (Hnotint z).
Qed.

Lemma distance_approved_witness :
  exists r,
    validate_config
      (parser_of (YDict (dict_set (minimal_entries true (fun _ => true)
                                     (fun _ => true) (fun _ => true))
                           "distance" (YInt 25))))
      (store_of "") "config.yaml" = Ok r.
Proof.
  apply (proj1 (distance_approved (parser_of _) (store_of "") "config.yaml"
                  (minimal_entries true (fun _ => true) (fun _ => true)
                     (fun _ => true))
                  (YInt 25)
                  (minimal_config true (fun _ => true) (fun _ => true)
                     (fun _ => true))
                  eq_refl eq_refl) 25%Z eq_refl).
  simpl. auto.
Defined.

(** C10. A boolean [distance] passes the type test because [bool] is a
    subclass of [int].  With every other field valid, [False] (equal to 0) is
    accepted and stays in the returned document, and [True] (equal to 1) is
    rejected by the distance test with the invalid-distance error, never by
    the type test. *)
Theorem distance_boolean (safe_load : string -> yaml + string)
    (read_text : string -> option string) (path : string)
    (d : list (yaml * yaml)) (b : bool) (r0 : yaml) :
  load_yaml safe_load read_text path = Ok (YDict (dict_set d "distance" (YBool b))) ->
  validate_parameters path (YDict (dict_set d "distance" (YInt 0))) = Ok r0 ->
  (b = false ->
     exists r, validate_config safe_load read_text path = Ok (YDict r) /\
               dict_get r "distance" = Some (YBool false))
  /\
  (b = true ->
     validate_config safe_load read_text path
     = Raise (ConfigError (InvalidDistance (YBool true) path))).
Proof.
  intros Hload Hvalid.
  rewrite (validate_config_parsed _ _ _ _ Hload).
  rewrite (distance_outcome path d (YBool b) r0 Hvalid).
  cbn [isinstance]. rewrite validate_distance_bool.
  split; intros ->.
  - eexists. split; [reflexivity|].
    rewrite dict_get_normalize_plain by reflexivity.
    apply dict_get_set_same.
  - reflexivity.
Qed.

Lemma distance_boolean_witness :
  validate_config
    (parser_of (YDict (dict_set (minimal_entries true (fun _ => true)
                                   (fun _ => true) (fun _ => true))
                         "distance" (YBool true))))
    (store_of "") "config.yaml"
  = Raise (ConfigError (InvalidDistance (YBool true) "config.yaml")).
Proof.
  exact (proj2 (distance_boolean (parser_of _) (store_of "") "config.yaml"
                  (minimal_entries true (fun _ => true) (fun _ => true)
                     (fun _ => true))
                  true
                  (minimal_config true (fun _ => true) (fun _ => true)
                     (fun _ => true))
                  eq_refl eq_refl) eq_refl).
Defined.

(** C3. In a document that is valid once a blacklist key is bound to a list,
    leaving that key out or binding it to null is no failure:
    [validate_config] succeeds and the returned document binds the key to
    the empty list. *)
Theorem blacklist_defaulted (safe_load : string -> yaml + string)
    (read_text : string -> option string) (path : string)
    (d : list (yaml * yaml)) (k : string) (r0 : yaml) :
  load_yaml safe_load read_text path = Ok (YDict d) ->
  In k BLACKLIST_KEYS ->
  dict_get d k = None \/ dict_get d k = Some YNull ->
  validate_parameters path (YDict (dict_set d k (YList []))) = Ok r0 ->
  exists r, validate_config safe_load read_text path = Ok (YDict r) /\
            dict_get r k = Some (YList []).
Proof.
  intros Hload Hk Hmissing Hvalid.
  rewrite (validate_config_parsed _ _ _ _ Hload).
  assert (Hbl : is_blacklist_key k = true).
  { simpl in Hk. intuition (subst; reflexivity). }
  assert (Hacc : entry_accepted (k, TList) (dict_get d k) = true).
  { unfold entry_accepted. cbn [fst snd].
    destruct Hmissing as [-> | ->]; [exact Hbl|]. now rewrite Hbl. }
  rewrite validate_parameters_dict in *.
  rewrite (config_error_blacklist_ext path
             (dict_get (dict_set d k (YList []))) (dict_get d) k Hk).
  - destruct (config_error path (dict_get (dict_set d k (YList []))));
      [discriminate|].
    exists (normalize d). split; [reflexivity|].
    rewrite (dict_get_normalize_blacklist d k Hk Hacc).
    now destruct Hmissing as [-> | ->].
  - intros k' Hne. symmetry. now apply dict_get_set_other.
  - now rewrite dict_get_set_same.
  - exact Hacc.
Qed.

Lemma blacklist_defaulted_witness :
  exists r,
    validate_config (parser_of (YDict entries_sparse_blacklists))
      (store_of "") "config.yaml" = Ok (YDict r) /\
    dict_get r "company_blacklist" = Some (YList []).
Proof.
  eapply (blacklist_defaulted (parser_of (YDict entries_sparse_blacklists))
            (store_of "") "config.yaml" entries_sparse_blacklists
            "company_blacklist" _ eq_refl).
  - simpl. auto.
  - left. reflexivity.
  - vm_compute. reflexivity.
Defined.

(** C6, as the code has it.  [validate_secrets] on a secrets file that
    parses to a mapping: without an [llm_api_key] entry it raises the
    missing-secret [ConfigError], with the empty string it raises the
    empty-secret [ConfigError], and with any non-empty string it returns that
    very string. *)
Theorem validate_secrets_api_key (safe_load : string -> yaml + string)
    (read_text : string -> option string) (path : string)
    (d : list (yaml * yaml)) :
  load_yaml safe_load read_text path = Ok (YDict d) ->
  (dict_get d "llm_api_key" = None ->
     validate_secrets safe_load read_text path
     = Raise (ConfigError (MissingSecret "llm_api_key" path)))
  /\
  (dict_get d "llm_api_key" = Some (YStr "") ->
     validate_secrets safe_load read_text path
     = Raise (ConfigError (EmptySecret "llm_api_key" path)))
  /\
  (forall key, key <> "" -> dict_get d "llm_api_key" = Some (YStr key) ->
     validate_secrets safe_load read_text path = Ok (YStr key)).
Proof.
  intros Hload. unfold validate_secrets. rewrite Hload. cbn [bind for_each].
  unfold validate_secret, py_contains, py_getitem, dict_has.
  split; [|split].
  - intros ->. reflexivity.
  - intros ->. reflexivity.
  - intros key Hne ->. cbn [negb bind truthy].
    destruct (key =? "") eqn:E; [|reflexivity].
    apply String.eqb_eq in E. contradiction.
Qed.

Lemma validate_secrets_api_key_witness :
  validate_secrets (parser_of (YDict [(YStr "llm_api_key", YStr "sk-123")]))
    (store_of "") "secrets.yaml" = Ok (YStr "sk-123").
Proof.
  apply (proj2 (proj2 (validate_secrets_api_key
                         (parser_of (YDict [(YStr "llm_api_key", YStr "sk-123")]))
                         (store_of "") "secrets.yaml"
                         [(YStr "llm_api_key", YStr "sk-123")] eq_refl))
           "sk-123").
  - discriminate.
  - reflexivity.
Defined.

(** C6 as stated fails: an empty secrets file parses to null, which has no
    [llm_api_key]; the membership test on it raises [TypeError], which is no
    [ConfigError].  The same happens for a file that holds a number. *)
Lemma null_secrets_type_error :
  validate_secrets (parser_of YNull) (store_of "") "secrets.yaml" = Raise TypeError /\
  validate_secrets (parser_of (YInt 3)) (store_of "3") "secrets.yaml" = Raise TypeError /\
  is_config_error TypeError = false.
Proof. repeat split. Qed.

(** C2, as the code has it.  The required-key table has ten keys, seven of
    them not blacklists.  When a mapping lacks one of these seven,
    [validate_config] fails in the required-key pass with a schema-violation
    [ConfigError] about the first key of the table that the pass refuses:
    every key listed before it is accepted, it lies at or before the missing
    key, and the message is the missing-key message when it is absent and the
    invalid-type message when it is bound to a value of the wrong type.  So
    the error names the missing key itself whenever every key listed before
    it is accepted. *)
Theorem missing_required_key (safe_load : string -> yaml + string)
    (read_text : string -> option string) (path : string)
    (d : list (yaml * yaml)) (k : string) (ty : pytype) :
  load_yaml safe_load read_text path = Ok (YDict d) ->
  In (k, ty) REQUIRED_CONFIG_KEYS ->
  is_blacklist_key k = false ->
  dict_get d k = None ->
  (exists pre entry post,
      (entries_before k REQUIRED_CONFIG_KEYS ++ [(k, ty)] = pre ++ entry :: post)%list /\
      (forall earlier, In earlier pre ->
         entry_accepted earlier (dict_get d (fst earlier)) = true) /\
      entry_accepted entry (dict_get d (fst entry)) = false /\
      validate_config safe_load read_text path
      = Raise (ConfigError
                 match dict_get d (fst entry) with
                 | None => MissingRequiredKey (fst entry) path
                 | Some _ => InvalidType (fst entry) path (type_name (snd entry))
                 end))
  /\
  ((forall entry, In entry (entries_before k REQUIRED_CONFIG_KEYS) ->
      entry_accepted entry (dict_get d (fst entry)) = true) ->
   validate_config safe_load read_text path
   = Raise (ConfigError (MissingRequiredKey k path))).
Proof.
  intros Hload Hin Hplain Hmissing.
  rewrite (validate_config_parsed _ _ _ _ Hload).
  rewrite validate_parameters_dict. unfold config_error.
  assert (Hrej : entry_accepted (k, ty) (dict_get d k) = false).
  { unfold entry_accepted. now rewrite Hmissing. }
  rewrite (first_type_error_before path (dict_get d) _ k ty
             required_keys_nodup Hin Hrej).
  replace (type_check_error path (k, ty) (dict_get d k))
    with (Some (ConfigError (MissingRequiredKey k path)))
    by (unfold type_check_error; now rewrite Hrej, Hmissing).
  split.
  - destruct (first_type_error path (dict_get d)
                (entries_before k REQUIRED_CONFIG_KEYS ++ [(k, ty)])) as [e|] eqn:Hfirst.
    + destruct (first_type_error_first _ _ _ _ Hfirst)
        as [pre [entry [post [Hsplit [Hpre [Hentry ->]]]]]].
      exists pre, entry, post. repeat split; auto.
      rewrite first_type_error_app in Hfirst.
      destruct (first_type_error path (dict_get d)
                  (entries_before k REQUIRED_CONFIG_KEYS)) as [e|].
      * now inversion Hfirst.
      * cbn [first_type_error fst] in Hfirst. unfold type_check_error in Hfirst.
        rewrite Hrej, Hmissing in Hfirst. now inversion Hfirst.
    + rewrite first_type_error_app in Hfirst.
      destruct (first_type_error path (dict_get d)
                  (entries_before k REQUIRED_CONFIG_KEYS)); [discriminate|].
      cbn [first_type_error fst] in Hfirst. unfold type_check_error in Hfirst.
      rewrite Hrej, Hmissing in Hfirst. discriminate.
  - intros Hacc.
    now rewrite (first_type_error_accepted path (dict_get d) _ Hacc).
Qed.

Lemma missing_required_key_witness :
  validate_config (parser_of (YDict [(YStr "remote", YBool true)]))
    (store_of "") "config.yaml"
  = Raise (ConfigError (MissingRequiredKey "experience_level" "config.yaml")).
Proof.
  apply (proj2 (missing_required_key
                  (parser_of (YDict [(YStr "remote", YBool true)]))
                  (store_of "") "config.yaml" [(YStr "remote", YBool true)]
                  "experience_level" TDict eq_refl
                  (or_intror (or_introl eq_refl)) eq_refl eq_refl)).
  intros entry [<-|[]]. reflexivity.
Defined.

(** C2 as stated fails: this mapping lacks [distance], yet the error names
    [remote], whose value has the wrong type; and the table has ten
    required keys. *)
Lemma missing_key_not_named :
  dict_get entries_bad_remote_no_distance "distance" = None /\
  validate_config (parser_of (YDict entries_bad_remote_no_distance))
    (store_of "") "config.yaml"
  = Raise (ConfigError (InvalidType "remote" "config.yaml" "bool")) /\
  validate_config (parser_of (YDict entries_bad_remote_no_distance))
    (store_of "") "config.yaml"
  <> Raise (ConfigError (MissingRequiredKey "distance" "config.yaml")) /\
  length REQUIRED_CONFIG_KEYS = 10 /\
  length (filter (fun entry => negb (is_blacklist_key (fst entry)))
            REQUIRED_CONFIG_KEYS) = 7.
Proof.
  repeat split; try reflexivity. discriminate.
Qed.

(** C9, as the code has it.  When the file is absent or the parser rejects
    it, [validate_config] fails with a parse-failure [ConfigError]; when the
    file parses to a mapping, it either returns a validated document or fails
    with a schema-violation [ConfigError]. *)
Theorem validate_config_errors (safe_load : string -> yaml + string)
    (read_text : string -> option string) (path : string) :
  (read_text path = None ->
     validate_config safe_load read_text path
     = Raise (ConfigError (YamlNotFound path)) /\
     is_parse_failure (ConfigError (YamlNotFound path)) = true)
  /\
  (forall text exc, read_text path = Some text -> safe_load text = inr exc ->
     validate_config safe_load read_text path
     = Raise (ConfigError (YamlReadError path exc)) /\
     is_parse_failure (ConfigError (YamlReadError path exc)) = true)
  /\
  (forall text d, read_text path = Some text -> safe_load text = inl (YDict d) ->
     (exists r, validate_config safe_load read_text path = Ok r) \/
     (exists e, validate_config safe_load read_text path = Raise e /\
                is_schema_violation e = true)).
Proof.
  unfold validate_config, load_yaml.
  split; [|split].
  - intros ->. split; reflexivity.
  - intros text exc -> ->. split; reflexivity.
  - intros text d -> ->. cbn [bind].
    rewrite validate_parameters_dict.
    destruct (config_error path (dict_get d)) as [e|] eqn:Herr.
    + right. exists e. split; [reflexivity|].
      exact (config_error_schema path (dict_get d) e Herr).
    + left. eauto.
Qed.

Lemma validate_config_errors_witness :
  validate_config (fun _ => inr "mapping values are not allowed here")
    (store_of "a: b: c") "config.yaml"
  = Raise (ConfigError (YamlReadError "config.yaml"
                          "mapping values are not allowed here")).
Proof.
  exact (proj1 (proj1 (proj2 (validate_config_errors
                                (fun _ => inr "mapping values are not allowed here")
                                (store_of "a: b: c") "config.yaml"))
                  "a: b: c" "mapping values are not allowed here" eq_refl eq_refl)).
Defined.

(** C9 as stated fails: an empty file parses to null and a file holding a
    number parses to that number; on both the required-key pass raises
    [TypeError], which is no [ConfigError]. *)
Lemma null_document_type_error :
  validate_config (parser_of YNull) (store_of "") "config.yaml" = Raise TypeError /\
  validate_config (parser_of (YInt 3)) (store_of "3") "config.yaml" = Raise TypeError /\
  is_config_error TypeError = false.
Proof. repeat split. Qed.

End ConfigProperties.

(** ** Properties of [FileManager.validate_data_folder] *)

Module FileProperties.
Import FileManager.

Lemma in_missing_files (secrets prefs resume : string) (fs : filesystem)
    (folder file : string) :
  In file (missing_files secrets prefs resume fs folder) <->
  In file (REQUIRED_FILES secrets prefs resume) /\
  path_exists fs (path_join folder file) = false.
Proof.
  unfold missing_files. rewrite filter_In.
  split; intros [Hin Hex]; split; auto.
  - now apply negb_true_iff.
  - now apply negb_true_iff.
Qed.

(** C7. In a data directory that exists but lacks required files,
    [validate_data_folder] raises [FileNotFoundError] and changes nothing;
    the message lists, joined by commas, every required file name that is
    absent and no other.  When only the plain-text resume is absent, the
    message lists exactly that name. *)
Theorem missing_files_listed (SECRETS_YAML WORK_PREFERENCES_YAML
    PLAIN_TEXT_RESUME_YAML : string) (fs : filesystem) (folder : string) :
  is_dir fs folder = true ->
  (exists file,
      In file (REQUIRED_FILES SECRETS_YAML WORK_PREFERENCES_YAML PLAIN_TEXT_RESUME_YAML) /\
      path_exists fs (path_join folder file) = false) ->
  let missing :=
    missing_files SECRETS_YAML WORK_PREFERENCES_YAML PLAIN_TEXT_RESUME_YAML fs folder in
  validate_data_folder SECRETS_YAML WORK_PREFERENCES_YAML PLAIN_TEXT_RESUME_YAML
    fs folder
  = (fs, Raise (FileNotFoundError
                  ("Missing files in data folder: " ++ String.concat ", " missing)))
  /\
  (forall file,
      In file missing <->
      In file (REQUIRED_FILES SECRETS_YAML WORK_PREFERENCES_YAML PLAIN_TEXT_RESUME_YAML) /\
      path_exists fs (path_join folder file) = false)
  /\
  (path_exists fs (path_join folder SECRETS_YAML) = true ->
   path_exists fs (path_join folder WORK_PREFERENCES_YAML) = true ->
   path_exists fs (path_join folder PLAIN_TEXT_RESUME_YAML) = false ->
   validate_data_folder SECRETS_YAML WORK_PREFERENCES_YAML PLAIN_TEXT_RESUME_YAML
     fs folder
   = (fs, Raise (FileNotFoundError
                   ("Missing files in data folder: " ++ PLAIN_TEXT_RESUME_YAML)))).
Proof.
  intros Hdir [file Hfile] missing.
  assert (Hne : missing <> []).
  { intros Hnil. apply in_missing_files in Hfile. fold missing in Hfile.
    rewrite Hnil in Hfile. contradiction. }
  split; [|split].
  - unfold validate_data_folder. rewrite Hdir. cbn [negb]. subst missing.
    destruct (missing_files SECRETS_YAML WORK_PREFERENCES_YAML
                PLAIN_TEXT_RESUME_YAML fs folder);
      [now contradiction Hne|reflexivity].
  - intros f. apply in_missing_files.
  - intros Hs Hw Hr. unfold validate_data_folder, missing_files, REQUIRED_FILES.
    rewrite Hdir. cbn [negb filter]. rewrite Hs, Hw, Hr. reflexivity.
Qed.

Lemma missing_files_listed_witness :
  let fs := {| fs_dirs := ["data_folder"];
               fs_files := [("data_folder/secrets.yaml", "llm_api_key: sk")] |} in
  validate_data_folder "secrets.yaml" "work_preferences.yaml" "plain_text_resume.yaml"
    fs "data_folder"
  = (fs, Raise (FileNotFoundError
       "Missing files in data folder: work_preferences.yaml, plain_text_resume.yaml")).
Proof.
  intros fs.
  apply (proj1 (missing_files_listed "secrets.yaml" "work_preferences.yaml"
                  "plain_text_resume.yaml" fs "data_folder" eq_refl
                  (ex_intro _ "plain_text_resume.yaml"
                     (conj (or_intror (or_intror (or_introl eq_refl))) eq_refl)))).
Defined.

End FileProperties.

(** ** Properties of the plain-resume flow *)

Module DispatchProperties.
Import FileManager Dispatch DispatchExample.

Lemma prompted_style_total (env : collaborators) (w : world) :
  exists name w',
    (selected_style <<- prompt_style_selection env ;;
     match given selected_style with
     | Some name => io_ret name
     | None =>
         log (LogWarning "No style selected. Proceeding with default style.") >>>
         io_ret "default"
     end) w = (Ok name, w') /\ w_fs w' = w_fs w.
Proof.
  unfold prompt_style_selection, io_bind, log, io_ret.
  destruct (get_styles env) as [|style styles].
  - cbn [given]. eauto.
  - destruct (prompt_style env) as [choice|].
    + destruct (given (find (fun style_name => String.prefix style_name choice)
                         (style :: styles))); eauto.
    + cbn [given]. eauto.
Qed.

Lemma select_style_total (env : collaborators) (style_name : option string)
    (w : world) :
  exists name w',
    select_style env style_name w = (Ok name, w') /\ w_fs w' = w_fs w.
Proof.
  unfold select_style. cbv zeta.
  destruct style_name as [name|]; [|apply prompted_style_total].
  match goal with
  | |- context [match ?known with true => _ | false => _ end] => destruct known
  end; [|apply prompted_style_total].
  unfold io_bind, log, io_ret. eauto.
Qed.

(** C8, as the code has it.  When the resume source can be read, the
    collaborators before the build succeed and the build hands back a string
    that [base64.b64decode] refuses, the plain-resume flow raises that
    decoding error without writing: the files are what they were.  When the
    error is a [binascii.Error] it is logged as a decoding error first. *)
Theorem decode_failure_writes_nothing (env : collaborators)
    (parameters uploads : yaml) (llm_api_key resume_path text payload : string)
    (style_name output_filename : option string) (w : world) (e : exn) :
  py_getitem parameters "uploads" = Ok uploads ->
  py_getitem uploads "plainTextResume" = Ok (YStr resume_path) ->
  file_content (w_fs w) resume_path = Some text ->
  make_resume env text = Ok tt ->
  init_browser env = Ok tt ->
  facade_create_resume_pdf env = Ok payload ->
  Base64.b64decode payload = Raise e ->
  exists w',
    create_resume_pdf env parameters llm_api_key style_name output_filename w
    = (Raise e, w') /\
    w_fs w' = w_fs w /\
    (is_binascii_error e = true ->
     In (LogError ("Error decoding Base64: " ++ exn_text e)) (w_log w')).
Proof.
  intros Huploads Hresume Hread Hmake Hbrowser Hbuild Hdecode.
  unfold create_resume_pdf, try_except.
  unfold io_bind at 1. unfold log at 1.
  unfold io_bind at 1. unfold io_lift at 1. rewrite Huploads.
  unfold io_bind at 1. unfold io_lift at 1. rewrite Hresume.
  unfold io_bind at 1. unfold io_lift at 1. cbn [as_path].
  unfold io_bind at 1. unfold read_file. cbn [w_fs]. rewrite Hread.
  unfold io_bind at 1.
  match goal with
  | |- context [select_style env style_name ?w0] =>
      destruct (select_style_total env style_name w0) as [name [w1 [Hstyle Hfs]]]
  end.
  cbn [w_fs] in Hfs. rewrite Hstyle.
  unfold io_bind at 1. unfold io_lift at 1. rewrite Hmake.
  unfold io_bind at 1. unfold io_lift at 1. rewrite Hbrowser.
  unfold io_bind at 1. unfold io_lift at 1. rewrite Hbuild.
  unfold io_bind at 1. unfold decode_payload, try_except, io_lift.
  rewrite Hdecode.
  unfold io_bind, log, io_raise.
  destruct (is_binascii_error e); cbn [w_fs w_log];
    eexists; (split; [reflexivity|]); cbn [w_fs w_log];
    (split; [exact Hfs|]); intros Hbin; try discriminate Hbin.
  apply in_or_app. left. apply in_or_app. right. now left.
Qed.

Lemma decode_failure_writes_nothing_witness :
  exists w',
    example_run "abc" = (Raise (BinasciiError "Incorrect padding"), w') /\
    w_fs w' = example_fs /\
    (is_binascii_error (BinasciiError "Incorrect padding") = true ->
     In (LogError "Error decoding Base64: Incorrect padding") (w_log w')).
Proof.
  exact (decode_failure_writes_nothing (example_env "abc") example_parameters
           (YDict [(YStr "plainTextResume", YStr "data_folder/plain_text_resume.yaml")])
           "sk-123" "data_folder/plain_text_resume.yaml" "name: Ada" "abc"
           (Some "default") (Some "cv.pdf") example_world
           (BinasciiError "Incorrect padding")
           eq_refl eq_refl eq_refl eq_refl eq_refl eq_refl eq_refl).
Defined.

(** Characters outside the alphabet are skipped, not refused: a text made
    of such characters only decodes to the empty payload. *)
Lemma a2b_loop_skips (data : list ascii) (quad_pos : nat) (leftchar : N)
    (pads : nat) (out : list ascii) :
  forallb (fun c => negb (Ascii.eqb c Base64.PAD) && negb (Base64.is_alphabet c)) data
  = true ->
  Base64.a2b_loop data quad_pos leftchar pads out = Base64.finish quad_pos out.
Proof.
  induction data as [|c rest IH]; intros Hskip; [reflexivity|].
  cbn [forallb] in Hskip. apply andb_true_iff in Hskip. destruct Hskip as [Hc Hrest].
  apply andb_true_iff in Hc. destruct Hc as [Hpad Halpha].
  apply negb_true_iff in Hpad, Halpha.
  cbn [Base64.a2b_loop]. rewrite Hpad.
  unfold Base64.is_alphabet in Halpha.
  destruct (Base64.b64_value c); [discriminate|].
  now apply IH.
Qed.

(** Alphabet characters are ASCII and none of them is the pad. *)
Lemma alphabet_char (c : ascii) :
  Base64.is_alphabet c = true ->
  Base64.is_ascii c = true /\ Ascii.eqb c Base64.PAD = false.
Proof.
  unfold Base64.is_alphabet, Base64.b64_value.
  assert (Hall : forallb (fun a => Base64.is_ascii a && negb (Ascii.eqb a Base64.PAD))
                   (list_ascii_of_string Base64.ALPHABET) = true) by reflexivity.
  revert Hall. generalize (list_ascii_of_string Base64.ALPHABET) as alphabet.
  generalize 0%N as i.
  intros i alphabet. revert i.
  induction alphabet as [|a rest IH]; intros i Hall; cbn [Base64.index_of];
    [discriminate|].
  cbn [forallb] in Hall. apply andb_true_iff in Hall. destruct Hall as [Ha Hrest].
  destruct (Ascii.eqb a c) eqn:Hac.
  - intros _. apply Ascii.eqb_eq in Hac. subst c.
    apply andb_true_iff in Ha. destruct Ha as [Hascii Hpad].
    split; [exact Hascii|]. now apply negb_true_iff.
  - apply (IH _ Hrest).
Qed.

(** On text made of alphabet characters only, the loop ends with the quad
    position the number of characters dictates. *)
Lemma a2b_loop_alphabet (data : list ascii) (quad_pos : nat) (leftchar : N)
    (pads : nat) (out : list ascii) :
  quad_pos < 4 ->
  forallb Base64.is_alphabet data = true ->
  exists out',
    Base64.a2b_loop data quad_pos leftchar pads out
    = Base64.finish ((quad_pos + length data) mod 4) out'.
Proof.
  revert quad_pos leftchar pads out.
  induction data as [|c rest IH]; intros quad_pos leftchar pads out Hlt Hall.
  - exists out. cbn [Base64.a2b_loop length].
    rewrite Nat.add_0_r, Nat.mod_small by exact Hlt. reflexivity.
  - cbn [forallb] in Hall. apply andb_true_iff in Hall. destruct Hall as [Hc Hrest].
    destruct (alphabet_char c Hc) as [_ Hpad].
    cbn [Base64.a2b_loop length]. rewrite Hpad.
    unfold Base64.is_alphabet in Hc.
    destruct (Base64.b64_value c) as [v|]; [|discriminate].
    destruct quad_pos as [|[|[|[|q]]]]; [| | | |lia].
    + destruct (IH 1 v 0 out ltac:(lia) Hrest) as [out' Hout].
      exists out'. rewrite Hout. f_equal.
    + destruct (IH 2 (N.land v 15) 0
                  (out ++ [Base64.byte_of (N.lor (N.shiftl leftchar 2) (N.shiftr v 4))])%list
                  ltac:(lia) Hrest) as [out' Hout].
      exists out'. rewrite Hout. f_equal.
    + destruct (IH 3 (N.land v 3) 0
                  (out ++ [Base64.byte_of (N.lor (N.shiftl leftchar 4) (N.shiftr v 2))])%list
                  ltac:(lia) Hrest) as [out' Hout].
      exists out'. rewrite Hout. f_equal.
    + destruct (IH 0 0%N 0
                  (out ++ [Base64.byte_of (N.lor (N.shiftl leftchar 6) v)])%list
                  ltac:(lia) Hrest) as [out' Hout].
      exists out'. rewrite Hout. f_equal.
      replace (3 + S (length rest)) with (length rest + 1 * 4) by lia.
      now rewrite Nat.Div0.mod_add.
Qed.

(** Text made of alphabet characters whose number is not a multiple of four
    is refused by the decoder. *)
Lemma unfinished_quad_refused (s : string) :
  forallb Base64.is_alphabet (list_ascii_of_string s) = true ->
  length (list_ascii_of_string s) mod 4 <> 0 ->
  exists msg, Base64.b64decode s = Raise (BinasciiError msg).
Proof.
  intros Hall Hlen. unfold Base64.b64decode.
  assert (Hascii : forallb Base64.is_ascii (list_ascii_of_string s) = true).
  { apply forallb_forall. intros c Hc.
    rewrite forallb_forall in Hall. now apply alphabet_char, Hall. }
  rewrite Hascii. cbn [negb].
  destruct (a2b_loop_alphabet (list_ascii_of_string s) 0 0%N 0 [] ltac:(lia) Hall)
    as [out' Hout].
  rewrite Hout. cbn [Nat.add].
  pose proof (Nat.mod_upper_bound (length (list_ascii_of_string s)) 4 ltac:(lia)).
  destruct (length (list_ascii_of_string s) mod 4) as [|[|n]];
    [contradiction|eexists; reflexivity|eexists; reflexivity].
Qed.

Example b64decode_hello : Base64.b64decode "aGVsbG8=" = Ok "hello".
Proof. reflexivity. Qed.

Example b64decode_skips_blank : Base64.b64decode "aGVs bG8=" = Ok "hello".
Proof. reflexivity. Qed.

Example b64decode_unfinished :
  Base64.b64decode "abc" = Raise (BinasciiError "Incorrect padding").
Proof. reflexivity. Qed.

(** C8 as stated fails: ["%%%%"] is not base64 text, yet the decoder skips
    every character of it, the flow succeeds, and the output file is written
    (empty) where there was none. *)
Lemma lenient_decode_writes_file :
  Base64.valid_base64 "%%%%" = false /\
  Base64.b64decode "%%%%" = Ok "" /\
  fst (example_run "%%%%") = Ok tt /\
  file_content example_fs "data_folder/output/cv.pdf" = None /\
  file_content (w_fs (snd (example_run "%%%%"))) "data_folder/output/cv.pdf"
  = Some "".
Proof. repeat split. Qed.

End DispatchProperties.

(** ** Field by field: what [validate_config] asks of each key *)

Module ConfigFields.
Import ConfigValidator ConfigSpec ConfigProofs.

(** *** The boolean maps *)

Lemma bool_map_check_ok (mk : string -> config_msg) (entries : list (yaml * yaml))
    (names : list string) :
  for_each (fun name =>
    value <- py_get (YDict entries) name ;;
    if negb (isinstance value TBool)
    then Raise (ConfigError (mk name))
    else Ok tt) names = Ok tt <->
  (forall name, In name names -> exists b, dict_get entries name = Some (YBool b)).
Proof.
  induction names as [|name rest IH]; cbn [for_each].
  - split; [intros _ name []|reflexivity].
  - unfold py_get at 1. split.
    + intros Hrun name' [<-|Hin].
      * destruct (dict_get entries name) as [[| b | | | | |]|];
          cbn [bind isinstance negb] in Hrun; try discriminate Hrun.
        now exists b.
      * apply IH; [|exact Hin].
        destruct (dict_get entries name) as [[| b | | | | |]|];
          cbn [bind isinstance negb] in Hrun; try discriminate Hrun.
        exact Hrun.
    + intros Hall.
      destruct (Hall name (or_introl eq_refl)) as [b ->].
      cbn [bind isinstance negb]. apply IH.
      intros name' Hin. apply Hall. now right.
Qed.

Lemma bool_map_check_first (mk : string -> config_msg) (entries : list (yaml * yaml))
    (names : list string) (e : exn) :
  for_each (fun name =>
    value <- py_get (YDict entries) name ;;
    if negb (isinstance value TBool)
    then Raise (ConfigError (mk name))
    else Ok tt) names = Raise e ->
  exists pre name post,
    names = (pre ++ name :: post)%list /\
    (forall name', In name' pre -> exists b, dict_get entries name' = Some (YBool b)) /\
    (forall b, dict_get entries name <> Some (YBool b)) /\
    e = ConfigError (mk name).
Proof.
  induction names as [|name rest IH]; cbn [for_each]; [discriminate|].
  unfold py_get at 1. intros Hrun.
  destruct (dict_get entries name) as [v|] eqn:Hget.
  - destruct (isinstance v TBool) eqn:Hbool; cbn [bind] in Hrun;
      rewrite Hbool in Hrun; cbn [negb bind] in Hrun.
    + destruct (IH Hrun) as [pre [name' [post [-> [Hpre [Hbad ->]]]]]].
      exists (name :: pre), name', post. repeat split; auto.
      intros n [<-|Hn]; [|now apply Hpre].
      destruct v; try discriminate Hbool. eauto.
    + inversion Hrun. exists [], name, rest. repeat split; auto.
      * intros n [].
      * intros b Hb. rewrite Hget in Hb. inversion Hb; subst. discriminate Hbool.
  - cbn [bind isinstance negb] in Hrun. inversion Hrun.
    exists [], name, rest. repeat split; auto.
    + intros n [].
    + intros b Hb. rewrite Hget in Hb. discriminate Hb.
Qed.

(** *** One field at a time *)

Lemma first_type_error_single (path : string) (get : string -> option yaml)
    (entries : list (string * pytype)) (k : string) (ty : pytype) :
  NoDup (map fst entries) -> In (k, ty) entries ->
  (forall entry, In entry entries -> fst entry <> k ->
     entry_accepted entry (get (fst entry)) = true) ->
  first_type_error path get entries = type_check_error path (k, ty) (get k).
Proof.
  induction entries as [|e0 rest IH]; intros Hnd Hin Hothers; [contradiction|].
  inversion Hnd as [|? ? Hnotin Hnd']; subst. cbn [first_type_error].
  destruct Hin as [->|Hin].
  - cbn [fst].
    rewrite (first_type_error_accepted path get rest).
    + now destruct (type_check_error path (k, ty) (get k)).
    + intros entry He. apply Hothers; [now right|].
      intros Heq. apply Hnotin. cbn [fst]. rewrite <- Heq. now apply in_map.
  - assert (Hne : fst e0 <> k).
    { intros Heq. apply Hnotin. rewrite Heq.
      change k with (fst (k, ty)). now apply in_map. }
    unfold type_check_error at 1.
    rewrite (Hothers e0 (or_introl eq_refl) Hne).
    apply IH; [exact Hnd'|exact Hin|].
    intros entry He. apply Hothers. now right.
Qed.

Lemma first_value_error_none (get : string -> option yaml)
    (checks : list (string * (yaml -> result unit))) :
  first_value_error get checks = None ->
  forall check, In check checks ->
    exists v, get (fst check) = Some v /\ snd check v = Ok tt.
Proof.
  induction checks as [|[key chk] rest IH]; cbn [first_value_error];
    intros Hnone check Hin; [contradiction|].
  destruct (get key) as [v|] eqn:Hget; [|discriminate].
  destruct (chk v) as [[]|] eqn:Hchk; [|discriminate].
  destruct Hin as [<-|Hin]; [|now apply IH].
  exists v. now split.
Qed.

Lemma first_value_error_single (get : string -> option yaml)
    (checks : list (string * (yaml -> result unit))) (k : string) :
  (forall check, In check checks -> fst check <> k ->
     exists v, get (fst check) = Some v /\ snd check v = Ok tt) ->
  first_value_error get checks
  = first_value_error get (filter (fun check => fst check =? k) checks).
Proof.
  induction checks as [|[key chk] rest IH]; intros Hothers; [reflexivity|].
  cbn [filter fst]. destruct (key =? k) eqn:Hk.
  - cbn [first_value_error].
    destruct (get key) as [v|]; [|reflexivity].
    destruct (chk v); [|reflexivity].
    apply IH. intros check Hin. apply Hothers. now right.
  - apply String.eqb_neq in Hk.
    destruct (Hothers (key, chk) (or_introl eq_refl) Hk) as [v [Hget Hchk]].
    cbn [fst snd] in Hget, Hchk. cbn [first_value_error].
    rewrite Hget, Hchk.
    apply IH. intros check Hin. apply Hothers. now right.
Qed.

(** When the document is valid for one value of a required key, its verdict
    for another value of that key is the first complaint of the checks that
    read the key. *)
Lemma field_verdict (path : string) (d : list (yaml * yaml)) (k : string)
    (ty : pytype) (v0 v1 r0 : yaml) :
  In (k, ty) REQUIRED_CONFIG_KEYS ->
  validate_parameters path (YDict (dict_set d k v0)) = Ok r0 ->
  config_error path (dict_get (dict_set d k v1)) =
  match type_check_error path (k, ty) (Some v1) with
  | Some e => Some e
  | None =>
      first_value_error (dict_get (dict_set d k v1))
        (filter (fun check => fst check =? k) (value_checks path))
  end.
Proof.
  intros Hin Hvalid. rewrite validate_parameters_dict in Hvalid.
  destruct (config_error path (dict_get (dict_set d k v0))) eqn:H0;
    [discriminate|]. clear Hvalid.
  unfold config_error in *.
  destruct (first_type_error path (dict_get (dict_set d k v0)) REQUIRED_CONFIG_KEYS)
    eqn:Htypes; [discriminate|].
  pose proof (first_type_error_none _ _ _ Htypes) as Hacc.
  pose proof (first_value_error_none _ _ H0) as Hval.
  rewrite (first_type_error_single path _ _ k ty required_keys_nodup Hin).
  - rewrite dict_get_set_same.
    destruct (type_check_error path (k, ty) (Some v1)); [reflexivity|].
    apply first_value_error_single.
    intros check Hc Hne. rewrite dict_get_set_other by exact Hne.
    rewrite <- (dict_get_set_other d (fst check) k v0 Hne).
    now apply Hval.
  - intros entry He Hne. rewrite dict_get_set_other by exact Hne.
    rewrite <- (dict_get_set_other d (fst entry) k v0 Hne).
    now apply Hacc.
Qed.

End ConfigFields.

(** ** What [validate_config] guarantees *)

Module ConfigGuarantees.
Import ConfigValidator ConfigSpec ConfigSchema ConfigProofs ConfigFields.

Lemma map_check_ok (f : bool_map_field) (entries : list (yaml * yaml)) (path : string) :
  map_check f (YDict entries) path = Ok tt <->
  (forall name, In name (map_names f) ->
     exists b, dict_get entries name = Some (YBool b)).
Proof.
  destruct f.
  - exact (bool_map_check_ok (fun l => ExperienceLevelNotBool l path) entries _).
  - exact (bool_map_check_ok (fun l => JobTypeNotBool l path) entries _).
  - exact (bool_map_check_ok (fun l => DateFilterNotBool l path) entries _).
Qed.

Lemma map_check_first (f : bool_map_field) (entries : list (yaml * yaml))
    (path : string) (e : exn) :
  map_check f (YDict entries) path = Raise e ->
  exists pre name post,
    map_names f = (pre ++ name :: post)%list /\
    (forall name', In name' pre -> exists b, dict_get entries name' = Some (YBool b)) /\
    (forall b, dict_get entries name <> Some (YBool b)) /\
    e = ConfigError (map_message f name path).
Proof.
  destruct f.
  - exact (bool_map_check_first (fun l => ExperienceLevelNotBool l path) entries _ e).
  - exact (bool_map_check_first (fun l => JobTypeNotBool l path) entries _ e).
  - exact (bool_map_check_first (fun l => DateFilterNotBool l path) entries _ e).
Qed.

Lemma check_list_of_strings_list (path key : string) (items : list yaml) :
  check_list_of_strings path key (YList items) =
  if forallb (fun item => isinstance item TStr) items then Ok tt
  else Raise (ConfigError (NotListOfStrings key path)).
Proof.
  unfold check_list_of_strings, py_iter. cbn [bind].
  now destruct (forallb (fun item => isinstance item TStr) items).
Qed.

Lemma all_strings (items : list yaml) :
  forallb (fun item => isinstance item TStr) items = true <->
  (forall item, In item items -> exists s, item = YStr s).
Proof.
  rewrite forallb_forall. split; intros H item Hin.
  - specialize (H item Hin). destruct item; try discriminate H. eauto.
  - destruct (H item Hin) as [s ->]. reflexivity.
Qed.

(** A success of the code comes from a mapping without complaint. *)
Lemma validate_parameters_ok (path : string) (doc r : yaml) :
  validate_parameters path doc = Ok r ->
  exists d, doc = YDict d /\ r = YDict (normalize d) /\
            config_error path (dict_get d) = None.
Proof.
  intros Hok.
  assert (Hdict : exists d, doc = YDict d).
  { pose proof Hok as Hrun. unfold validate_parameters in Hrun.
    destruct (check_required_keys path doc REQUIRED_CONFIG_KEYS) as [r1|] eqn:Hpass;
      [|discriminate Hrun].
    exact (check_required_keys_ok_dict path doc r1 Hpass). }
  destruct Hdict as [d ->]. exists d. split; [reflexivity|].
  rewrite validate_parameters_dict in Hok.
  destruct (config_error path (dict_get d)); [discriminate|].
  inversion Hok. now split.
Qed.

(** What an accepted plain key is bound to. *)
Lemma accepted_plain (k : string) (ty : pytype) (value : option yaml) :
  is_blacklist_key k = false ->
  entry_accepted (k, ty) value = true ->
  exists v, value = Some v /\ isinstance v ty = true.
Proof.
  unfold entry_accepted. cbn [fst snd]. intros ->.
  destruct value as [v|]; [|discriminate].
  cbn [andb]. rewrite orb_false_r. eauto.
Qed.

Lemma config_valid_conforms (path : string) (d : list (yaml * yaml)) :
  config_error path (dict_get d) = None -> conforms (normalize d).
Proof.
  unfold config_error. intros Hnone.
  destruct (first_type_error path (dict_get d) REQUIRED_CONFIG_KEYS) eqn:Htypes;
    [discriminate|].
  pose proof (first_type_error_none _ _ _ Htypes) as Hacc.
  pose proof (first_value_error_none _ _ Hnone) as Hval.
  assert (Hplain : forall k ty, In (k, ty) REQUIRED_CONFIG_KEYS ->
            is_blacklist_key k = false ->
            exists v, dict_get (normalize d) k = Some v /\ dict_get d k = Some v /\
                      isinstance v ty = true).
  { intros k ty Hin Hk.
    destruct (accepted_plain k ty _ Hk (Hacc (k, ty) Hin)) as [v [Hget Hty]].
    exists v. rewrite dict_get_normalize_plain by exact Hk. auto. }
  assert (Hmap : forall f, bound_to (normalize d) (map_key f) (all_booleans (map_names f))).
  { intros f.
    destruct (Hplain (map_key f) TDict) as [v [Hn [Hget Hty]]];
      [destruct f; simpl; auto 12|destruct f; reflexivity|].
    destruct (Hval (map_key f, fun v => map_check f v path)) as [v' [Hget' Hchk]];
      [destruct f; simpl; auto 12|].
    cbn [fst snd] in Hget', Hchk. rewrite Hget in Hget'. inversion Hget'; subst v'.
    destruct v as [| | | | | |entries]; try discriminate Hty.
    exists (YDict entries). split; [exact Hn|].
    exists entries. split; [reflexivity|]. now apply (map_check_ok f entries path). }
  assert (Hlist : forall k, In k ["positions"; "locations"] ->
            bound_to (normalize d) k list_of_strings).
  { intros k Hk.
    destruct (Hplain k TList) as [v [Hn [Hget Hty]]];
      [simpl in Hk; simpl; intuition (subst; auto 12)
      |simpl in Hk; intuition (subst; reflexivity)|].
    destruct (Hval (k, check_list_of_strings path k)) as [v' [Hget' Hchk]];
      [simpl in Hk; simpl; intuition (subst; auto 12)|].
    cbn [fst snd] in Hget', Hchk. rewrite Hget in Hget'. inversion Hget'; subst v'.
    destruct v as [| | | | |items|]; try discriminate Hty.
    exists (YList items). split; [exact Hn|].
    exists items. split; [reflexivity|]. apply all_strings.
    rewrite check_list_of_strings_list in Hchk.
    now destruct (forallb (fun item => isinstance item TStr) items). }
  repeat split.
  - destruct (Hplain "remote" TBool) as [v [Hn [_ Hty]]];
      [simpl; auto 12|reflexivity|].
    exists v. split; [exact Hn|]. destruct v; try discriminate Hty. eauto.
  - exact (Hmap ExperienceLevel).
  - exact (Hmap JobTypes).
  - exact (Hmap DateFilters).
  - apply Hlist. simpl. auto.
  - apply Hlist. simpl. auto.
  - destruct (Hplain "distance" TInt) as [v [Hn [Hget Hty]]];
      [simpl; auto 12|reflexivity|].
    destruct (Hval ("distance", fun v => _validate_distance v path))
      as [v' [Hget' Hchk]]; [simpl; auto 12|].
    cbn [fst snd] in Hget', Hchk. rewrite Hget in Hget'. inversion Hget'; subst v'.
    exists v. split; [exact Hn|].
    destruct v as [| b | z | | | |]; try discriminate Hty.
    + rewrite validate_distance_bool in Hchk.
      destruct b; [discriminate|]. now right.
    + rewrite validate_distance_int in Hchk.
      destruct (approved z) eqn:Happ; [|discriminate].
      left. exists z. split; [reflexivity|]. now apply approved_in.
  - intros k Hk.
    pose proof (Hacc (k, TList) (blacklist_entries_required k Hk)) as Hk_acc.
    cbn [fst] in Hk_acc. unfold bound_to.
    rewrite (dict_get_normalize_blacklist d k Hk Hk_acc).
    destruct (dict_get d k) as [[]|]; eauto.
Qed.

(** What [validate_parameters] returns conforms to the schema. *)
Lemma validate_parameters_conforms (path : string) (doc r : yaml) :
  validate_parameters path doc = Ok r ->
  exists d, r = YDict d /\ conforms d.
Proof.
  intros Hok.
  destruct (validate_parameters_ok path doc r Hok) as [d [-> [-> Hnone]]].
  exists (normalize d). split; [reflexivity|].
  now apply (config_valid_conforms path).
Qed.

(** X1. A document [validate_config] returns is a mapping that conforms to
    the schema: [remote] is a boolean, the three nested maps bind each of
    their names to a boolean, [positions] and [locations] are lists of
    strings, [distance] is an approved integer (or [False]), and the three
    blacklists are lists. *)
Theorem validated_document_conforms (safe_load : string -> yaml + string)
    (read_text : string -> option string) (path : string) (r : yaml) :
  validate_config safe_load read_text path = Ok r ->
  exists d, r = YDict d /\ conforms d.
Proof.
  unfold validate_config. intros Hok.
  destruct (load_yaml safe_load read_text path) as [doc|]; [|discriminate].
  cbn [bind] in Hok.
  exact (validate_parameters_conforms path doc r Hok).
Qed.

Lemma validated_document_conforms_witness :
  exists d,
    YDict (normalize entries_sparse_blacklists) = YDict d /\ conforms d.
Proof.
  exact (validated_document_conforms (parser_of (YDict entries_sparse_blacklists))
           (store_of "") "config.yaml" _ eq_refl).
Defined.

Lemma validate_config_loaded (safe_load : string -> yaml + string)
    (read_text : string -> option string) (path : string) (doc : yaml) :
  load_yaml safe_load read_text path = Ok doc ->
  validate_config safe_load read_text path = validate_parameters path doc.
Proof. intros Hload. unfold validate_config. now rewrite Hload. Qed.

(** Every conforming mapping passes every check. *)
Lemma conforms_valid (path : string) (d : list (yaml * yaml)) :
  conforms d -> config_error path (dict_get d) = None.
Proof.
  intros [[vr [Hr [br ->]]] [[ve [He [ee [-> Hee]]]] [[vj [Hj [ej [-> Hej]]]]
          [[vd [Hd [ed [-> Hed]]]] [[vp [Hp [ip [-> Hip]]]] [[vl [Hl [il [-> Hil]]]]
          [[vi [Hi Hdist]] Hbl]]]]]]].
  unfold config_error.
  rewrite first_type_error_accepted.
  - unfold value_checks, first_value_error.
    rewrite He, Hj, Hd, Hp, Hl, Hi.
    pose proof (proj2 (map_check_ok ExperienceLevel ee path) Hee) as Hce.
    pose proof (proj2 (map_check_ok JobTypes ej path) Hej) as Hcj.
    pose proof (proj2 (map_check_ok DateFilters ed path) Hed) as Hcd.
    cbn [map_check] in Hce, Hcj, Hcd. cbn beta.
    rewrite Hce, Hcj, Hcd.
    rewrite !check_list_of_strings_list.
    rewrite (proj2 (all_strings ip) Hip), (proj2 (all_strings il) Hil).
    destruct Hdist as [[z [-> Hz]] | ->].
    + rewrite validate_distance_int.
      now rewrite (proj2 (approved_in z) Hz).
    + reflexivity.
  - intros entry Hin. unfold entry_accepted. simpl in Hin.
    destruct Hin as [<-|[<-|[<-|[<-|[<-|[<-|[<-|[<-|[<-|[<-|[]]]]]]]]]]];
      cbn [fst snd];
      try (rewrite Hr || rewrite He || rewrite Hj || rewrite Hd || rewrite Hp
           || rewrite Hl); try reflexivity.
    + destruct (Hbl "location_blacklist") as [v [-> [items ->]]];
        [simpl; auto|reflexivity].
    + rewrite Hi. destruct Hdist as [[z [-> _]] | ->]; reflexivity.
    + destruct (Hbl "company_blacklist") as [v [-> [items ->]]];
        [simpl; auto|reflexivity].
    + destruct (Hbl "title_blacklist") as [v [-> [items ->]]];
        [simpl; auto|reflexivity].
Qed.

(** A conforming mapping goes through [validate_parameters] untouched. *)
Lemma validate_parameters_conforming (path : string) (d : list (yaml * yaml)) :
  conforms d -> validate_parameters path (YDict d) = Ok (YDict d).
Proof.
  intros Hconf. rewrite validate_parameters_dict.
  rewrite (conforms_valid path d Hconf).
  rewrite normalize_lists_unchanged; [reflexivity|].
  intros k Hk. destruct Hconf as [_ [_ [_ [_ [_ [_ [_ Hbl]]]]]]].
  destruct (Hbl k Hk) as [v [Hget [items ->]]]. eauto.
Qed.

(** X2. Every mapping that conforms to the schema is accepted by
    [validate_config] and returned as it is: nothing is defaulted, nothing
    reordered, other keys are kept. *)
Theorem conforming_document_returned (safe_load : string -> yaml + string)
    (read_text : string -> option string) (path : string) (d : list (yaml * yaml)) :
  load_yaml safe_load read_text path = Ok (YDict d) ->
  conforms d ->
  validate_config safe_load read_text path = Ok (YDict d).
Proof.
  intros Hload Hconf.
  rewrite (validate_config_loaded _ _ _ _ Hload).
  now apply validate_parameters_conforming.
Qed.

Lemma minimal_entries_conform (remote : bool) (levels types dates : string -> bool) :
  conforms (minimal_entries remote levels types dates).
Proof.
  unfold conforms, bound_to, all_booleans, list_of_strings, bool_map.
  repeat split.
  - eexists. split; [reflexivity|]. eauto.
  - eexists. split; [reflexivity|]. eexists. split; [reflexivity|].
    intros name Hin. simpl in Hin.
    repeat (destruct Hin as [<-|Hin]; [eexists; reflexivity|]). contradiction.
  - eexists. split; [reflexivity|]. eexists. split; [reflexivity|].
    intros name Hin. simpl in Hin.
    repeat (destruct Hin as [<-|Hin]; [eexists; reflexivity|]). contradiction.
  - eexists. split; [reflexivity|]. eexists. split; [reflexivity|].
    intros name Hin. simpl in Hin.
    repeat (destruct Hin as [<-|Hin]; [eexists; reflexivity|]). contradiction.
  - eexists. split; [reflexivity|]. eexists. split; [reflexivity|]. intros item [].
  - eexists. split; [reflexivity|]. eexists. split; [reflexivity|]. intros item [].
  - eexists. split; [reflexivity|]. left. exists 0%Z. split; [reflexivity|].
    simpl. auto.
  - intros k Hk. simpl in Hk.
    repeat (destruct Hk as [<-|Hk]; [eexists; split; [reflexivity|]; eauto|]).
    contradiction.
Qed.

Lemma conforming_document_returned_witness :
  validate_config
    (parser_of (minimal_config false (fun _ => true) (fun _ => false) (fun _ => true)))
    (store_of "") "config.yaml"
  = Ok (minimal_config false (fun _ => true) (fun _ => false) (fun _ => true)).
Proof.
  exact (conforming_document_returned (parser_of _) (store_of "") "config.yaml"
           (minimal_entries false (fun _ => true) (fun _ => false) (fun _ => true))
           eq_refl (minimal_entries_conform _ _ _ _)).
Defined.

(** X3. Validation is idempotent: a document [validate_config] has returned
    is accepted again, under any path, and returned unchanged. *)
Theorem validate_config_idempotent (safe_load safe_load' : string -> yaml + string)
    (read_text read_text' : string -> option string) (path path' : string) (r : yaml) :
  validate_config safe_load read_text path = Ok r ->
  load_yaml safe_load' read_text' path' = Ok r ->
  validate_config safe_load' read_text' path' = Ok r.
Proof.
  intros Hok Hload.
  rewrite (validate_config_loaded _ _ _ _ Hload).
  unfold validate_config in Hok.
  destruct (load_yaml safe_load read_text path) as [doc|]; [|discriminate].
  cbn [bind] in Hok.
  destruct (validate_parameters_conforms path doc r Hok) as [d [-> Hconf]].
  now apply validate_parameters_conforming.
Qed.

Lemma validate_config_idempotent_witness :
  validate_config (parser_of (YDict (normalize entries_sparse_blacklists)))
    (store_of "") "other.yaml"
  = Ok (YDict (normalize entries_sparse_blacklists)).
Proof.
  exact (validate_config_idempotent
           (parser_of (YDict entries_sparse_blacklists))
           (parser_of (YDict (normalize entries_sparse_blacklists)))
           (store_of "") (store_of "") "config.yaml" "other.yaml" _
           eq_refl eq_refl).
Defined.

(** *** What the returned document keeps *)

Lemma dict_set_keys (d : list (yaml * yaml)) (k : string) (v : yaml) :
  map fst (dict_set d k v)
  = (map fst d ++ (if dict_has d k then [] else [YStr k]))%list.
Proof.
  unfold dict_has.
  induction d as [|[key value] rest IH]; cbn [dict_set dict_get map fst app];
    [reflexivity|].
  destruct (key_is k key); cbn [map fst].
  - now rewrite app_nil_r.
  - now rewrite IH.
Qed.

Lemma normalize_keys (entries : list (string * pytype)) (d : list (yaml * yaml)) :
  exists added,
    map fst (fold_left normalize_entry entries d) = (map fst d ++ added)%list /\
    forall key, In key added -> exists k, key = YStr k /\ is_blacklist_key k = true.
Proof.
  revert d. induction entries as [|entry rest IH]; intros d; cbn [fold_left].
  - exists []. split; [now rewrite app_nil_r|intros key []].
  - destruct (IH (normalize_entry d entry)) as [added [Hkeys Hadded]].
    unfold normalize_entry, defaulted in *.
    destruct (is_blacklist_key (fst entry)) eqn:Hbl; cbn [andb] in *.
    + destruct (match dict_get d (fst entry) with
                | Some v => negb (isinstance v (snd entry)) && is_none v
                | None => true
                end).
      * rewrite dict_set_keys, <- app_assoc in Hkeys.
        eexists. split; [exact Hkeys|].
        intros key Hin. apply in_app_or in Hin. destruct Hin as [Hin|Hin];
          [|now apply Hadded].
        destruct (dict_has d (fst entry)); [contradiction|].
        destruct Hin as [<-|[]]. eauto.
      * exists added. now split.
    + exists added. now split.
Qed.

(** X4. The document [validate_config] returns differs from the parsed
    mapping only at defaulted blacklists: every key that is not a blacklist
    (required or not) keeps its value, a blacklist that was a list keeps it,
    the keys keep their order, and the only keys added, at the end, are
    blacklist keys. *)
Theorem validated_document_frame (safe_load : string -> yaml + string)
    (read_text : string -> option string) (path : string)
    (d : list (yaml * yaml)) (r : yaml) :
  load_yaml safe_load read_text path = Ok (YDict d) ->
  validate_config safe_load read_text path = Ok r ->
  exists d',
    r = YDict d' /\
    (forall k, is_blacklist_key k = false -> dict_get d' k = dict_get d k) /\
    (forall k items, dict_get d k = Some (YList items) ->
                     dict_get d' k = Some (YList items)) /\
    (exists added,
        map fst d' = (map fst d ++ added)%list /\
        forall key, In key added -> exists k, key = YStr k /\ In k BLACKLIST_KEYS).
Proof.
  intros Hload Hok.
  rewrite (validate_config_loaded _ _ _ _ Hload) in Hok.
  destruct (validate_parameters_ok path _ r Hok) as [d0 [Hd [-> Hnone]]].
  inversion Hd; subst d0. clear Hd.
  exists (normalize d). split; [reflexivity|]. split; [|split].
  - intros k Hk. now apply dict_get_normalize_plain.
  - intros k items Hget. unfold normalize.
    destruct (in_dec string_dec k (map fst REQUIRED_CONFIG_KEYS)) as [Hin|Hnotin].
    + apply in_map_iff in Hin. destruct Hin as [entry [<- Hin]].
      rewrite (dict_get_fold_normalize_in _ d entry required_keys_nodup Hin).
      unfold defaulted. rewrite Hget. cbn [is_none].
      now rewrite andb_false_r, andb_false_r.
    + now rewrite dict_get_fold_normalize_notin.
  - destruct (normalize_keys REQUIRED_CONFIG_KEYS d) as [added [Hkeys Hadded]].
    exists added. split; [exact Hkeys|].
    intros key Hin. destruct (Hadded key Hin) as [k [-> Hbl]].
    exists k. split; [reflexivity|].
    unfold is_blacklist_key in Hbl. apply existsb_exists in Hbl.
    destruct Hbl as [k' [Hk' Heq]]. apply String.eqb_eq in Heq. now subst.
Qed.

Lemma validated_document_frame_witness :
  exists d',
    YDict (normalize entries_sparse_blacklists) = YDict d' /\
    (forall k, is_blacklist_key k = false ->
               dict_get d' k = dict_get entries_sparse_blacklists k) /\
    (forall k items, dict_get entries_sparse_blacklists k = Some (YList items) ->
                     dict_get d' k = Some (YList items)) /\
    (exists added,
        map fst d' = (map fst entries_sparse_blacklists ++ added)%list /\
        forall key, In key added -> exists k, key = YStr k /\ In k BLACKLIST_KEYS).
Proof.
  exact (validated_document_frame (parser_of (YDict entries_sparse_blacklists))
           (store_of "") "config.yaml" entries_sparse_blacklists _ eq_refl eq_refl).
Defined.

(** *** One field with the others held valid *)

Lemma field_outcome (path : string) (d : list (yaml * yaml)) (k : string)
    (ty : pytype) (v0 v1 r0 : yaml) :
  In (k, ty) REQUIRED_CONFIG_KEYS ->
  validate_parameters path (YDict (dict_set d k v0)) = Ok r0 ->
  validate_parameters path (YDict (dict_set d k v1)) =
  match type_check_error path (k, ty) (Some v1) with
  | Some e => Raise e
  | None =>
      match first_value_error (dict_get (dict_set d k v1))
              (filter (fun check => fst check =? k) (value_checks path)) with
      | Some e => Raise e
      | None => Ok (YDict (normalize (dict_set d k v1)))
      end
  end.
Proof.
  intros Hin Hvalid. rewrite validate_parameters_dict.
  rewrite (field_verdict path d k ty v0 v1 r0 Hin Hvalid).
  now destruct (type_check_error path (k, ty) (Some v1)).
Qed.

(** X5. Holding every other field valid, [validate_config] accepts the
    document exactly when [remote] is a boolean; any other value, the
    integers 0 and 1 included, is refused with the invalid-type error for
    [remote]. *)
Theorem remote_must_be_boolean (safe_load : string -> yaml + string)
    (read_text : string -> option string) (path : string)
    (d : list (yaml * yaml)) (v v0 r0 : yaml) :
  load_yaml safe_load read_text path = Ok (YDict (dict_set d "remote" v)) ->
  validate_parameters path (YDict (dict_set d "remote" v0)) = Ok r0 ->
  (forall b, v = YBool b ->
     exists r, validate_config safe_load read_text path = Ok (YDict r) /\
               dict_get r "remote" = Some (YBool b))
  /\
  ((forall b, v <> YBool b) ->
     validate_config safe_load read_text path
     = Raise (ConfigError (InvalidType "remote" path "bool"))).
Proof.
  intros Hload Hvalid.
  rewrite (validate_config_loaded _ _ _ _ Hload).
  rewrite (field_outcome path d "remote" TBool v0 v r0 (or_introl eq_refl) Hvalid).
  replace (filter (fun check => fst check =? "remote") (value_checks path))
    with (@nil (string * (yaml -> result unit))) by reflexivity.
  cbn [first_value_error]. unfold type_check_error, entry_accepted. cbn [fst snd].
  replace (is_blacklist_key "remote") with false by reflexivity.
  cbn [andb]. rewrite orb_false_r.
  split.
  - intros b ->. cbn [isinstance]. eexists. split; [reflexivity|].
    rewrite dict_get_normalize_plain by reflexivity. apply dict_get_set_same.
  - intros Hnot. destruct v as [| b | | | | |]; try reflexivity.
    now contradiction (Hnot b).
Qed.

Lemma remote_must_be_boolean_witness :
  validate_config
    (parser_of (YDict (dict_set (minimal_entries true (fun _ => true) (fun _ => true)
                                   (fun _ => true)) "remote" (YInt 1))))
    (store_of "") "config.yaml"
  = Raise (ConfigError (InvalidType "remote" "config.yaml" "bool")).
Proof.
  apply (proj2 (remote_must_be_boolean (parser_of _) (store_of "") "config.yaml"
                  (minimal_entries true (fun _ => true) (fun _ => true) (fun _ => true))
                  (YInt 1) (YBool true)
                  (minimal_config true (fun _ => true) (fun _ => true) (fun _ => true))
                  eq_refl eq_refl)).
  discriminate.
Defined.

(** X6. Holding every other field valid, each nested boolean map
    ([experience_level], [job_types], [date]) is accepted exactly when it is
    a mapping that binds every name of its table to a boolean; names outside
    the table are ignored.  Otherwise the error names the first name of the
    table, in table order, that is absent or not a boolean; a value that is
    no mapping gets the invalid-type error. *)
Theorem boolean_map_required (safe_load : string -> yaml + string)
    (read_text : string -> option string) (path : string) (f : bool_map_field)
    (d : list (yaml * yaml)) (v v0 r0 : yaml) :
  load_yaml safe_load read_text path = Ok (YDict (dict_set d (map_key f) v)) ->
  validate_parameters path (YDict (dict_set d (map_key f) v0)) = Ok r0 ->
  (forall entries, v = YDict entries ->
     (forall name, In name (map_names f) ->
        exists b, dict_get entries name = Some (YBool b)) ->
     exists r, validate_config safe_load read_text path = Ok r)
  /\
  (forall entries, v = YDict entries ->
     ~ (forall name, In name (map_names f) ->
          exists b, dict_get entries name = Some (YBool b)) ->
     exists pre name post,
       map_names f = (pre ++ name :: post)%list /\
       (forall name', In name' pre ->
          exists b, dict_get entries name' = Some (YBool b)) /\
       (forall b, dict_get entries name <> Some (YBool b)) /\
       validate_config safe_load read_text path
       = Raise (ConfigError (map_message f name path)))
  /\
  ((forall entries, v <> YDict entries) ->
     validate_config safe_load read_text path
     = Raise (ConfigError (InvalidType (map_key f) path "dict"))).
Proof.
  intros Hload Hvalid.
  rewrite (validate_config_loaded _ _ _ _ Hload).
  assert (Hin : In (map_key f, TDict) REQUIRED_CONFIG_KEYS)
    by (destruct f; simpl; auto 12).
  rewrite (field_outcome path d (map_key f) TDict v0 v r0 Hin Hvalid).
  replace (filter (fun check => fst check =? map_key f) (value_checks path))
    with [(map_key f, fun value => map_check f value path)]
    by (destruct f; reflexivity).
  cbn [first_value_error]. rewrite dict_get_set_same.
  unfold type_check_error, entry_accepted. cbn [fst snd].
  replace (is_blacklist_key (map_key f)) with false by (destruct f; reflexivity).
  cbn [andb]. rewrite orb_false_r.
  split; [|split].
  - intros entries -> Hall. cbn [isinstance].
    rewrite (proj2 (map_check_ok f entries path) Hall). eauto.
  - intros entries -> Hnot. cbn [isinstance].
    destruct (map_check f (YDict entries) path) as [[]|e] eqn:Hchk.
    + contradiction Hnot. now apply (map_check_ok f entries path).
    + destruct (map_check_first f entries path e Hchk)
        as [pre [name [post [Hnames [Hpre [Hbad ->]]]]]].
      exists pre, name, post. auto.
  - intros Hnot. destruct v as [| | | | | |entries]; try reflexivity.
    now contradiction (Hnot entries).
Qed.

Lemma boolean_map_required_witness :
  exists pre name post,
    EXPERIENCE_LEVELS = (pre ++ name :: post)%list /\
    (forall name', In name' pre ->
       exists b, dict_get [(YStr "internship", YBool true)] name' = Some (YBool b)) /\
    (forall b, dict_get [(YStr "internship", YBool true)] name <> Some (YBool b)) /\
    validate_config
      (parser_of (YDict (dict_set (minimal_entries true (fun _ => true) (fun _ => true)
                                     (fun _ => true))
                           "experience_level" (YDict [(YStr "internship", YBool true)]))))
      (store_of "") "config.yaml"
    = Raise (ConfigError (ExperienceLevelNotBool name "config.yaml")).
Proof.
  apply (proj1 (proj2 (boolean_map_required (parser_of _) (store_of "") "config.yaml"
                         ExperienceLevel
                         (minimal_entries true (fun _ => true) (fun _ => true)
                            (fun _ => true))
                         (YDict [(YStr "internship", YBool true)])
                         (bool_map EXPERIENCE_LEVELS (fun _ => true))
                         (minimal_config true (fun _ => true) (fun _ => true)
                            (fun _ => true))
                         eq_refl eq_refl))
           [(YStr "internship", YBool true)] eq_refl).
  intros Hall. destruct (Hall "entry") as [b Hb]; [simpl; auto|discriminate Hb].
Defined.

(** X7. Holding every other field valid, [positions] (and likewise
    [locations]) is accepted exactly when it is a list whose items are all
    strings, the empty list included; a list with an item that is not a
    string gets the list-of-strings error naming the key, and a value that is
    no list gets the invalid-type error. *)
Theorem string_list_required (safe_load : string -> yaml + string)
    (read_text : string -> option string) (path k : string)
    (d : list (yaml * yaml)) (v v0 r0 : yaml) :
  In k ["positions"; "locations"] ->
  load_yaml safe_load read_text path = Ok (YDict (dict_set d k v)) ->
  validate_parameters path (YDict (dict_set d k v0)) = Ok r0 ->
  (forall items, v = YList items ->
     (forall item, In item items -> exists s, item = YStr s) ->
     exists r, validate_config safe_load read_text path = Ok (YDict r) /\
               dict_get r k = Some (YList items))
  /\
  (forall items item, v = YList items -> In item items ->
     (forall s, item <> YStr s) ->
     validate_config safe_load read_text path
     = Raise (ConfigError (NotListOfStrings k path)))
  /\
  ((forall items, v <> YList items) ->
     validate_config safe_load read_text path
     = Raise (ConfigError (InvalidType k path "list"))).
Proof.
  intros Hk Hload Hvalid.
  rewrite (validate_config_loaded _ _ _ _ Hload).
  assert (Hin : In (k, TList) REQUIRED_CONFIG_KEYS)
    by (simpl in Hk; simpl; intuition (subst; auto 12)).
  assert (Hplain : is_blacklist_key k = false)
    by (simpl in Hk; intuition (subst; reflexivity)).
  rewrite (field_outcome path d k TList v0 v r0 Hin Hvalid).
  replace (filter (fun check => fst check =? k) (value_checks path))
    with [(k, check_list_of_strings path k)]
    by (simpl in Hk; intuition (subst; reflexivity)).
  cbn [first_value_error]. rewrite dict_get_set_same.
  unfold type_check_error, entry_accepted. cbn [fst snd]. rewrite Hplain.
  cbn [andb]. rewrite orb_false_r.
  split; [|split].
  - intros items -> Hall. cbn [isinstance].
    rewrite check_list_of_strings_list, (proj2 (all_strings items) Hall).
    eexists. split; [reflexivity|].
    rewrite dict_get_normalize_plain by exact Hplain. apply dict_get_set_same.
  - intros items item -> Hitem Hnot. cbn [isinstance].
    rewrite check_list_of_strings_list.
    destruct (forallb (fun i => isinstance i TStr) items) eqn:Hall; [|reflexivity].
    destruct (proj1 (all_strings items) Hall item Hitem) as [s ->].
    now contradiction (Hnot s).
  - intros Hnot. destruct v as [| | | | |items|]; try reflexivity.
    now contradiction (Hnot items).
Qed.

Lemma string_list_required_witness :
  validate_config
    (parser_of (YDict (dict_set (minimal_entries true (fun _ => true) (fun _ => true)
                                   (fun _ => true))
                         "locations" (YList [YStr "Rome"; YInt 7]))))
    (store_of "") "config.yaml"
  = Raise (ConfigError (NotListOfStrings "locations" "config.yaml")).
Proof.
  apply (proj1 (proj2 (string_list_required (parser_of _) (store_of "") "config.yaml"
                         "locations"
                         (minimal_entries true (fun _ => true) (fun _ => true)
                            (fun _ => true))
                         (YList [YStr "Rome"; YInt 7]) (YList [])
                         (minimal_config true (fun _ => true) (fun _ => true)
                            (fun _ => true))
                         (or_intror (or_introl eq_refl)) eq_refl eq_refl))
           [YStr "Rome"; YInt 7] (YInt 7) eq_refl).
  - simpl. auto.
  - discriminate.
Defined.

(** X8. The items of a blacklist are not inspected: holding every other
    field valid, any list at all (its items need not be strings) is accepted
    for a blacklist key and is returned as it is, while a value that is
    neither a list nor null is refused with the invalid-type error. *)
Theorem blacklist_items_unchecked (safe_load : string -> yaml + string)
    (read_text : string -> option string) (path k : string)
    (d : list (yaml * yaml)) (v v0 r0 : yaml) :
  In k BLACKLIST_KEYS ->
  load_yaml safe_load read_text path = Ok (YDict (dict_set d k v)) ->
  validate_parameters path (YDict (dict_set d k v0)) = Ok r0 ->
  (forall items, v = YList items ->
     exists r, validate_config safe_load read_text path = Ok (YDict r) /\
               dict_get r k = Some (YList items))
  /\
  ((forall items, v <> YList items) -> v <> YNull ->
     validate_config safe_load read_text path
     = Raise (ConfigError (InvalidType k path "list"))).
Proof.
  intros Hk Hload Hvalid.
  rewrite (validate_config_loaded _ _ _ _ Hload).
  pose proof (blacklist_entries_required k Hk) as Hin.
  assert (Hbl : is_blacklist_key k = true)
    by (simpl in Hk; intuition (subst; reflexivity)).
  rewrite (field_outcome path d k TList v0 v r0 Hin Hvalid).
  replace (filter (fun check => fst check =? k) (value_checks path))
    with (@nil (string * (yaml -> result unit)))
    by (simpl in Hk; intuition (subst; reflexivity)).
  cbn [first_value_error].
  unfold type_check_error, entry_accepted. cbn [fst snd]. rewrite Hbl. cbn [andb].
  split.
  - intros items ->. cbn [isinstance orb]. eexists. split; [reflexivity|].
    rewrite (dict_get_normalize_blacklist _ k Hk); rewrite dict_get_set_same;
      [reflexivity|].
    unfold entry_accepted. cbn [fst snd isinstance orb]. reflexivity.
  - intros Hnot Hnull. destruct v as [| | | | |items|]; try reflexivity.
    + now contradiction Hnull.
    + now contradiction (Hnot items).
Qed.

Lemma blacklist_items_unchecked_witness :
  exists r,
    validate_config
      (parser_of (YDict (dict_set (minimal_entries true (fun _ => true) (fun _ => true)
                                     (fun _ => true))
                           "company_blacklist" (YList [YInt 7; YNull]))))
      (store_of "") "config.yaml" = Ok (YDict r) /\
    dict_get r "company_blacklist" = Some (YList [YInt 7; YNull]).
Proof.
  exact (proj1 (blacklist_items_unchecked (parser_of _) (store_of "") "config.yaml"
                  "company_blacklist"
                  (minimal_entries true (fun _ => true) (fun _ => true) (fun _ => true))
                  (YList [YInt 7; YNull]) (YList [])
                  (minimal_config true (fun _ => true) (fun _ => true) (fun _ => true))
                  (or_introl eq_refl) eq_refl eq_refl)
           [YInt 7; YNull] eq_refl).
Defined.

(** *** Documents that are no mapping *)

(** The key pass on a document that is no mapping. *)
Lemma validate_parameters_non_mapping (path : string) (doc : yaml) :
  (forall d, doc <> YDict d) ->
  validate_parameters path doc =
  Raise (match doc with
         | YStr s =>
             if is_substring "remote" s then TypeError
             else ConfigError (MissingRequiredKey "remote" path)
         | YList items =>
             if existsb (key_is "remote") items then TypeError
             else ConfigError (MissingRequiredKey "remote" path)
         | _ => TypeError
         end).
Proof.
  intros Hnot.
  unfold validate_parameters, REQUIRED_CONFIG_KEYS, check_required_keys,
    check_required_key, py_contains.
  destruct doc as [| b | z | f | s | items | d]; try reflexivity.
  - cbn [bind]. now destruct (is_substring "remote" s).
  - cbn [bind]. now destruct (existsb (key_is "remote") items).
  - now contradiction (Hnot d).
Qed.

(** X9. [validate_config] never accepts a parsed document that is not a
    mapping.  Null, a boolean, a number raise [TypeError] at the first
    membership test; a text or a sequence that does not contain ["remote"]
    is reported as missing the key [remote], and one that contains it raises
    [TypeError] when it is indexed by the key. *)
Theorem non_mapping_rejected (safe_load : string -> yaml + string)
    (read_text : string -> option string) (path : string) (doc : yaml) :
  load_yaml safe_load read_text path = Ok doc ->
  (forall d, doc <> YDict d) ->
  validate_config safe_load read_text path =
  Raise (match doc with
         | YStr s =>
             if is_substring "remote" s then TypeError
             else ConfigError (MissingRequiredKey "remote" path)
         | YList items =>
             if existsb (key_is "remote") items then TypeError
             else ConfigError (MissingRequiredKey "remote" path)
         | _ => TypeError
         end).
Proof.
  intros Hload Hnot.
  rewrite (validate_config_loaded _ _ _ _ Hload).
  now apply validate_parameters_non_mapping.
Qed.

Lemma non_mapping_rejected_witness :
  validate_config (parser_of (YList [YStr "remote"; YStr "distance"]))
    (store_of "- remote") "config.yaml" = Raise TypeError.
Proof.
  apply (non_mapping_rejected (parser_of (YList [YStr "remote"; YStr "distance"]))
           (store_of "- remote") "config.yaml" _ eq_refl).
  discriminate.
Defined.

(** *** Which errors there are *)

Lemma first_value_error_some (get : string -> option yaml)
    (checks : list (string * (yaml -> result unit))) (e : exn) :
  first_value_error get checks = Some e ->
  exists check, In check checks /\
    ((get (fst check) = None /\ e = KeyError (fst check)) \/
     (exists v, get (fst check) = Some v /\ snd check v = Raise e)).
Proof.
  induction checks as [|[key chk] rest IH]; cbn [first_value_error]; [discriminate|].
  destruct (get key) as [v|] eqn:Hget.
  - destruct (chk v) as [[]|e'] eqn:Hchk.
    + intros H. destruct (IH H) as [check [Hin Hcase]]. exists check.
      split; [now right|exact Hcase].
    + intros H. inversion H; subst e'. exists (key, chk). split; [now left|].
      right. exists v. now split.
  - intros H. inversion H. exists (key, chk). split; [now left|]. left. now split.
Qed.

Lemma config_error_message (path : string) (get : string -> option yaml) (e : exn) :
  config_error path get = Some e ->
  exists msg, e = ConfigError msg /\ config_message path msg.
Proof.
  unfold config_error, config_message.
  destruct (first_type_error path get REQUIRED_CONFIG_KEYS) as [e0|] eqn:Htypes.
  - intros H. inversion H; subst e0.
    destruct (first_type_error_entry _ _ _ _ Htypes) as [entry [Hin [-> | ->]]];
      eexists; (split; [reflexivity|]); left; exists entry; auto.
  - pose proof (first_type_error_none _ _ _ Htypes) as Hacc.
    intros Hval. destruct (first_value_error_some _ _ _ Hval) as [check [Hin Hcase]].
    assert (Hplain : forall k ty, In (k, ty) REQUIRED_CONFIG_KEYS ->
              is_blacklist_key k = false ->
              exists v, get k = Some v /\ isinstance v ty = true).
    { intros k ty Hk Hbl. exact (accepted_plain k ty _ Hbl (Hacc (k, ty) Hk)). }
    assert (Hmaps : forall f v, get (map_key f) = Some v ->
              map_check f v path = Raise e ->
              exists msg, e = ConfigError msg /\
                exists f' name, In name (map_names f') /\ msg = map_message f' name path).
    { intros f v Hget Hchk.
      destruct (Hplain (map_key f) TDict) as [v' [Hget' Hty]];
        [destruct f; simpl; auto 12|destruct f; reflexivity|].
      rewrite Hget in Hget'. inversion Hget'; subst v'.
      destruct v as [| | | | | |entries]; try discriminate Hty.
      destruct (map_check_first f entries path e Hchk)
        as [pre [name [post [Hnames [_ [_ ->]]]]]].
      eexists. split; [reflexivity|]. exists f, name. split; [|reflexivity].
      rewrite Hnames. apply in_or_app. right. now left. }
    assert (Hlists : forall k v, In k ["positions"; "locations"] ->
              get k = Some v -> check_list_of_strings path k v = Raise e ->
              e = ConfigError (NotListOfStrings k path)).
    { intros k v Hk Hget Hchk.
      destruct (Hplain k TList) as [v' [Hget' Hty]];
        [simpl in Hk; simpl; intuition (subst; auto 12)
        |simpl in Hk; intuition (subst; reflexivity)|].
      rewrite Hget in Hget'. inversion Hget'; subst v'.
      destruct v as [| | | | |items|]; try discriminate Hty.
      rewrite check_list_of_strings_list in Hchk.
      destruct (forallb (fun item => isinstance item TStr) items);
        [discriminate|now inversion Hchk]. }
    simpl in Hin.
    destruct Hin as [<-|[<-|[<-|[<-|[<-|[<-|[]]]]]]]; cbn [fst snd] in Hcase;
      destruct Hcase as [[Hnone _] | [v [Hget Hchk]]].
    + destruct (Hplain "experience_level" TDict) as [v [Hget _]];
        [simpl; auto 12|reflexivity|congruence].
    + destruct (Hmaps ExperienceLevel v Hget Hchk) as [msg [-> Hmsg]].
      exists msg. split; [reflexivity|]. right. left. exact Hmsg.
    + destruct (Hplain "job_types" TDict) as [v [Hget _]];
        [simpl; auto 12|reflexivity|congruence].
    + destruct (Hmaps JobTypes v Hget Hchk) as [msg [-> Hmsg]].
      exists msg. split; [reflexivity|]. right. left. exact Hmsg.
    + destruct (Hplain "date" TDict) as [v [Hget _]];
        [simpl; auto 12|reflexivity|congruence].
    + destruct (Hmaps DateFilters v Hget Hchk) as [msg [-> Hmsg]].
      exists msg. split; [reflexivity|]. right. left. exact Hmsg.
    + destruct (Hplain "positions" TList) as [v [Hget _]];
        [simpl; auto 12|reflexivity|congruence].
    + rewrite (Hlists "positions" v (or_introl eq_refl) Hget Hchk).
      eexists. split; [reflexivity|]. right. right. left.
      exists "positions". split; [simpl; auto|reflexivity].
    + destruct (Hplain "locations" TList) as [v [Hget _]];
        [simpl; auto 12|reflexivity|congruence].
    + rewrite (Hlists "locations" v (or_intror (or_introl eq_refl)) Hget Hchk).
      eexists. split; [reflexivity|]. right. right. left.
      exists "locations". split; [simpl; auto|reflexivity].
    + destruct (Hplain "distance" TInt) as [v [Hget _]];
        [simpl; auto 12|reflexivity|congruence].
    + destruct (Hplain "distance" TInt) as [v' [Hget' Hty]];
        [simpl; auto 12|reflexivity|].
      rewrite Hget in Hget'. inversion Hget'; subst v'.
      destruct v as [| b | z | | | |]; try discriminate Hty.
      * rewrite validate_distance_bool in Hchk. destruct b; [|discriminate].
        inversion Hchk. eexists. split; [reflexivity|]. right. right. right. eauto.
      * rewrite validate_distance_int in Hchk.
        destruct (approved z); [discriminate|].
        inversion Hchk. eexists. split; [reflexivity|]. right. right. right. eauto.
Qed.

(** What [load_yaml] raises. *)
Lemma load_yaml_raises (safe_load : string -> yaml + string)
    (read_text : string -> option string) (path : string) (e : exn) :
  load_yaml safe_load read_text path = Raise e ->
  e = ConfigError (YamlNotFound path) \/
  exists exc, e = ConfigError (YamlReadError path exc).
Proof.
  unfold load_yaml. intros Hload.
  destruct (read_text path) as [text|]; [|inversion Hload; now left].
  destruct (safe_load text) as [doc|exc]; [discriminate|].
  inversion Hload. right. eauto.
Qed.

(** What the checks raise on a parsed document. *)
Lemma validate_parameters_raises (path : string) (doc : yaml) (e : exn) :
  validate_parameters path doc = Raise e ->
  (e = TypeError /\ forall d, doc <> YDict d) \/
  (exists msg, e = ConfigError msg /\ config_message path msg).
Proof.
  intros Hraise.
  destruct doc as [| b | z | f | s | items | d].
  7: { rewrite validate_parameters_dict in Hraise.
       destruct (config_error path (dict_get d)) as [e'|] eqn:Herr; [|discriminate].
       inversion Hraise; subst e'.
       right. exact (config_error_message path _ e Herr). }
  all: rewrite validate_parameters_non_mapping in Hraise by discriminate;
    inversion Hraise as [He]; clear Hraise.
  1-4: left; split; [reflexivity|discriminate].
  - destruct (is_substring "remote" s).
    + left. split; [reflexivity|discriminate].
    + right. eexists. split; [reflexivity|].
      left. exists ("remote", TBool). split; [now left|now left].
  - destruct (existsb (key_is "remote") items).
    + left. split; [reflexivity|discriminate].
    + right. eexists. split; [reflexivity|].
      left. exists ("remote", TBool). split; [now left|now left].
Qed.

(** X10. Once the file has been read and parsed, the checks of
    [validate_config] let no [KeyError] and no [AttributeError] out, although
    they index the nested maps and the lists directly and call [.get]: the
    required-key pass has refused every document on which a later lookup
    could fail.  A [TypeError] means that the parsed document is no mapping,
    and a [ConfigError] carries one of the seven messages of the checks
    (missing key, invalid type, the three boolean-map messages, list of
    strings, invalid distance), about a name of the tables and the validated
    path. *)
Theorem validate_config_raises (safe_load : string -> yaml + string)
    (read_text : string -> option string) (path : string) (doc : yaml) (e : exn) :
  load_yaml safe_load read_text path = Ok doc ->
  validate_config safe_load read_text path = Raise e ->
  is_lookup_error e = false /\
  (e = TypeError -> forall d, doc <> YDict d) /\
  (forall msg, e = ConfigError msg -> config_message path msg).
Proof.
  intros Hload Hraise.
  rewrite (validate_config_loaded _ _ _ _ Hload) in Hraise.
  destruct (validate_parameters_raises path doc e Hraise)
    as [[-> Hnot] | [msg [-> Hmsg]]].
  - split; [reflexivity|]. split; [trivial|discriminate].
  - split; [reflexivity|]. split; [discriminate|].
    intros msg' Heq. now inversion Heq; subst.
Qed.

Lemma validate_config_raises_witness :
  is_lookup_error (ConfigError (InvalidType "remote" "config.yaml" "bool")) = false /\
  (ConfigError (InvalidType "remote" "config.yaml" "bool") = TypeError ->
   forall d, YDict entries_bad_remote_no_distance <> YDict d) /\
  (forall msg, ConfigError (InvalidType "remote" "config.yaml" "bool") = ConfigError msg ->
   config_message "config.yaml" msg).
Proof.
  exact (validate_config_raises (parser_of (YDict entries_bad_remote_no_distance))
           (store_of "") "config.yaml" _ _ eq_refl eq_refl).
Defined.

(** *** The blacklist stage *)

Lemma validate_blacklist_unchanged (path : string) (parameters r : yaml) (k : string) :
  validate_blacklist path parameters k = Ok r ->
  r = parameters /\
  exists d items, parameters = YDict d /\ dict_get d k = Some (YList items).
Proof.
  unfold validate_blacklist, py_get, py_getitem, py_setitem.
  destruct parameters as [| | | | | |d]; try discriminate.
  destruct (dict_get d k) as [v|] eqn:Hget; cbn [bind isinstance negb];
    [|discriminate].
  destruct v as [| | | | |items|]; cbn [isinstance negb bind is_none];
    try discriminate.
  intros H. inversion H. split; [reflexivity|]. eauto.
Qed.

Lemma validate_blacklists_loop_unchanged (path : string) (keys : list string)
    (parameters r : yaml) :
  validate_blacklists_loop path parameters keys = Ok r ->
  r = parameters /\
  forall k, In k keys ->
    exists d items, parameters = YDict d /\ dict_get d k = Some (YList items).
Proof.
  induction keys as [|k rest IH]; cbn [validate_blacklists_loop].
  - intros H. inversion H. split; [reflexivity|intros k []].
  - destruct (validate_blacklist path parameters k) as [p1|] eqn:Hone;
      cbn [bind]; [|discriminate].
    destruct (validate_blacklist_unchanged path parameters p1 k Hone) as [-> Hk].
    intros Hrest. destruct (IH Hrest) as [-> Hall].
    split; [reflexivity|]. intros k' [<-|Hin]; [exact Hk|now apply Hall].
Qed.

Lemma validate_blacklists_loop_first (path : string) (d : list (yaml * yaml))
    (pre post : list string) (k : string) :
  (forall k', In k' pre -> exists items, dict_get d k' = Some (YList items)) ->
  (forall items, dict_get d k <> Some (YList items)) ->
  validate_blacklists_loop path (YDict d) (pre ++ k :: post)
  = Raise (ConfigError (BlacklistNotList k path)).
Proof.
  induction pre as [|k0 pre IH]; intros Hpre Hbad; cbn [app validate_blacklists_loop].
  - unfold validate_blacklist, py_get.
    destruct (dict_get d k) as [v|] eqn:Hget; cbn [bind isinstance negb];
      [|reflexivity].
    destruct v; cbn [isinstance negb bind]; try reflexivity.
    now contradiction (Hbad items).
  - destruct (Hpre k0 (or_introl eq_refl)) as [items Hget].
    rewrite (validate_blacklist_list path d k0 items Hget). cbn [bind].
    apply IH; [|exact Hbad]. intros k' Hin. apply Hpre. now right.
Qed.

(** X11. [_validate_blacklists] only checks: when it succeeds, its argument
    is a mapping whose three blacklists are lists, and the document it hands
    back is the argument itself (the assignment guarded by [is None] never
    runs).  On a mapping it fails at the first of [company_blacklist],
    [title_blacklist], [location_blacklist] that is absent or no list, naming
    it; on anything that is no mapping it raises [AttributeError]. *)
Theorem validate_blacklists_inert (parameters : yaml) (path : string) :
  (forall r, _validate_blacklists parameters path = Ok r ->
     r = parameters /\
     exists d, parameters = YDict d /\
       forall k, In k BLACKLIST_KEYS -> exists items, dict_get d k = Some (YList items))
  /\
  (forall d pre k post,
     parameters = YDict d ->
     BLACKLIST_KEYS = (pre ++ k :: post)%list ->
     (forall k', In k' pre -> exists items, dict_get d k' = Some (YList items)) ->
     (forall items, dict_get d k <> Some (YList items)) ->
     _validate_blacklists parameters path
     = Raise (ConfigError (BlacklistNotList k path)))
  /\
  ((forall d, parameters <> YDict d) ->
     _validate_blacklists parameters path = Raise AttributeError).
Proof.
  split; [|split].
  - intros r Hok. unfold _validate_blacklists in Hok.
    destruct (validate_blacklists_loop_unchanged path _ _ _ Hok) as [-> Hall].
    split; [reflexivity|].
    destruct (Hall "company_blacklist" (or_introl eq_refl)) as [d [_ [-> _]]].
    exists d. split; [reflexivity|].
    intros k Hk. destruct (Hall k Hk) as [d' [items [Heq Hget]]].
    inversion Heq; subst d'. eauto.
  - intros d pre k post -> Hkeys Hpre Hbad.
    unfold _validate_blacklists. rewrite Hkeys.
    now apply validate_blacklists_loop_first.
  - intros Hnot. destruct parameters as [| | | | | |d]; try reflexivity.
    now contradiction (Hnot d).
Qed.

Lemma validate_blacklists_inert_witness :
  _validate_blacklists (YDict [(YStr "company_blacklist", YList [])]) "config.yaml"
  = Raise (ConfigError (BlacklistNotList "title_blacklist" "config.yaml")).
Proof.
  apply (proj1 (proj2 (validate_blacklists_inert
                         (YDict [(YStr "company_blacklist", YList [])]) "config.yaml"))
           [(YStr "company_blacklist", YList [])] ["company_blacklist"]
           "title_blacklist" ["location_blacklist"] eq_refl eq_refl).
  - intros k' [<-|[]]. eexists. reflexivity.
  - discriminate.
Defined.

(** X12. The blacklist message is never what [validate_config] raises: by
    the time [_validate_blacklists] runs, the required-key pass has defaulted
    or refused every blacklist that is no list. *)
Theorem blacklist_error_unreachable (safe_load : string -> yaml + string)
    (read_text : string -> option string) (path : string) (e : exn) :
  validate_config safe_load read_text path = Raise e ->
  is_blacklist_error e = false.
Proof.
  intros Hraise.
  assert (Hcases : (e = ConfigError (YamlNotFound path) \/
                    exists exc, e = ConfigError (YamlReadError path exc)) \/
                   (e = TypeError \/
                    exists msg, e = ConfigError msg /\ config_message path msg)).
  { unfold validate_config in Hraise.
    destruct (load_yaml safe_load read_text path) as [doc|e0] eqn:Hload;
      cbn [bind] in Hraise.
    - right. destruct (validate_parameters_raises path doc e Hraise) as [[-> _] | Hmsg];
        [now left|now right].
    - inversion Hraise; subst e0. left. exact (load_yaml_raises _ _ _ _ Hload). }
  destruct Hcases as [[-> | [exc ->]] | [-> | [msg [-> Hmsg]]]]; try reflexivity.
  unfold config_message in Hmsg.
  destruct Hmsg as [[entry [_ [-> | ->]]] | [[f [name [_ ->]]] | [[key [_ ->]] | [dist ->]]]];
    try reflexivity.
  now destruct f.
Qed.

Lemma blacklist_error_unreachable_witness :
  is_blacklist_error (ConfigError (InvalidType "company_blacklist" "config.yaml" "list"))
  = false.
Proof.
  exact (blacklist_error_unreachable
           (parser_of (YDict (dict_set (minimal_entries true (fun _ => true)
                                          (fun _ => true) (fun _ => true))
                                "company_blacklist" (YStr "acme"))))
           (store_of "") "config.yaml" _ eq_refl).
Defined.

(** *** Keys the schema does not know *)

Lemma config_error_other_key (path : string) (d : list (yaml * yaml)) (k : string)
    (v : yaml) :
  ~ In k (map fst REQUIRED_CONFIG_KEYS) ->
  config_error path (dict_get (dict_set d k v)) = config_error path (dict_get d).
Proof.
  intros Hnotin. unfold config_error.
  rewrite (first_type_error_same path (dict_get (dict_set d k v)) (dict_get d)).
  - destruct (first_type_error path (dict_get d) REQUIRED_CONFIG_KEYS); [reflexivity|].
    apply first_value_error_ext. intros check Hin.
    apply dict_get_set_other. intros Heq. apply Hnotin. subst k.
    simpl in Hin. simpl.
    repeat (destruct Hin as [<-|Hin]; [cbn [fst]; auto 12|]). contradiction.
  - intros entry Hin. rewrite dict_get_set_other; [reflexivity|].
    intros Heq. apply Hnotin. rewrite <- Heq. now apply in_map.
Qed.

(** X13. Keys outside the required-key table are neither checked nor
    refused: adding or changing such a key leaves the verdict of
    [validate_config] as it was, error for error, and on success the key is
    handed back with its value. *)
Theorem unknown_keys_ignored (safe_load safe_load' : string -> yaml + string)
    (read_text read_text' : string -> option string) (path : string)
    (d : list (yaml * yaml)) (k : string) (v : yaml) :
  ~ In k (map fst REQUIRED_CONFIG_KEYS) ->
  load_yaml safe_load read_text path = Ok (YDict d) ->
  load_yaml safe_load' read_text' path = Ok (YDict (dict_set d k v)) ->
  (forall e, validate_config safe_load read_text path = Raise e ->
             validate_config safe_load' read_text' path = Raise e)
  /\
  (forall r, validate_config safe_load read_text path = Ok r ->
     exists r', validate_config safe_load' read_text' path = Ok (YDict r') /\
                dict_get r' k = Some v).
Proof.
  intros Hnotin Hload Hload'.
  rewrite (validate_config_loaded _ _ _ _ Hload).
  rewrite (validate_config_loaded _ _ _ _ Hload').
  rewrite !validate_parameters_dict.
  rewrite (config_error_other_key path d k v Hnotin).
  destruct (config_error path (dict_get d)); split; try discriminate; auto.
  intros r _. eexists. split; [reflexivity|].
  rewrite dict_get_normalize_plain.
  - apply dict_get_set_same.
  - destruct (is_blacklist_key k) eqn:Hbl; [|reflexivity].
    exfalso. apply Hnotin.
    unfold is_blacklist_key in Hbl. apply existsb_exists in Hbl.
    destruct Hbl as [k' [Hk' Heq]]. apply String.eqb_eq in Heq. subst k'.
    change k with (fst (k, TList)). apply in_map.
    now apply blacklist_entries_required.
Qed.

Lemma unknown_keys_ignored_witness :
  exists r',
    validate_config
      (parser_of (YDict (dict_set (minimal_entries true (fun _ => true) (fun _ => true)
                                     (fun _ => true)) "salary" (YInt 1))))
      (store_of "") "config.yaml" = Ok (YDict r') /\
    dict_get r' "salary" = Some (YInt 1).
Proof.
  apply (proj2 (unknown_keys_ignored
                  (parser_of (minimal_config true (fun _ => true) (fun _ => true)
                                (fun _ => true)))
                  (parser_of _) (store_of "") (store_of "") "config.yaml"
                  (minimal_entries true (fun _ => true) (fun _ => true) (fun _ => true))
                  "salary" (YInt 1)
                  ltac:(simpl; intuition discriminate) eq_refl eq_refl)
           (minimal_config true (fun _ => true) (fun _ => true) (fun _ => true))
           eq_refl).
Defined.

(** *** Secrets *)

(** X14. On a secrets mapping [validate_secrets] returns the value bound to
    [llm_api_key] exactly when that value is truthy, whatever its type (a
    number or a list is returned as it is, not as text); every falsy value
    (null, [False], 0, the empty text, list or mapping) is reported as an
    empty secret. *)
Theorem validate_secrets_truthy (safe_load : string -> yaml + string)
    (read_text : string -> option string) (path : string)
    (d : list (yaml * yaml)) (v : yaml) :
  load_yaml safe_load read_text path = Ok (YDict d) ->
  dict_get d "llm_api_key" = Some v ->
  validate_secrets safe_load read_text path =
  if truthy v then Ok v else Raise (ConfigError (EmptySecret "llm_api_key" path)).
Proof.
  intros Hload Hget. unfold validate_secrets. rewrite Hload. cbn [bind for_each].
  unfold validate_secret, py_contains, py_getitem, dict_has. rewrite Hget.
  cbn [negb bind]. now destruct (truthy v).
Qed.

Lemma validate_secrets_truthy_witness :
  validate_secrets (parser_of (YDict [(YStr "llm_api_key", YInt 0)]))
    (store_of "") "secrets.yaml"
  = Raise (ConfigError (EmptySecret "llm_api_key" "secrets.yaml")).
Proof.
  exact (validate_secrets_truthy (parser_of (YDict [(YStr "llm_api_key", YInt 0)]))
           (store_of "") "secrets.yaml" [(YStr "llm_api_key", YInt 0)] (YInt 0)
           eq_refl eq_refl).
Defined.

End ConfigGuarantees.

(** ** The data folder, the uploads and the output file *)

Module FlowGuarantees.
Import FileManager Dispatch DispatchExample Uploads.

(** *** [validate_data_folder] *)

Lemma is_dir_after_mkdir (fs fs' : filesystem) (path : string) :
  mkdir_exist_ok fs path = Ok fs' ->
  is_dir fs' path = true /\
  fs_files fs' = fs_files fs /\
  (forall p, is_dir fs p = true -> is_dir fs' p = true) /\
  (forall p, path_exists fs p = true -> path_exists fs' p = true).
Proof.
  unfold mkdir_exist_ok.
  destruct (is_dir fs path) eqn:Hdir.
  - intros H. inversion H; subst fs'. repeat split; auto.
  - destruct (is_file fs path); [discriminate|].
    intros H. inversion H; subst fs'. clear H.
    assert (Hgrow : forall p, is_dir fs p = true ->
              is_dir {| fs_dirs := fs_dirs fs ++ [path]; fs_files := fs_files fs |} p
              = true).
    { intros p Hp. unfold is_dir in *. cbn [fs_dirs].
      rewrite existsb_app, Hp. reflexivity. }
    repeat split.
    + unfold is_dir. cbn [fs_dirs]. rewrite existsb_app. cbn [existsb].
      rewrite String.eqb_refl. now rewrite orb_true_r.
    + exact Hgrow.
    + intros p Hp. unfold path_exists in *. apply orb_true_iff in Hp.
      apply orb_true_iff. destruct Hp as [Hp|Hp]; [left; now apply Hgrow|now right].
Qed.

(** The steps behind a successful [validate_data_folder]. *)
Lemma validate_data_folder_ok (SECRETS_YAML WORK_PREFERENCES_YAML
    PLAIN_TEXT_RESUME_YAML : string) (fs fs' : filesystem) (folder : string)
    (paths : string * string * string * string) :
  validate_data_folder SECRETS_YAML WORK_PREFERENCES_YAML PLAIN_TEXT_RESUME_YAML
    fs folder = (fs', Ok paths) ->
  is_dir fs folder = true /\
  missing_files SECRETS_YAML WORK_PREFERENCES_YAML PLAIN_TEXT_RESUME_YAML fs folder = [] /\
  mkdir_exist_ok fs (path_join folder "output") = Ok fs' /\
  paths = (path_join folder SECRETS_YAML, path_join folder WORK_PREFERENCES_YAML,
           path_join folder PLAIN_TEXT_RESUME_YAML, path_join folder "output").
Proof.
  unfold validate_data_folder. intros Hrun.
  destruct (is_dir fs folder) eqn:Hdir; cbn [negb] in Hrun; [|discriminate].
  destruct (missing_files SECRETS_YAML WORK_PREFERENCES_YAML PLAIN_TEXT_RESUME_YAML
              fs folder) as [|f rest] eqn:Hmissing; [|discriminate].
  destruct (mkdir_exist_ok fs (path_join folder "output")) as [fs1|] eqn:Hmk;
    [|discriminate].
  inversion Hrun; subst fs1 paths. auto.
Qed.

Lemma nothing_missing (SECRETS_YAML WORK_PREFERENCES_YAML
    PLAIN_TEXT_RESUME_YAML : string) (fs : filesystem) (folder file : string) :
  missing_files SECRETS_YAML WORK_PREFERENCES_YAML PLAIN_TEXT_RESUME_YAML fs folder = [] ->
  In file (REQUIRED_FILES SECRETS_YAML WORK_PREFERENCES_YAML PLAIN_TEXT_RESUME_YAML) ->
  path_exists fs (path_join folder file) = true.
Proof.
  intros Hmissing Hin.
  destruct (path_exists fs (path_join folder file)) eqn:Hex; [reflexivity|].
  assert (Hm : In file (missing_files SECRETS_YAML WORK_PREFERENCES_YAML
                          PLAIN_TEXT_RESUME_YAML fs folder)).
  { unfold missing_files. apply filter_In. split; [exact Hin|].
    now rewrite Hex. }
  rewrite Hmissing in Hm. contradiction.
Qed.

(** A failing [validate_data_folder] leaves the file system as it was. *)
Lemma validate_data_folder_raises (SECRETS_YAML WORK_PREFERENCES_YAML
    PLAIN_TEXT_RESUME_YAML : string) (fs fs' : filesystem) (folder : string) (e : exn) :
  validate_data_folder SECRETS_YAML WORK_PREFERENCES_YAML PLAIN_TEXT_RESUME_YAML
    fs folder = (fs', Raise e) ->
  fs' = fs.
Proof.
  unfold validate_data_folder. intros Hrun.
  destruct (is_dir fs folder); cbn [negb] in Hrun; [|now inversion Hrun].
  destruct (missing_files SECRETS_YAML WORK_PREFERENCES_YAML PLAIN_TEXT_RESUME_YAML
              fs folder) as [|f rest]; [|now inversion Hrun].
  destruct (mkdir_exist_ok fs (path_join folder "output")); [discriminate|].
  now inversion Hrun.
Qed.

(** After a successful [validate_data_folder] the resume path it returned
    exists, and the files are those it found. *)
Lemma resolved_layout (SECRETS_YAML WORK_PREFERENCES_YAML
    PLAIN_TEXT_RESUME_YAML : string) (fs fs' : filesystem)
    (folder secrets_file config_file resume_file output_folder : string) :
  validate_data_folder SECRETS_YAML WORK_PREFERENCES_YAML PLAIN_TEXT_RESUME_YAML
    fs folder = (fs', Ok (secrets_file, config_file, resume_file, output_folder)) ->
  path_exists fs' resume_file = true /\ fs_files fs' = fs_files fs.
Proof.
  intros Hrun.
  destruct (validate_data_folder_ok _ _ _ _ _ _ _ Hrun) as [_ [Hmissing [Hmk Hpaths]]].
  inversion Hpaths; subst. clear Hpaths.
  destruct (is_dir_after_mkdir _ _ _ Hmk) as [_ [Hfiles [_ Hexists]]].
  split; [|exact Hfiles].
  exact (Hexists _ (nothing_missing _ _ _ _ _ PLAIN_TEXT_RESUME_YAML Hmissing
                      (or_intror (or_intror (or_introl eq_refl))))).
Qed.

(** X15. When [validate_data_folder] succeeds, the folder is a directory that
    holds the three required files, the four paths returned are the three
    files and the [output] subfolder below it, and afterwards [output] is a
    directory; no file is touched and nothing that existed is lost.  The call
    is idempotent: repeated on the file system it left, it returns the same
    paths and changes nothing. *)
Theorem data_folder_resolved (SECRETS_YAML WORK_PREFERENCES_YAML
    PLAIN_TEXT_RESUME_YAML : string) (fs fs' : filesystem) (folder : string)
    (paths : string * string * string * string) :
  validate_data_folder SECRETS_YAML WORK_PREFERENCES_YAML PLAIN_TEXT_RESUME_YAML
    fs folder = (fs', Ok paths) ->
  paths = (path_join folder SECRETS_YAML, path_join folder WORK_PREFERENCES_YAML,
           path_join folder PLAIN_TEXT_RESUME_YAML, path_join folder "output") /\
  is_dir fs folder = true /\
  (forall file,
      In file (REQUIRED_FILES SECRETS_YAML WORK_PREFERENCES_YAML PLAIN_TEXT_RESUME_YAML) ->
      path_exists fs' (path_join folder file) = true) /\
  is_dir fs' (path_join folder "output") = true /\
  fs_files fs' = fs_files fs /\
  (forall p, path_exists fs p = true -> path_exists fs' p = true) /\
  validate_data_folder SECRETS_YAML WORK_PREFERENCES_YAML PLAIN_TEXT_RESUME_YAML
    fs' folder = (fs', Ok paths).
Proof.
  intros Hrun.
  destruct (validate_data_folder_ok _ _ _ _ _ _ _ Hrun) as [Hdir [Hmissing [Hmk ->]]].
  destruct (is_dir_after_mkdir _ _ _ Hmk) as [Hout [Hfiles [Hdirs Hexists]]].
  assert (Hpresent : forall file,
            In file (REQUIRED_FILES SECRETS_YAML WORK_PREFERENCES_YAML
                       PLAIN_TEXT_RESUME_YAML) ->
            path_exists fs' (path_join folder file) = true).
  { intros file Hin. apply Hexists. exact (nothing_missing _ _ _ _ _ _ Hmissing Hin). }
  repeat split; auto.
  unfold validate_data_folder.
  rewrite (Hdirs folder Hdir). cbn [negb].
  assert (Hnone : missing_files SECRETS_YAML WORK_PREFERENCES_YAML
                    PLAIN_TEXT_RESUME_YAML fs' folder = []).
  { unfold missing_files.
    destruct (filter (fun file => negb (path_exists fs' (path_join folder file)))
                (REQUIRED_FILES SECRETS_YAML WORK_PREFERENCES_YAML
                   PLAIN_TEXT_RESUME_YAML)) as [|f rest] eqn:Hf; [reflexivity|].
    assert (Hin : In f (f :: rest)) by now left.
    rewrite <- Hf in Hin. apply filter_In in Hin. destruct Hin as [Hin Hneg].
    rewrite (Hpresent f Hin) in Hneg. discriminate. }
  rewrite Hnone. unfold mkdir_exist_ok. now rewrite Hout.
Qed.

Lemma data_folder_resolved_witness :
  let fs := {| fs_dirs := ["data_folder"];
               fs_files := [("data_folder/secrets.yaml", "llm_api_key: sk");
                            ("data_folder/work_preferences.yaml", "remote: true");
                            ("data_folder/plain_text_resume.yaml", "name: Ada")] |} in
  let fs' := {| fs_dirs := ["data_folder"; "data_folder/output"];
                fs_files := fs_files fs |} in
  is_dir fs' "data_folder/output" = true /\
  validate_data_folder "secrets.yaml" "work_preferences.yaml" "plain_text_resume.yaml"
    fs' "data_folder"
  = (fs', Ok ("data_folder/secrets.yaml", "data_folder/work_preferences.yaml",
              "data_folder/plain_text_resume.yaml", "data_folder/output")).
Proof.
  intros fs fs'.
  pose proof (data_folder_resolved "secrets.yaml" "work_preferences.yaml"
                "plain_text_resume.yaml" fs fs' "data_folder" _ eq_refl) as H.
  exact (conj (proj1 (proj2 (proj2 (proj2 H))))
              (proj2 (proj2 (proj2 (proj2 (proj2 (proj2 H))))))).
Defined.

(** X16. A failure of [validate_data_folder] changes nothing, and it is a
    [FileNotFoundError] (folder or files missing) unless [output] exists as a
    regular file, which gives [FileExistsError]. *)
Theorem data_folder_failure (SECRETS_YAML WORK_PREFERENCES_YAML
    PLAIN_TEXT_RESUME_YAML : string) (fs fs' : filesystem) (folder : string) (e : exn) :
  validate_data_folder SECRETS_YAML WORK_PREFERENCES_YAML PLAIN_TEXT_RESUME_YAML
    fs folder = (fs', Raise e) ->
  fs' = fs /\
  ((exists msg, e = FileNotFoundError msg) \/
   (e = FileExistsError (path_join folder "output") /\
    is_file fs (path_join folder "output") = true)).
Proof.
  unfold validate_data_folder. intros Hrun.
  destruct (is_dir fs folder); cbn [negb] in Hrun.
  - destruct (missing_files SECRETS_YAML WORK_PREFERENCES_YAML PLAIN_TEXT_RESUME_YAML
                fs folder) as [|f rest].
    + unfold mkdir_exist_ok in Hrun.
      destruct (is_dir fs (path_join folder "output")); [discriminate|].
      destruct (is_file fs (path_join folder "output")) eqn:Hfile; [|discriminate].
      inversion Hrun. split; [reflexivity|]. right. now split.
    + inversion Hrun. split; [reflexivity|]. left. eauto.
  - inversion Hrun. split; [reflexivity|]. left. eauto.
Qed.

Lemma data_folder_failure_witness :
  let fs := {| fs_dirs := ["data_folder"];
               fs_files := [("data_folder/secrets.yaml", "a");
                            ("data_folder/work_preferences.yaml", "b");
                            ("data_folder/plain_text_resume.yaml", "c");
                            ("data_folder/output", "not a folder")] |} in
  fs = fs /\
  ((exists msg, FileExistsError "data_folder/output" = FileNotFoundError msg) \/
   (FileExistsError "data_folder/output" = FileExistsError "data_folder/output" /\
    is_file fs "data_folder/output" = true)).
Proof.
  intros fs.
  exact (data_folder_failure "secrets.yaml" "work_preferences.yaml"
           "plain_text_resume.yaml" fs fs "data_folder" _ eq_refl).
Defined.

(** X17. The re-check of [get_uploads] cannot fail after a successful
    [validate_data_folder]: on the file system it leaves, [get_uploads] of
    the resume path it returned yields the uploads mapping with that path. *)
Theorem uploads_after_resolution (SECRETS_YAML WORK_PREFERENCES_YAML
    PLAIN_TEXT_RESUME_YAML : string) (fs fs' : filesystem)
    (folder secrets_file config_file resume_file output_folder : string) :
  validate_data_folder SECRETS_YAML WORK_PREFERENCES_YAML PLAIN_TEXT_RESUME_YAML
    fs folder = (fs', Ok (secrets_file, config_file, resume_file, output_folder)) ->
  get_uploads fs' resume_file
  = Ok (YDict [(YStr "plainTextResume", YStr resume_file)]) /\
  py_getitem (YDict [(YStr "plainTextResume", YStr resume_file)]) "plainTextResume"
  = Ok (YStr (path_join folder PLAIN_TEXT_RESUME_YAML)).
Proof.
  intros Hrun.
  destruct (validate_data_folder_ok _ _ _ _ _ _ _ Hrun) as [_ [Hmissing [Hmk Hpaths]]].
  inversion Hpaths; subst. clear Hpaths.
  destruct (is_dir_after_mkdir _ _ _ Hmk) as [_ [_ [_ Hexists]]].
  unfold get_uploads.
  rewrite (Hexists _ (nothing_missing _ _ _ _ _ PLAIN_TEXT_RESUME_YAML Hmissing
                        (or_intror (or_intror (or_introl eq_refl))))).
  cbn [negb]. split; [reflexivity|].
  unfold py_getitem. cbn [dict_get key_is]. now rewrite String.eqb_refl.
Qed.

Lemma uploads_after_resolution_witness :
  let fs' := {| fs_dirs := ["data_folder"; "data_folder/output"];
                fs_files := [("data_folder/secrets.yaml", "llm_api_key: sk");
                             ("data_folder/work_preferences.yaml", "remote: true");
                             ("data_folder/plain_text_resume.yaml", "name: Ada")] |} in
  get_uploads fs' "data_folder/plain_text_resume.yaml"
  = Ok (YDict [(YStr "plainTextResume", YStr "data_folder/plain_text_resume.yaml")]).
Proof.
  intros fs'.
  exact (proj1 (uploads_after_resolution "secrets.yaml" "work_preferences.yaml"
                  "plain_text_resume.yaml"
                  {| fs_dirs := ["data_folder"]; fs_files := fs_files fs' |} fs'
                  "data_folder" _ _ _ _ eq_refl)).
Defined.

(** *** Computations that keep the files *)

Lemma same_files_refl (w : world) : same_files w w.
Proof. split; [reflexivity|]. exists []. now rewrite app_nil_r. Qed.

Lemma same_files_trans (w1 w2 w3 : world) :
  same_files w1 w2 -> same_files w2 w3 -> same_files w1 w3.
Proof.
  intros [Hfs1 [a1 Hlog1]] [Hfs2 [a2 Hlog2]]. split; [congruence|].
  exists (a1 ++ a2)%list. now rewrite Hlog2, Hlog1, app_assoc.
Qed.

Lemma keeps_ret {A : Type} (a : A) : keeps_files (io_ret a).
Proof. intros w r w' H. inversion H. apply same_files_refl. Qed.

Lemma keeps_raise {A : Type} (e : exn) : keeps_files (@io_raise A e).
Proof. intros w r w' H. inversion H. apply same_files_refl. Qed.

Lemma keeps_lift {A : Type} (r : result A) : keeps_files (io_lift r).
Proof. intros w r' w' H. inversion H. apply same_files_refl. Qed.

Lemma keeps_log (entry : log_entry) : keeps_files (log entry).
Proof.
  intros w r w' H. inversion H. split; [reflexivity|]. now exists [entry].
Qed.

Lemma keeps_read_file (path : string) : keeps_files (read_file path).
Proof.
  intros w r w' H. unfold read_file in H.
  destruct (file_content (w_fs w) path); [|destruct (is_dir (w_fs w) path)];
    inversion H; apply same_files_refl.
Qed.

Lemma keeps_bind {A B : Type} (c : io A) (k : A -> io B) :
  keeps_files c -> (forall a, keeps_files (k a)) -> keeps_files (io_bind c k).
Proof.
  intros Hc Hk w r w' H. unfold io_bind in H.
  destruct (c w) as [[a|e] w1] eqn:Hrun.
  - exact (same_files_trans _ _ _ (Hc _ _ _ Hrun) (Hk a _ _ _ H)).
  - inversion H; subst. exact (Hc _ _ _ Hrun).
Qed.

Lemma keeps_try {A : Type} (body : io A) (handler : exn -> io A) :
  keeps_files body -> (forall e, keeps_files (handler e)) ->
  keeps_files (try_except body handler).
Proof.
  intros Hb Hh w r w' H. unfold try_except in H.
  destruct (body w) as [[a|e] w1] eqn:Hrun.
  - inversion H; subst. exact (Hb _ _ _ Hrun).
  - exact (same_files_trans _ _ _ (Hb _ _ _ Hrun) (Hh e _ _ _ H)).
Qed.

Lemma keeps_grows {A : Type} (c : io A) : keeps_files c -> grows_log c.
Proof. intros Hc w r w' H. now destruct (Hc _ _ _ H). Qed.

Lemma grows_bind {A B : Type} (c : io A) (k : A -> io B) :
  grows_log c -> (forall a, grows_log (k a)) -> grows_log (io_bind c k).
Proof.
  intros Hc Hk w r w' H. unfold io_bind in H.
  destruct (c w) as [[a|e] w1] eqn:Hrun.
  - destruct (Hc _ _ _ Hrun) as [added1 Hlog1].
    destruct (Hk a _ _ _ H) as [added2 Hlog2].
    exists (added1 ++ added2)%list. now rewrite Hlog2, Hlog1, app_assoc.
  - inversion H; subst. exact (Hc _ _ _ Hrun).
Qed.

Ltac keeps :=
  repeat first
    [ apply keeps_ret | apply keeps_raise | apply keeps_lift | apply keeps_log
    | apply keeps_read_file
    | apply keeps_bind; [|intros ?]
    | apply keeps_try; [|intros ?]
    | match goal with |- keeps_files (if ?b then _ else _) => destruct b end
    | match goal with |- keeps_files (match ?o with Some _ => _ | None => _ end) =>
        destruct o end ].

Lemma keeps_prompt_style_selection (env : collaborators) :
  keeps_files (prompt_style_selection env).
Proof.
  unfold prompt_style_selection.
  destruct (get_styles env); [keeps|]. destruct (prompt_style env); keeps.
Qed.

Lemma keeps_select_style (env : collaborators) (style_name : option string) :
  keeps_files (select_style env style_name).
Proof.
  unfold select_style. cbv zeta.
  assert (Hprompt : keeps_files
            (selected_style <<- prompt_style_selection env ;;
             match given selected_style with
             | Some name => io_ret name
             | None =>
                 log (LogWarning "No style selected. Proceeding with default style.") >>>
                 io_ret "default"
             end)).
  { apply keeps_bind; [apply keeps_prompt_style_selection|]. intros a. keeps. }
  destruct style_name as [name|]; [|exact Hprompt].
  match goal with
  | |- context [match ?known with true => _ | false => _ end] => destruct known
  end; [keeps|exact Hprompt].
Qed.

Lemma keeps_decode_payload (env : collaborators) (payload : string) :
  keeps_files (decode_payload payload).
Proof. unfold decode_payload. keeps. Qed.

Lemma grows_write_pdf (output_dir name data : string) :
  grows_log (write_pdf output_dir name data).
Proof.
  intros w r w'. unfold write_pdf, try_except, io_bind, write_file, log, io_raise.
  destruct (is_dir (w_fs w) output_dir); cbn [negb];
    [destruct (is_dir (w_fs w) (path_join output_dir name))|];
    cbn [is_io_error]; intros H; inversion H; cbn [w_log]; eauto.
Qed.

Lemma try_except_raises {A : Type} (body : io A) (handler : exn -> io A)
    (w w' : world) (e : exn) :
  try_except body handler w = (Raise e, w') ->
  exists e0 w1, body w = (Raise e0, w1) /\ handler e0 w1 = (Raise e, w').
Proof.
  unfold try_except. destruct (body w) as [[a|e0] w1]; [discriminate|]. eauto.
Qed.

(** X18. Every failure of the plain-resume flow is logged between two
    records: whenever [create_resume_pdf] raises, whatever the cause
    (unreadable resume, a collaborator, decoding, a missing key, the write),
    the records that were in the log are kept, the first record added is the
    announcement of the flow, and the last one is the exception record for
    the very error that is raised again. *)
Theorem create_resume_pdf_failure_logged (env : collaborators) (parameters : yaml)
    (llm_api_key : string) (style_name output_filename : option string)
    (w w' : world) (e : exn) :
  create_resume_pdf env parameters llm_api_key style_name output_filename w
  = (Raise e, w') ->
  exists between,
    w_log w' = (w_log w
                ++ [LogInfo "Generating a CV based on provided parameters."]
                ++ between
                ++ [LogException ("An error occurred while creating the CV: "
                                    ++ exn_text e)])%list.
Proof.
  unfold create_resume_pdf. intros Hrun.
  destruct (try_except_raises _ _ _ _ _ Hrun) as [e0 [w1 [Hbody Hhandler]]].
  unfold io_bind, log, io_raise in Hhandler. inversion Hhandler; subst. clear Hhandler.
  unfold io_bind at 1 in Hbody. unfold log at 1 in Hbody.
  match type of Hbody with
  | ?rest {| w_fs := _; w_log := _ |} = _ => assert (Hgrows : grows_log rest)
  end.
  { repeat (apply grows_bind;
            [apply keeps_grows;
             first [apply keeps_lift | apply keeps_read_file
                   | apply keeps_select_style | apply keeps_decode_payload; exact env]
            | intros ?]).
    apply grows_write_pdf. }
  destruct (Hgrows _ _ _ Hbody) as [between Hlog].
  cbn [w_log] in Hlog |- *. exists between.
  rewrite Hlog, <- !app_assoc. reflexivity.
Qed.

Lemma create_resume_pdf_failure_logged_witness :
  exists between,
    w_log (snd (example_run "abc"))
    = (w_log example_world
       ++ [LogInfo "Generating a CV based on provided parameters."]
       ++ between
       ++ [LogException ("An error occurred while creating the CV: "
                           ++ exn_text (BinasciiError "Incorrect padding"))])%list.
Proof.
  exact (create_resume_pdf_failure_logged (example_env "abc") example_parameters
           "sk-123" (Some "default") (Some "cv.pdf") example_world _ _ eq_refl).
Defined.

(** *** A run that succeeds *)

Lemma io_bind_ok {A B : Type} (c : io A) (k : A -> io B) (w w' : world) (b : B) :
  io_bind c k w = (Ok b, w') ->
  exists a w1, c w = (Ok a, w1) /\ k a w1 = (Ok b, w').
Proof.
  unfold io_bind. destruct (c w) as [[a|e] w1]; [eauto|discriminate].
Qed.

Lemma io_lift_ok {A : Type} (r : result A) (w w' : world) (a : A) :
  io_lift r w = (Ok a, w') -> r = Ok a /\ w' = w.
Proof. unfold io_lift. intros H. now inversion H. Qed.

Lemma try_except_ok {A : Type} (body : io A) (handler : exn -> io A)
    (w w' : world) (a : A) :
  (forall e w1 w2, handler e w1 <> (Ok a, w2)) ->
  try_except body handler w = (Ok a, w') -> body w = (Ok a, w').
Proof.
  intros Hraises. unfold try_except.
  destruct (body w) as [[a0|e] w1]; [trivial|].
  intros H. now contradiction (Hraises e w1 w').
Qed.

Lemma reraise_never_ok {A : Type} (guard : exn -> bool) (text : exn -> log_entry)
    (e : exn) (w1 w2 : world) (a : A) :
  (if guard e then log (text e) >>> io_raise e else io_raise e) w1 <> (Ok a, w2).
Proof.
  destruct (guard e); unfold io_bind, log, io_raise; discriminate.
Qed.

Lemma decode_payload_ok (payload data : string) (w w' : world) :
  decode_payload payload w = (Ok data, w') ->
  Base64.b64decode payload = Ok data /\ w' = w.
Proof.
  unfold decode_payload. intros H.
  apply try_except_ok in H.
  - now apply io_lift_ok in H.
  - intros e w1 w2.
    exact (reraise_never_ok is_binascii_error
             (fun e => LogError ("Error decoding Base64: " ++ exn_text e)) e w1 w2 data).
Qed.

Lemma file_content_put (files : list (string * string)) (dirs : list string)
    (path data p : string) :
  file_content {| fs_dirs := dirs; fs_files := put_file files path data |} p
  = if (p =? path) then Some data
    else file_content {| fs_dirs := dirs; fs_files := files |} p.
Proof.
  unfold file_content. cbn [fs_files].
  induction files as [|[q content] rest IH]; cbn [put_file find fst].
  - rewrite (String.eqb_sym path p). now destruct (p =? path).
  - destruct (q =? path) eqn:Hq; cbn [find fst].
    + apply String.eqb_eq in Hq. subst q.
      rewrite (String.eqb_sym path p). now destruct (p =? path).
    + destruct (q =? p) eqn:Hqp.
      * apply String.eqb_eq in Hqp. subst q.
        rewrite Hq. reflexivity.
      * exact IH.
Qed.

Lemma write_pdf_ok (output_dir name data : string) (w w' : world) :
  write_pdf output_dir name data w = (Ok tt, w') ->
  is_dir (w_fs w) output_dir = true /\
  is_dir (w_fs w) (path_join output_dir name) = false /\
  w_fs w' = {| fs_dirs := fs_dirs (w_fs w);
               fs_files := put_file (fs_files (w_fs w))
                             (path_join output_dir name) data |}.
Proof.
  unfold write_pdf. intros H.
  apply try_except_ok in H.
  - apply io_bind_ok in H. destruct H as [[] [w1 [Hwrite Hlog]]].
    unfold write_file in Hwrite.
    destruct (is_dir (w_fs w) output_dir); cbn [negb] in Hwrite; [|discriminate].
    destruct (is_dir (w_fs w) (path_join output_dir name)); [discriminate|].
    inversion Hwrite; subst w1. unfold log in Hlog. inversion Hlog.
    cbn [w_fs]. auto.
  - intros e w1 w2.
    exact (reraise_never_ok is_io_error
             (fun e => LogError ("Error writing file: " ++ exn_text e)) e w1 w2 tt).
Qed.

(** The steps behind a successful [create_resume_pdf], down to the files
    it leaves. *)
Lemma create_resume_pdf_ok (env : collaborators) (parameters : yaml)
    (llm_api_key : string) (style_name output_filename : option string)
    (w w' : world) :
  create_resume_pdf env parameters llm_api_key style_name output_filename w
  = (Ok tt, w') ->
  exists payload data output_dir style_used,
    facade_create_resume_pdf env = Ok payload /\
    Base64.b64decode payload = Ok data /\
    py_getitem parameters "outputFileDirectory" = Ok (YStr output_dir) /\
    is_dir (w_fs w) output_dir = true /\
    w_fs w' = {| fs_dirs := fs_dirs (w_fs w);
                 fs_files :=
                   put_file (fs_files (w_fs w))
                     (path_join output_dir
                        (get_output_filename env "Generate Resume" style_used
                           output_filename))
                     data |}.
Proof.
  unfold create_resume_pdf. intros Hrun.
  apply try_except_ok in Hrun;
    [|intros e w1 w2; unfold io_bind, log, io_raise; discriminate].
  apply io_bind_ok in Hrun. destruct Hrun as [[] [w1 [Hlog Hrun]]].
  pose proof (keeps_log _ _ _ _ Hlog) as [Hfs1 _].
  apply io_bind_ok in Hrun. destruct Hrun as [uploads [w2 [Hup Hrun]]].
  apply io_lift_ok in Hup. destruct Hup as [_ ->].
  apply io_bind_ok in Hrun. destruct Hrun as [resume_file [w2 [Hrf Hrun]]].
  apply io_lift_ok in Hrf. destruct Hrf as [_ ->].
  apply io_bind_ok in Hrun. destruct Hrun as [resume_path [w2 [Hrp Hrun]]].
  apply io_lift_ok in Hrp. destruct Hrp as [_ ->].
  apply io_bind_ok in Hrun. destruct Hrun as [text [w2 [Hread Hrun]]].
  pose proof (keeps_read_file _ _ _ _ Hread) as [Hfs2 _].
  apply io_bind_ok in Hrun. destruct Hrun as [style_used [w3 [Hstyle Hrun]]].
  pose proof (keeps_select_style _ _ _ _ _ Hstyle) as [Hfs3 _].
  apply io_bind_ok in Hrun. destruct Hrun as [[] [w4 [Hmk Hrun]]].
  apply io_lift_ok in Hmk. destruct Hmk as [_ ->].
  apply io_bind_ok in Hrun. destruct Hrun as [[] [w4 [Hbr Hrun]]].
  apply io_lift_ok in Hbr. destruct Hbr as [_ ->].
  apply io_bind_ok in Hrun. destruct Hrun as [payload [w4 [Hbuild Hrun]]].
  apply io_lift_ok in Hbuild. destruct Hbuild as [Hbuild ->].
  apply io_bind_ok in Hrun. destruct Hrun as [data [w4 [Hdec Hrun]]].
  apply decode_payload_ok in Hdec. destruct Hdec as [Hdec ->].
  apply io_bind_ok in Hrun. destruct Hrun as [directory [w4 [Hdir Hrun]]].
  apply io_lift_ok in Hdir. destruct Hdir as [Hdir ->].
  apply io_bind_ok in Hrun. destruct Hrun as [output_dir [w4 [Hpath Hrun]]].
  apply io_lift_ok in Hpath. destruct Hpath as [Hpath ->].
  destruct directory; try discriminate Hpath. inversion Hpath; subst s. clear Hpath.
  destruct (write_pdf_ok _ _ _ _ _ Hrun) as [Hisdir [_ Hfs']].
  assert (Hfs : w_fs w3 = w_fs w) by congruence.
  rewrite Hfs in *.
  exists payload, data, output_dir, style_used. auto.
Qed.

(** X19. When [create_resume_pdf] succeeds, the build handed back a payload
    that decodes and the parameters name an output directory.  When the file
    name used (the given one, or the generated one) is a plain name, that
    directory exists and the file of that name in it holds the decoded
    payload. *)
Theorem create_resume_pdf_writes_payload (env : collaborators) (parameters : yaml)
    (llm_api_key : string) (style_name output_filename : option string)
    (w w' : world) :
  create_resume_pdf env parameters llm_api_key style_name output_filename w
  = (Ok tt, w') ->
  exists payload data output_dir style_used,
    facade_create_resume_pdf env = Ok payload /\
    Base64.b64decode payload = Ok data /\
    py_getitem parameters "outputFileDirectory" = Ok (YStr output_dir) /\
    let name :=
      match given output_filename with
      | Some name => name
      | None => get_output_filename env "Generate Resume" style_used None
      end in
    (plain_name name = true ->
     is_dir (w_fs w') output_dir = true /\
     file_content (w_fs w') (path_join output_dir name) = Some data).
Proof.
  intros Hrun.
  destruct (create_resume_pdf_ok _ _ _ _ _ _ _ Hrun)
    as [payload [data [output_dir [style_used [Hbuild [Hdec [Hdir [Hisdir Hfs']]]]]]]].
  exists payload, data, output_dir, style_used.
  assert (Hname : get_output_filename env "Generate Resume" style_used output_filename
                  = match given output_filename with
                    | Some name => name
                    | None => get_output_filename env "Generate Resume" style_used None
                    end).
  { unfold get_output_filename. now destruct (given output_filename). }
  rewrite Hname in Hfs'.
  split; [exact Hbuild|]. split; [exact Hdec|]. split; [exact Hdir|].
  cbv zeta. intros _. rewrite Hfs'. split.
  - exact Hisdir.
  - rewrite file_content_put. now rewrite String.eqb_refl.
Qed.

Lemma create_resume_pdf_writes_payload_witness :
  exists payload data output_dir style_used,
    facade_create_resume_pdf (example_env "aGVsbG8=") = Ok payload /\
    Base64.b64decode payload = Ok data /\
    py_getitem example_parameters "outputFileDirectory" = Ok (YStr output_dir) /\
    let name :=
      match given (Some "cv.pdf") with
      | Some name => name
      | None => get_output_filename (example_env "aGVsbG8=") "Generate Resume"
                  style_used None
      end in
    (plain_name name = true ->
     is_dir (w_fs (snd (example_run "aGVsbG8="))) output_dir = true /\
     file_content (w_fs (snd (example_run "aGVsbG8="))) (path_join output_dir name)
     = Some data).
Proof.
  exact (create_resume_pdf_writes_payload (example_env "aGVsbG8=") example_parameters
           "sk-123" (Some "default") (Some "cv.pdf") example_world _ eq_refl).
Defined.

(** *** File names and styles *)


(** X20. [get_output_filename] returns a custom file name that is not empty
    as it is.  Without one (none given, or the empty text) the name is
    [tag_style_timestamp.pdf], where for each label of [ACTION_MAPPING] the
    tag is the key of that label, and it is ["output"] for an action that is
    no label of the table. *)
Theorem output_filename_shape (env : collaborators) (action style : string)
    (custom_filename : option string) :
  (forall name, custom_filename = Some name -> name <> "" ->
     get_output_filename env action style custom_filename = name)
  /\
  (given custom_filename = None ->
   forall tag, In (tag, action) ACTION_MAPPING ->
     get_output_filename env action style custom_filename
     = tag ++ "_" ++ style ++ "_" ++ strftime_now env ++ ".pdf")
  /\
  (given custom_filename = None ->
   (forall tag, ~ In (tag, action) ACTION_MAPPING) ->
     get_output_filename env action style custom_filename
     = "output_" ++ style ++ "_" ++ strftime_now env ++ ".pdf").
Proof.
  unfold get_output_filename. split; [|split].
  - intros name -> Hne. cbn [given].
    destruct (name =? "") eqn:E; [|reflexivity].
    apply String.eqb_eq in E. contradiction.
  - intros -> tag Hin. simpl in Hin.
    destruct Hin as [H|[H|[H|[]]]]; inversion H; subst; reflexivity.
  - intros -> Hnone.
    destruct (find (fun kv => snd kv =? action) ACTION_MAPPING) as [[tag label]|]
      eqn:Hfind; [|reflexivity].
    apply find_some in Hfind. destruct Hfind as [Hin Heq].
    cbn [snd] in Heq. apply String.eqb_eq in Heq. subst label.
    now contradiction (Hnone tag).
Qed.

Lemma output_filename_shape_witness :
  get_output_filename (example_env "") "Generate Resume" "default" (Some "")
  = "resume" ++ "_" ++ "default" ++ "_" ++ "20240101_120000" ++ ".pdf".
Proof.
  exact (proj1 (proj2 (output_filename_shape (example_env "") "Generate Resume"
                         "default" (Some "")))
           eq_refl "resume" (or_introl eq_refl)).
Defined.






End FlowGuarantees.

(** ** The program as a whole *)

Module ProgramGuarantees.
Import ConfigValidator FileManager Dispatch DispatchExample Uploads Application.
Import FlowGuarantees.

(** [handle_inquiries] without an action, and with the plain-resume label. *)
Lemma handle_inquiries_nothing (env : collaborators)
    (tailored cover : yaml -> string -> option string -> option string ->
                      option string -> io unit)
    (parameters : yaml) (llm_api_key : string)
    (style job_url output_filename : option string) (w : world) :
  handle_inquiries env tailored cover "" parameters llm_api_key style job_url
    output_filename w
  = (Ok tt, append_log w [LogWarning "No actions selected. Nothing to execute."]).
Proof. reflexivity. Qed.

Lemma handle_inquiries_resume (env : collaborators)
    (tailored cover : yaml -> string -> option string -> option string ->
                      option string -> io unit)
    (parameters : yaml) (llm_api_key : string)
    (style job_url output_filename : option string) (w : world) :
  handle_inquiries env tailored cover "Generate Resume" parameters llm_api_key
    style job_url output_filename w
  = match create_resume_pdf env parameters llm_api_key style output_filename
            (append_log w [LogInfo "Crafting a standout professional resume..."])
    with
    | (Ok _, w') => (Ok tt, w')
    | (Raise e, w') =>
        (Raise e,
         append_log w' [LogException
                          ("An error occurred while handling inquiries: "
                           ++ exn_text e)])
    end.
Proof.
  unfold handle_inquiries, try_except, append_log.
  change (negb ("Generate Resume" =? "")) with true.
  change ("Generate Resume" =? "Generate Resume") with true.
  change ("Generate Resume Tailored for Job Description" =? "Generate Resume")
    with false.
  change ("Generate Tailored Cover Letter for Job Description" =? "Generate Resume")
    with false.
  cbn iota. unfold io_bind at 1 2 3. unfold log at 1.
  destruct (create_resume_pdf env parameters llm_api_key style output_filename
              {| w_fs := w_fs w;
                 w_log := (w_log w
                           ++ [LogInfo "Crafting a standout professional resume..."])%list |})
    as [[[]|e] w'].
  - unfold io_ret. unfold io_bind. reflexivity.
  - unfold io_bind, log, io_raise. reflexivity.
Qed.

(** X23. [handle_inquiries] runs at most one flow.  With no action selected
    it only logs a warning; with an action that is none of the three labels
    it does nothing at all, not even log; with the label of the plain resume
    it announces the flow and runs [create_resume_pdf] alone, whatever the
    two other flows would do, and an exception of the flow is logged once
    more and raised again. *)
Theorem handle_inquiries_dispatch (env : collaborators)
    (tailored cover : yaml -> string -> option string -> option string ->
                      option string -> io unit)
    (selected_actions : string) (parameters : yaml) (llm_api_key : string)
    (style job_url output_filename : option string) (w : world) :
  (selected_actions = "" ->
     handle_inquiries env tailored cover selected_actions parameters llm_api_key
       style job_url output_filename w
     = (Ok tt, append_log w [LogWarning "No actions selected. Nothing to execute."]))
  /\
  (selected_actions <> "" ->
   ~ In selected_actions (map snd ACTION_MAPPING) ->
     handle_inquiries env tailored cover selected_actions parameters llm_api_key
       style job_url output_filename w = (Ok tt, w))
  /\
  (selected_actions = "Generate Resume" ->
     handle_inquiries env tailored cover selected_actions parameters llm_api_key
       style job_url output_filename w
     = match create_resume_pdf env parameters llm_api_key style output_filename
               (append_log w [LogInfo "Crafting a standout professional resume..."])
       with
       | (Ok _, w') => (Ok tt, w')
       | (Raise e, w') =>
           (Raise e,
            append_log w' [LogException
                             ("An error occurred while handling inquiries: "
                              ++ exn_text e)])
       end).
Proof.
  split; [|split].
  - intros ->. apply handle_inquiries_nothing.
  - unfold handle_inquiries, try_except.
    intros Hne Hnot. apply String.eqb_neq in Hne. rewrite Hne. cbn [negb].
    assert (H1 : ("Generate Resume" =? selected_actions) = false).
    { apply String.eqb_neq. intros <-. apply Hnot. simpl. auto. }
    assert (H2 : ("Generate Resume Tailored for Job Description" =? selected_actions)
                 = false).
    { apply String.eqb_neq. intros <-. apply Hnot. simpl. auto. }
    assert (H3 : ("Generate Tailored Cover Letter for Job Description"
                    =? selected_actions) = false).
    { apply String.eqb_neq. intros <-. apply Hnot. simpl. auto. }
    rewrite H1, H2, H3. unfold io_bind, io_ret. now destruct w.
  - intros ->. apply handle_inquiries_resume.
Qed.

Lemma handle_inquiries_dispatch_witness :
  handle_inquiries (example_env "") (fun _ _ _ _ _ => io_raise TypeError)
    (fun _ _ _ _ _ => io_raise TypeError) "Generate Something" example_parameters
    "sk-123" None None None example_world = (Ok tt, example_world).
Proof.
  apply (proj1 (proj2 (handle_inquiries_dispatch (example_env "")
                         (fun _ _ _ _ _ => io_raise TypeError)
                         (fun _ _ _ _ _ => io_raise TypeError) "Generate Something"
                         example_parameters "sk-123" None None None example_world))).
  - discriminate.
  - simpl. intuition discriminate.
Defined.

(** *** [main] *)

Section MainProperties.

Variable safe_load : string -> yaml + string.
Variable env : collaborators.
Variables tailored cover :
  yaml -> string -> option string -> option string -> option string -> io unit.
Variables SECRETS_YAML WORK_PREFERENCES_YAML PLAIN_TEXT_RESUME_YAML : string.
Variable str_distance : yaml -> string.
Variable approved_text : string.
Variable format_exc : exn -> string.

Local Abbreviation program :=
  (main safe_load env tailored cover SECRETS_YAML WORK_PREFERENCES_YAML
     PLAIN_TEXT_RESUME_YAML str_distance approved_text format_exc).
Local Abbreviation program_body :=
  (main_body safe_load env tailored cover SECRETS_YAML WORK_PREFERENCES_YAML
     PLAIN_TEXT_RESUME_YAML str_distance approved_text).
Local Abbreviation resolve :=
  (validate_data_folder SECRETS_YAML WORK_PREFERENCES_YAML PLAIN_TEXT_RESUME_YAML).

(** X24. When the data folder or one of its required files is missing,
    [main] puts out the two file-not-found records, naming the folder or the
    missing files, and nothing else happens: no file or directory is created
    and no exception leaves [main]. *)
Theorem main_missing_input (action style job_url filename : option string)
    (answer : result (option (option string))) (s : app_state)
    (fs' : filesystem) (msg : string) :
  resolve (app_fs s) "data_folder" = (fs', Raise (FileNotFoundError msg)) ->
  program action style job_url filename answer s
  = put [Logged (LogError ("File not found: " ++ msg));
         Logged (LogError "Ensure all required files are present in the data folder.")]
        s.
Proof.
  intros Hresolve. unfold main, main_body.
  pose proof (validate_data_folder_raises _ _ _ _ _ _ _ Hresolve) as ->.
  rewrite Hresolve. cbn [error_text exn_text]. now destruct s.
Qed.

(** The part of [main] after the three validations. *)
Lemma main_body_validated (action style job_url filename : option string)
    (answer : result (option (option string))) (s : app_state) (fs1 : filesystem)
    (secrets_file config_file resume_file output_folder : string)
    (config llm_api_key : yaml) :
  resolve (app_fs s) "data_folder"
  = (fs1, Ok (secrets_file, config_file, resume_file, output_folder)) ->
  validate_config safe_load (file_content fs1) config_file = Ok config ->
  validate_secrets safe_load (file_content fs1) secrets_file = Ok llm_api_key ->
  exists d,
    config = YDict d /\
    let parameters :=
      YDict (dict_set (dict_set d "uploads"
                         (YDict [(YStr "plainTextResume", YStr resume_file)]))
               "outputFileDirectory" (YStr output_folder)) in
    let s1 := {| app_fs := fs1; app_out := app_out s |} in
    program_body action style job_url filename answer s =
    match given action with
    | Some name =>
        match given (option_map snd
                       (find (fun kv => fst kv =? name) ACTION_MAPPING)) with
        | Some selected_action =>
            run_flow (handle_inquiries env tailored cover selected_action parameters
                        (api_key_text llm_api_key) style job_url filename) s1
        | None => (Ok tt, put [Logged (LogError ("Invalid action: " ++ name))] s1)
        end
    | None =>
        run_flow (handle_inquiries env tailored cover
                    (fst (prompt_user_action str_distance approved_text answer))
                    parameters (api_key_text llm_api_key) style job_url filename)
          (put (map Printed (snd (prompt_user_action str_distance approved_text answer)))
             s1)
    end.
Proof.
  intros Hresolve Hconfig Hsecrets.
  assert (Hdict : exists d, config = YDict d).
  { unfold validate_config in Hconfig.
    destruct (load_yaml safe_load (file_content fs1) config_file) as [doc|];
      [|discriminate].
    cbn [bind] in Hconfig.
    destruct (ConfigGuarantees.validate_parameters_conforms _ _ _ Hconfig)
      as [d [-> _]].
    now exists d. }
  destruct Hdict as [d ->].
  exists d. split; [reflexivity|]. cbv zeta.
  unfold main_body. rewrite Hresolve, Hconfig, Hsecrets. cbn [bind].
  destruct (resolved_layout _ _ _ _ _ _ _ _ _ _ Hresolve) as [Hexists _].
  unfold get_uploads. rewrite Hexists. cbn [negb bind py_setitem].
  destruct (given action); [reflexivity|].
  now destruct (prompt_user_action str_distance approved_text answer).
Qed.


(** X26. Without an action nothing is executed.  After the three
    validations, an action name that is no key of [ACTION_MAPPING] gets the
    invalid-action record; and when no action is given and the prompt yields
    none (interrupted, failed, or answered without a choice), [main] prints
    what [prompt_user_action] prints and logs that no action was selected.
    In both cases no flow runs and the files stay as the validation left
    them. *)
Theorem main_without_action (action style job_url filename : option string)
    (answer : result (option (option string))) (s : app_state) (fs1 : filesystem)
    (secrets_file config_file resume_file output_folder : string)
    (config llm_api_key : yaml) :
  resolve (app_fs s) "data_folder"
  = (fs1, Ok (secrets_file, config_file, resume_file, output_folder)) ->
  validate_config safe_load (file_content fs1) config_file = Ok config ->
  validate_secrets safe_load (file_content fs1) secrets_file = Ok llm_api_key ->
  (forall name, given action = Some name ->
     ~ In name (map fst ACTION_MAPPING) ->
     program action style job_url filename answer s
     = {| app_fs := fs1;
          app_out := (app_out s
                      ++ [Logged (LogError ("Invalid action: " ++ name))])%list |})
  /\
  (given action = None ->
   fst (prompt_user_action str_distance approved_text answer) = "" ->
     program action style job_url filename answer s
     = {| app_fs := fs1;
          app_out :=
            (app_out s
             ++ map Printed (snd (prompt_user_action str_distance approved_text answer))
             ++ [Logged (LogWarning "No actions selected. Nothing to execute.")])%list |}).
Proof.
  intros Hresolve Hconfig Hsecrets.
  destruct (main_body_validated action style job_url filename answer s _ _ _ _ _ _ _
              Hresolve Hconfig Hsecrets) as [d [-> Hbody]].
  cbv zeta in Hbody. unfold main.
  split.
  - intros name Hgiven Hnot. rewrite Hbody, Hgiven.
    assert (Hfind : find (fun kv => fst kv =? name) ACTION_MAPPING = None).
    { destruct (find (fun kv => fst kv =? name) ACTION_MAPPING) as [kv|] eqn:Hf;
        [|reflexivity].
      apply find_some in Hf. destruct Hf as [Hin Heq].
      apply String.eqb_eq in Heq. subst name.
      contradiction Hnot. now apply in_map. }
    rewrite Hfind. reflexivity.
  - intros Hgiven Hnone. rewrite Hbody, Hgiven, Hnone.
    unfold run_flow.
    rewrite handle_inquiries_nothing.
    unfold append_log, put. cbn [w_fs w_log app_fs app_out map app].
    now rewrite <- app_assoc.
Qed.

End MainProperties.

Import ProgramExample.

Lemma main_missing_input_witness :
  program_on secrets_only_fs "aGVsbG8=" (Some "resume") None (Ok None)
  = put [Logged (LogError ("File not found: "
                           ++ "Missing files in data folder: work_preferences.yaml, plain_text_resume.yaml"));
         Logged (LogError "Ensure all required files are present in the data folder.")]
        {| app_fs := secrets_only_fs; app_out := [] |}.
Proof.
  apply (main_missing_input program_parser (example_env "aGVsbG8=") no_flow no_flow
           "secrets.yaml" "work_preferences.yaml" "plain_text_resume.yaml"
           (fun _ => "?") "{0, 5, 10, 25, 50, 100}" (fun _ => "Traceback")
           (Some "resume") None None None (Ok None)
           {| app_fs := secrets_only_fs; app_out := [] |} secrets_only_fs).
  reflexivity.
Defined.


Lemma main_without_action_witness :
  program_run "valid preferences" "key" "aGVsbG8=" (Some "nothing") None (Ok None)
  = {| app_fs := {| fs_dirs := ["data_folder"; "data_folder/output"];
                    fs_files := fs_files (program_fs "valid preferences" "key") |};
       app_out := [Logged (LogError "Invalid action: nothing")] |}
  /\
  program_run "valid preferences" "key" "aGVsbG8=" None None (Ok None)
  = {| app_fs := {| fs_dirs := ["data_folder"; "data_folder/output"];
                    fs_files := fs_files (program_fs "valid preferences" "key") |};
       app_out := [Printed "No answer provided. The user may have interrupted.";
                   Logged (LogWarning "No actions selected. Nothing to execute.")] |}.
Proof.
  split.
  - apply (proj1 (main_without_action program_parser (example_env "aGVsbG8=") no_flow
                    no_flow "secrets.yaml" "work_preferences.yaml"
                    "plain_text_resume.yaml" (fun _ => "?") "{0, 5, 10, 25, 50, 100}"
                    (fun _ => "Traceback") (Some "nothing") None None None (Ok None)
                    {| app_fs := program_fs "valid preferences" "key"; app_out := [] |}
                    _ _ _ _ _ _ _ eq_refl eq_refl eq_refl) "nothing" eq_refl).
    cbn. intros [H | [H | [H | []]]]; discriminate H.
  - apply (proj2 (main_without_action program_parser (example_env "aGVsbG8=") no_flow
                    no_flow "secrets.yaml" "work_preferences.yaml"
                    "plain_text_resume.yaml" (fun _ => "?") "{0, 5, 10, 25, 50, 100}"
                    (fun _ => "Traceback") None None None None (Ok None)
                    {| app_fs := program_fs "valid preferences" "key"; app_out := [] |}
                    _ _ _ _ _ _ _ eq_refl eq_refl eq_refl) eq_refl eq_refl).
Defined.

End ProgramGuarantees.
